(** * Coupons, enrollment, progress tracking and category/course administration

    A shallow embedding of the tRPC procedures of the course platform:

    - [couponsRouter] ([calculateDiscount], [applyCoupon]),
    - [adminCouponsRouter] ([updateCoupon], [calculateDiscount]),
    - [studentRouter] ([enrollCourse], [updateLessonProgress],
      [markLessonComplete]) with its helper [updateCourseProgress],
    - [adminCategoriesRouter.deleteCategory],
    - [adminCoursesRouter.updateCourse] and the upload router's
      [publishCourse].

    The database behind the Prisma client is a record of tables, each a
    list of rows in insertion order.  A procedure is a function from the
    database to the database after the call together with either the value it
    returns or the exception it throws; writes made before a [throw] stay,
    except inside [transaction].

    JavaScript numbers that hold money and percentages are modelled by exact
    rationals ([Q]), so the rounding of IEEE doubles is not part of the
    model; integer columns by [Z]; [Date]s by their millisecond timestamp in
    [Z]; nullable columns and optional inputs by [option].  Of the zod
    schemas the length, range and character-class constraints are kept; the
    format checks of ids ([cuid]) and URLs are not. *)

From Stdlib Require Import List String Ascii ZArith QArith Qminmax Bool Lia Arith.
From Stdlib Require Import DecimalString Qround Permutation Sorted.
Import ListNotations.

Local Open Scope string_scope.
Local Open Scope Z_scope.

(** ** Identifiers, numbers and JavaScript truthiness *)

Definition Id := string.
Definition Date := Z.

Definition id_eqb (a b : Id) : bool := String.eqb a b.

(** [cuid()]: the default of the id columns, drawn from a counter kept with
    the database. *)
Definition cuid (n : nat) : Id :=
  String "c" (NilEmpty.string_of_uint (Nat.to_uint n)).

(** [String.prototype.toUpperCase] on the ASCII range. *)
Definition upper_ascii (c : ascii) : ascii :=
  let n := nat_of_ascii c in
  if ((97 <=? n) && (n <=? 122))%nat then ascii_of_nat (n - 32) else c.

Fixpoint toUpperCase (s : string) : string :=
  match s with
  | EmptyString => EmptyString
  | String c s' => String (upper_ascii c) (toUpperCase s')
  end.

(** A nullable integer used as a condition: [null] and [0] are falsy. *)
Definition truthy_int (o : option Z) : bool :=
  match o with
  | Some n => negb (n =? 0)
  | None => false
  end.

(** An optional string used as a condition: [undefined] and [''] are falsy. *)
Definition truthy_str (o : option string) : bool :=
  match o with
  | Some s => negb (String.eqb s "")
  | None => false
  end.

(** An optional number used as a condition: [undefined] and [0] are falsy. *)
Definition truthy_num (o : option Q) : bool :=
  match o with
  | Some q => negb (Qeq_bool q 0)
  | None => false
  end.

Definition isSome {A} (o : option A) : bool :=
  match o with Some _ => true | None => false end.

(** [a > b] on numbers. *)
Definition Qgtb (a b : Q) : bool := negb (Qle_bool a b).

Definition Math_min (a b : Q) : Q := Qmin a b.
Definition Math_max (a b : Q) : Q := Qmax a b.

(** ** Rows of the tables

    Columns that no modelled procedure reads or writes (timestamps kept by
    the database, surrogate keys that are never looked up) are left out. *)

Inductive DiscountType := PERCENTAGE | FIXED_AMOUNT.

Definition DiscountType_eqb (a b : DiscountType) : bool :=
  match a, b with
  | PERCENTAGE, PERCENTAGE | FIXED_AMOUNT, FIXED_AMOUNT => true
  | _, _ => false
  end.

Inductive EnrollmentStatus := ACTIVE | EXPIRED | REFUNDED.

Inductive Difficulty := BEGINNER | INTERMEDIATE | ADVANCED | EXPERT.

Module Coupon.
Record t := mk {
    id : Id;
    code : string;
    name : string;
    discountType : DiscountType;
    discountValue : Q;
    maxUses : option Z;
    usedCount : Z;
    maxUsesPerUser : option Z;
    validFrom : option Date;
    validUntil : option Date;
    isActive : bool;
    isGlobal : bool
  }.
End Coupon.

Module CourseCoupon.
Record t := mk { couponId : Id; courseId : Id }.
End CourseCoupon.

Module CouponUsage.
Record t := mk {
    userId : Id;
    couponId : Id;
    courseId : Id;
    discountAmount : Q
  }.
End CouponUsage.

Module Enrollment.
Record t := mk {
    id : Id;
    userId : Id;
    courseId : Id;
    appliedCouponId : option Id;
    status : EnrollmentStatus;
    progress : Q;
    completedAt : option Date
  }.
End Enrollment.

Module Course.
Record t := mk {
    id : Id;
    slug : string;
    title : string;
    description : string;
    price : Q;
    difficulty : Difficulty;
    categoryId : Id;
    language : string;
    isFree : bool;
    published : bool;
    featured : bool;
    thumbnail : option string;
    coverImage : option string
  }.
End Course.

Module Lesson.
Record t := mk {
    id : Id;
    courseId : Id;
    order : Z;
    videoUrl : option string;
    isRequired : bool
  }.
End Lesson.

Module StudentProgress.
Record t := mk {
    id : Id;
    userId : Id;
    courseId : Id;
    totalWatchTime : Z;
    completionRate : Q;
    lastAccessedAt : option Date
  }.
End StudentProgress.

Module LessonProgress.
Record t := mk {
    userId : Id;
    lessonId : Id;
    studentProgressId : Id;
    watchTime : Z;
    completed : bool;
    lastPosition : Z;
    completedAt : option Date
  }.
End LessonProgress.

Module Category.
Record t := mk { id : Id; name : string; slug : string }.
End Category.

Module AuditLog.
Record t := mk {
    action : string;
    actorId : Id;
    actorType : string;
    resourceId : Id;
    resourceType : string
  }.
End AuditLog.

(** ** The database *)

Record Db := mkDb {
  coupons : list Coupon.t;
  courseCoupons : list CourseCoupon.t;
  couponUsages : list CouponUsage.t;
  enrollments : list Enrollment.t;
  courses : list Course.t;
  lessons : list Lesson.t;
  studentProgresses : list StudentProgress.t;
  lessonProgresses : list LessonProgress.t;
  categories : list Category.t;
  auditLogs : list AuditLog.t;
  idCounter : nat
}.

Definition set_coupons (l : list Coupon.t) (d : Db) : Db :=
  mkDb l (courseCoupons d) (couponUsages d) (enrollments d) (courses d)
       (lessons d) (studentProgresses d) (lessonProgresses d) (categories d)
       (auditLogs d) (idCounter d).

Definition set_courseCoupons (l : list CourseCoupon.t) (d : Db) : Db :=
  mkDb (coupons d) l (couponUsages d) (enrollments d) (courses d)
       (lessons d) (studentProgresses d) (lessonProgresses d) (categories d)
       (auditLogs d) (idCounter d).

Definition set_couponUsages (l : list CouponUsage.t) (d : Db) : Db :=
  mkDb (coupons d) (courseCoupons d) l (enrollments d) (courses d)
       (lessons d) (studentProgresses d) (lessonProgresses d) (categories d)
       (auditLogs d) (idCounter d).

Definition set_enrollments (l : list Enrollment.t) (d : Db) : Db :=
  mkDb (coupons d) (courseCoupons d) (couponUsages d) l (courses d)
       (lessons d) (studentProgresses d) (lessonProgresses d) (categories d)
       (auditLogs d) (idCounter d).

Definition set_courses (l : list Course.t) (d : Db) : Db :=
  mkDb (coupons d) (courseCoupons d) (couponUsages d) (enrollments d) l
       (lessons d) (studentProgresses d) (lessonProgresses d) (categories d)
       (auditLogs d) (idCounter d).

Definition set_studentProgresses (l : list StudentProgress.t) (d : Db) : Db :=
  mkDb (coupons d) (courseCoupons d) (couponUsages d) (enrollments d)
       (courses d) (lessons d) l (lessonProgresses d) (categories d)
       (auditLogs d) (idCounter d).

Definition set_lessonProgresses (l : list LessonProgress.t) (d : Db) : Db :=
  mkDb (coupons d) (courseCoupons d) (couponUsages d) (enrollments d)
       (courses d) (lessons d) (studentProgresses d) l (categories d)
       (auditLogs d) (idCounter d).

Definition set_categories (l : list Category.t) (d : Db) : Db :=
  mkDb (coupons d) (courseCoupons d) (couponUsages d) (enrollments d)
       (courses d) (lessons d) (studentProgresses d) (lessonProgresses d) l
       (auditLogs d) (idCounter d).

Definition set_auditLogs (l : list AuditLog.t) (d : Db) : Db :=
  mkDb (coupons d) (courseCoupons d) (couponUsages d) (enrollments d)
       (courses d) (lessons d) (studentProgresses d) (lessonProgresses d)
       (categories d) l (idCounter d).

Definition set_idCounter (n : nat) (d : Db) : Db :=
  mkDb (coupons d) (courseCoupons d) (couponUsages d) (enrollments d)
       (courses d) (lessons d) (studentProgresses d) (lessonProgresses d)
       (categories d) (auditLogs d) n.

(** ** Exceptions and the procedure monad *)

Inductive TRPCCode :=
  | NOT_FOUND | BAD_REQUEST | CONFLICT | FORBIDDEN | UNAUTHORIZED
  | INTERNAL_SERVER_ERROR.

(** What a procedure can throw: a [TRPCError], or an error raised by the
    Prisma client (a violated constraint, a record that an [update] or
    [delete] did not find). *)
Inductive Exn :=
  | TRPCError (code : TRPCCode) (message : string)
  | PrismaError (message : string).

Definition M (A : Type) : Type := Db -> Db * (Exn + A).

Definition ret {A} (a : A) : M A := fun d => (d, inr a).

Definition bind {A B} (m : M A) (k : A -> M B) : M B :=
  fun d =>
    match m d with
    | (d', inr a) => k a d'
    | (d', inl e) => (d', inl e)
    end.

Definition throw {A} (e : Exn) : M A := fun d => (d, inl e).

(** A read of the database. *)
Definition query {A} (f : Db -> A) : M A := fun d => (d, inr (f d)).

(** An unconditional write of the database. *)
Definition write (f : Db -> Db) : M unit := fun d => (f d, inr tt).

Declare Scope proc_scope.
Delimit Scope proc_scope with proc.
Notation "x <- m ;; k" := (bind m (fun x => k))
  (at level 61, m at next level, right associativity) : proc_scope.
Notation "m ;;; k" := (bind m (fun _ => k))
  (at level 61, right associativity) : proc_scope.
Local Open Scope proc_scope.

(** [if (c) throw e]. *)
Definition throw_if (c : bool) (e : Exn) : M unit :=
  if c then throw e else ret tt.

(** The [try { ... } catch (error) { if (error instanceof TRPCError) throw
    error; throw new TRPCError({ code: 'INTERNAL_SERVER_ERROR', message }) }]
    wrapper around the body of a handler. *)
Definition rethrow {A} (message : string) (body : M A) : M A :=
  fun d =>
    match body d with
    | (d', inr a) => (d', inr a)
    | (d', inl (TRPCError c m)) => (d', inl (TRPCError c m))
    | (d', inl (PrismaError _)) =>
        (d', inl (TRPCError INTERNAL_SERVER_ERROR message))
    end.

(** [prisma.$transaction(async (tx) => ...)]: the writes of the body are
    committed when it returns and rolled back when it throws. *)
Definition transaction {A} (body : M A) : M A :=
  fun d =>
    match body d with
    | (d', inr a) => (d', inr a)
    | (_, inl e) => (d, inl e)
    end.

(** The statements that write.  The client throws when the database rejects
    one of them; [rejects] stands for the causes the tables below do not
    show (foreign keys, a lost connection), the unique indexes are checked by
    the statements themselves. *)
Inductive Stmt :=
  | EnrollmentCreate | EnrollmentUpdate
  | StudentProgressCreate | StudentProgressUpdate
  | LessonProgressCreateMany | LessonProgressUpsert
  | CouponUpdate | CouponUsageCreate
  | CourseCouponDeleteMany | CourseCouponCreateMany
  | CourseUpdate | CategoryDelete | AuditLogCreate.

Record Env := mkEnv {
  now : Date;
  rejects : Stmt -> bool
}.

Definition statement (env : Env) (s : Stmt) : M unit :=
  throw_if (rejects env s) (PrismaError "statement rejected by the database").

(** tRPC runs the handler only on an input its zod schema accepts. *)
Definition with_input {I A} (schema : I -> bool) (handler : I -> M A)
    (input : I) : M A :=
  if schema input then handler input
  else throw (TRPCError BAD_REQUEST "Input validation failed").

(** ** Prisma client: generic row operations *)

(** Replace the first row that satisfies [p]; [None] when there is none
    (the client's "record to update not found"). *)
Fixpoint update_first {A} (p : A -> bool) (f : A -> A) (l : list A)
    : option (list A) :=
  match l with
  | [] => None
  | x :: l' =>
      if p x then Some (f x :: l')
      else match update_first p f l' with
           | Some r => Some (x :: r)
           | None => None
           end
  end.

(** Remove the first row that satisfies [p]; [None] when there is none. *)
Fixpoint delete_first {A} (p : A -> bool) (l : list A) : option (list A) :=
  match l with
  | [] => None
  | x :: l' =>
      if p x then Some l'
      else match delete_first p l' with
           | Some r => Some (x :: r)
           | None => None
           end
  end.

Definition count {A} (p : A -> bool) (l : list A) : Z :=
  Z.of_nat (List.length (filter p l)).

(** An optional field of an update: [undefined] leaves the column as it is. *)
Definition patch {A} (o : option A) (old : A) : A :=
  match o with Some v => v | None => old end.

Definition patch_null {A} (o : option A) (old : option A) : option A :=
  match o with Some v => Some v | None => old end.

(** ** Prisma client: the queries of the routers *)

Definition by_id_coupon (i : Id) (c : Coupon.t) : bool := id_eqb (Coupon.id c) i.
Definition by_code (code : string) (c : Coupon.t) : bool :=
  String.eqb (Coupon.code c) code.

Definition coupon_findUnique_code (code : string) (d : Db) : option Coupon.t :=
  find (by_code code) (coupons d).

Definition coupon_findUnique_id (i : Id) (d : Db) : option Coupon.t :=
  find (by_id_coupon i) (coupons d).

(** [include: { courseCoupons: { where: { courseId } } }] *)
Definition coupon_courseCoupons (c : Coupon.t) (courseId : Id) (d : Db)
    : list CourseCoupon.t :=
  filter (fun cc => id_eqb (CourseCoupon.couponId cc) (Coupon.id c)
                    && id_eqb (CourseCoupon.courseId cc) courseId)
         (courseCoupons d).

(** [include: { couponUsage: { where: { userId } } }] *)
Definition coupon_couponUsage (c : Coupon.t) (userId : Id) (d : Db)
    : list CouponUsage.t :=
  filter (fun u => id_eqb (CouponUsage.couponId u) (Coupon.id c)
                   && id_eqb (CouponUsage.userId u) userId)
         (couponUsages d).

Definition by_user_course (userId courseId : Id) (e : Enrollment.t) : bool :=
  id_eqb (Enrollment.userId e) userId && id_eqb (Enrollment.courseId e) courseId.

(** [enrollment.findUnique({ where: { userId_courseId } })] *)
Definition enrollment_findUnique (userId courseId : Id) (d : Db)
    : option Enrollment.t :=
  find (by_user_course userId courseId) (enrollments d).

Definition by_id_course (i : Id) (c : Course.t) : bool := id_eqb (Course.id c) i.

Definition course_findUnique (i : Id) (d : Db) : option Course.t :=
  find (by_id_course i) (courses d).

Definition course_findUnique_slug (s : string) (d : Db) : option Course.t :=
  find (fun c => String.eqb (Course.slug c) s) (courses d).

(** [date1 > date2] guarded by [date1 &&]: a missing date never fires. *)
Definition after (o : option Date) (t : Date) : bool :=
  match o with Some d => t <? d | None => false end.

Definition before (o : option Date) (t : Date) : bool :=
  match o with Some d => d <? t | None => false end.

(** [coupon.maxUses && coupon.usedCount >= coupon.maxUses] *)
Definition maxUses_reached (c : Coupon.t) : bool :=
  truthy_int (Coupon.maxUses c)
  && match Coupon.maxUses c with
     | Some m => m <=? Coupon.usedCount c
     | None => false
     end.

(** [coupon.maxUsesPerUser && coupon.couponUsage.length >= coupon.maxUsesPerUser] *)
Definition maxUsesPerUser_reached (c : Coupon.t) (usage : list CouponUsage.t)
    : bool :=
  truthy_int (Coupon.maxUsesPerUser c)
  && match Coupon.maxUsesPerUser c with
     | Some m => m <=? Z.of_nat (List.length usage)
     | None => false
     end.

(** The discount arithmetic shared, verbatim, by the three procedures that
    price a coupon.  The operations are those of the source, carried out on
    exact rationals: a result may differ from the source's double by the
    rounding of its multiplication, division and subtraction. *)
Definition discountAmount_of (c : Coupon.t) (originalPrice : Q) : Q :=
  if DiscountType_eqb (Coupon.discountType c) PERCENTAGE
  then (originalPrice * Coupon.discountValue c) / 100
  else Math_min (Coupon.discountValue c) originalPrice.

Definition finalPrice_of (originalPrice discountAmount : Q) : Q :=
  Math_max 0 (originalPrice - discountAmount).

Definition discountPercentage_of (originalPrice discountAmount : Q) : Q :=
  if Qgtb originalPrice 0 then (discountAmount / originalPrice) * 100 else 0.

(** ** Further combinators and statements

    The procedures below complete the routers; they are written with the
    combinators above and with the following additions. *)

(** The [try { ... } catch (error) { throw new TRPCError({ code:
    'INTERNAL_SERVER_ERROR', message }) }] wrapper, which does not let a
    [TRPCError] of the body through. *)
Definition catch_all {A} (message : string) (body : M A) : M A :=
  fun d =>
    match body d with
    | (d', inr a) => (d', inr a)
    | (d', inl _) => (d', inl (TRPCError INTERNAL_SERVER_ERROR message))
    end.

(** The writing statements of the administration procedures, and the
    environment that says which of them the database rejects. *)
Inductive AdminStmt :=
  | CategoryCreate | CategoryUpdate
  | CouponCreate | CouponDelete | CouponUpdateMany
  | CourseDelete
  | LessonCreate | LessonUpdate.

Record AdminEnv := mkAdminEnv {
  env_of : Env;
  refuses : AdminStmt -> bool
}.

Definition admin_statement (aenv : AdminEnv) (s : AdminStmt) : M unit :=
  throw_if (refuses aenv s) (PrismaError "statement rejected by the database").

(** The lessons table replaced. *)
Definition set_lessons (l : list Lesson.t) (d : Db) : Db :=
  mkDb (coupons d) (courseCoupons d) (couponUsages d) (enrollments d)
       (courses d) l (studentProgresses d) (lessonProgresses d) (categories d)
       (auditLogs d) (idCounter d).

(** [Math.ceil(total / limit)] *)
Definition Math_ceil_div (total limit : Z) : Z :=
  Qceiling (inject_Z total / inject_Z limit).

(** [skip] and [take] of a [findMany]. *)
Definition page_of {A} (skip take : Z) (rows : list A) : list A :=
  firstn (Z.to_nat take) (skipn (Z.to_nat skip) rows).

(** [orderBy: { createdAt: 'desc' }]: rows are kept in the order of their
    creation, so the newest come last in the table. *)
Definition newest_first {A} (rows : list A) : list A := rev rows.

(** [orderBy: { discountValue: 'desc' }] as a stable insertion sort. *)
Fixpoint insert_by_value (x : Coupon.t) (l : list Coupon.t) : list Coupon.t :=
  match l with
  | [] => [x]
  | y :: l' =>
      if Qle_bool (Coupon.discountValue y) (Coupon.discountValue x)
      then x :: y :: l'
      else y :: insert_by_value x l'
  end.

Definition sort_by_value_desc (l : list Coupon.t) : list Coupon.t :=
  fold_right insert_by_value [] l.

(** [orderBy: { usedCount: 'desc' }] as a stable insertion sort. *)
Fixpoint insert_by_usedCount (x : Coupon.t) (l : list Coupon.t)
    : list Coupon.t :=
  match l with
  | [] => [x]
  | y :: l' =>
      if Coupon.usedCount y <=? Coupon.usedCount x then x :: y :: l'
      else y :: insert_by_usedCount x l'
  end.

Definition sort_by_usedCount_desc (l : list Coupon.t) : list Coupon.t :=
  fold_right insert_by_usedCount [] l.

(** The filters on dates and uses of [getAvailableCoupons]: [validFrom: {
    lte: now }] (a row without [validFrom] does not match), [validUntil]
    null or [gte: now], [maxUses] null or [usedCount] below it. *)
Definition available (t : Date) (c : Coupon.t) : bool :=
  match Coupon.validFrom c with Some f => f <=? t | None => false end
  && match Coupon.validUntil c with Some u => t <=? u | None => true end
  && match Coupon.maxUses c with
     | Some m => Coupon.usedCount c <? m
     | None => true
     end.

(** ** couponsRouter *)

Module couponsRouter.

Module CalculateDiscount.
Record input := mkInput {
      couponCode : string;
      courseId : Id;
      originalPrice : Q
    }.
Record output := mkOutput {
      out_originalPrice : Q;
      discountAmount : Q;
      finalPrice : Q;
      discountPercentage : Q;
      savings : Q;
      coupon_code : string;
      coupon_name : string;
      coupon_discountType : DiscountType;
      coupon_discountValue : Q
    }.
End CalculateDiscount.

  (** [originalPrice: z.number().min(0)] *)
Definition calculateDiscountSchema (i : CalculateDiscount.input) : bool :=
    Qle_bool 0 (CalculateDiscount.originalPrice i).

Definition calculateDiscount (env : Env)
      : CalculateDiscount.input -> M CalculateDiscount.output :=
    with_input calculateDiscountSchema (fun input =>
      let couponCode := CalculateDiscount.couponCode input in
      let courseId := CalculateDiscount.courseId input in
      let originalPrice := CalculateDiscount.originalPrice input in
      rethrow "Failed to calculate discount" (
        validation <- query (coupon_findUnique_code (toUpperCase couponCode)) ;;
        match validation with
        | None => throw (TRPCError NOT_FOUND "Coupon not found")
        | Some validation =>
            courseCoupons <- query (coupon_courseCoupons validation courseId) ;;
            throw_if (negb (Coupon.isActive validation))
              (TRPCError BAD_REQUEST "Coupon is not active") ;;;
            throw_if (after (Coupon.validFrom validation) (now env))
              (TRPCError BAD_REQUEST "Coupon is not yet valid") ;;;
            throw_if (before (Coupon.validUntil validation) (now env))
              (TRPCError BAD_REQUEST "Coupon has expired") ;;;
            throw_if (maxUses_reached validation)
              (TRPCError BAD_REQUEST "Coupon usage limit reached") ;;;
            throw_if (negb (Coupon.isGlobal validation)
                      && (List.length courseCoupons =? 0)%nat)
              (TRPCError BAD_REQUEST "Coupon is not applicable to this course") ;;;
            let discountAmount := discountAmount_of validation originalPrice in
            let finalPrice := finalPrice_of originalPrice discountAmount in
            let discountPercentage :=
              discountPercentage_of originalPrice discountAmount in
            ret (CalculateDiscount.mkOutput originalPrice discountAmount
                   finalPrice discountPercentage discountAmount
                   (Coupon.code validation) (Coupon.name validation)
                   (Coupon.discountType validation)
                   (Coupon.discountValue validation))
        end)).

Module ApplyCoupon.
Record input := mkInput { code : string; courseId : Id }.
Record output := mkOutput {
      success : bool;
      coupon_id : Id;
      coupon_code : string;
      coupon_name : string;
      originalPrice : Q;
      discountAmount : Q;
      finalPrice : Q;
      savings : Q;
      course_id : Id;
      course_title : string
    }.
End ApplyCoupon.

  (** [code: z.string().min(1)] *)
Definition applyCouponSchema (i : ApplyCoupon.input) : bool :=
    (1 <=? String.length (ApplyCoupon.code i))%nat.

Definition applyCoupon (env : Env) (userId : Id)
      : ApplyCoupon.input -> M ApplyCoupon.output :=
    with_input applyCouponSchema (fun input =>
      let code := ApplyCoupon.code input in
      let courseId := ApplyCoupon.courseId input in
      rethrow "Failed to apply coupon" (
        coupon <- query (coupon_findUnique_code (toUpperCase code)) ;;
        match coupon with
        | None => throw (TRPCError NOT_FOUND "Coupon not found")
        | Some coupon =>
            courseCoupons <- query (coupon_courseCoupons coupon courseId) ;;
            couponUsage <- query (coupon_couponUsage coupon userId) ;;
            throw_if (negb (Coupon.isActive coupon))
              (TRPCError BAD_REQUEST "Coupon is not active") ;;;
            throw_if (after (Coupon.validFrom coupon) (now env))
              (TRPCError BAD_REQUEST "Coupon is not yet valid") ;;;
            throw_if (before (Coupon.validUntil coupon) (now env))
              (TRPCError BAD_REQUEST "Coupon has expired") ;;;
            throw_if (maxUses_reached coupon)
              (TRPCError BAD_REQUEST "Coupon usage limit reached") ;;;
            throw_if (maxUsesPerUser_reached coupon couponUsage)
              (TRPCError BAD_REQUEST
                 "You have reached the usage limit for this coupon") ;;;
            throw_if (negb (Coupon.isGlobal coupon)
                      && (List.length courseCoupons =? 0)%nat)
              (TRPCError BAD_REQUEST "Coupon is not applicable to this course") ;;;
            existingEnrollment <- query (enrollment_findUnique userId courseId) ;;
            throw_if (isSome existingEnrollment)
              (TRPCError CONFLICT "You are already enrolled in this course") ;;;
            course <- query (course_findUnique courseId) ;;
            match course with
            | None => throw (TRPCError NOT_FOUND "Course not found")
            | Some course =>
                throw_if (Course.isFree course)
                  (TRPCError BAD_REQUEST
                     "Coupons cannot be applied to free courses") ;;;
                let originalPrice := Course.price course in
                let discountAmount := discountAmount_of coupon originalPrice in
                let finalPrice := finalPrice_of originalPrice discountAmount in
                ret (ApplyCoupon.mkOutput true (Coupon.id coupon)
                       (Coupon.code coupon) (Coupon.name coupon)
                       originalPrice discountAmount finalPrice discountAmount
                       (Course.id course) (Course.title course))
            end
        end)).

Module ValidateCoupon.
Record input := mkInput { code : string; courseId : option Id }.
Record coupon_view := mkView {
  id : Id;
  view_code : string;
  name : string;
  discountType : DiscountType;
  discountValue : Q;
  isGlobal : bool;
  maxUses : option Z;
  usedCount : Z;
  validUntil : option Date
}.
Record output := mkOutput {
  valid : bool;
  error : option string;
  coupon : option coupon_view
}.
End ValidateCoupon.

(** [code: z.string().min(1)] *)
Definition validateCouponSchema (i : ValidateCoupon.input) : bool :=
  (1 <=? String.length (ValidateCoupon.code i))%nat.

Definition invalid (error : string) : ValidateCoupon.output :=
  ValidateCoupon.mkOutput false (Some error) None.

(** Validate coupon (public - for checking before application). *)
Definition validateCoupon (env : Env)
    : ValidateCoupon.input -> M ValidateCoupon.output :=
  with_input validateCouponSchema (fun input =>
    let code := ValidateCoupon.code input in
    let courseId := ValidateCoupon.courseId input in
    catch_all "Failed to validate coupon" (
      coupon <- query (coupon_findUnique_code (toUpperCase code)) ;;
      match coupon with
      | None => ret (invalid "Coupon not found")
      | Some coupon =>
          if negb (Coupon.isActive coupon)
          then ret (invalid "This coupon is no longer active")
          else if after (Coupon.validFrom coupon) (now env)
          then ret (invalid "This coupon is not yet valid")
          else if before (Coupon.validUntil coupon) (now env)
          then ret (invalid "This coupon has expired")
          else if maxUses_reached coupon
          then ret (invalid "This coupon has reached its usage limit")
          else
            notApplicable <-
              (if negb (Coupon.isGlobal coupon) && truthy_str courseId then
                 courseCoupons <-
                   query (coupon_courseCoupons coupon (patch courseId "")) ;;
                 ret (List.length courseCoupons =? 0)%nat
               else ret false) ;;
            if notApplicable
            then ret (invalid "This coupon is not applicable to this course")
            else
              ret (ValidateCoupon.mkOutput true None
                     (Some (ValidateCoupon.mkView (Coupon.id coupon)
                              (Coupon.code coupon) (Coupon.name coupon)
                              (Coupon.discountType coupon)
                              (Coupon.discountValue coupon)
                              (Coupon.isGlobal coupon) (Coupon.maxUses coupon)
                              (Coupon.usedCount coupon)
                              (Coupon.validUntil coupon))))
      end)).

Module GetUserCouponHistory.
Record input := mkInput { page : Z; limit : Z }.
Record output := mkOutput {
  couponUsage : list (CouponUsage.t * option Course.t);
  out_page : Z;
  out_limit : Z;
  total : Z;
  pages : Z
}.
End GetUserCouponHistory.

(** [page: int().min(1)], [limit: int().min(1).max(50)] *)
Definition getUserCouponHistorySchema (i : GetUserCouponHistory.input) : bool :=
  (1 <=? GetUserCouponHistory.page i)
  && (1 <=? GetUserCouponHistory.limit i)
  && (GetUserCouponHistory.limit i <=? 50).

(** [couponUsage.findMany({ where: { userId }, orderBy: { createdAt: 'desc' } })]
    before [skip] and [take]. *)
Definition usage_of_user (userId : Id) (d : Db) : list CouponUsage.t :=
  newest_first
    (filter (fun u => id_eqb (CouponUsage.userId u) userId) (couponUsages d)).

(** Get user's coupon usage history. *)
Definition getUserCouponHistory (env : Env) (userId : Id)
    : GetUserCouponHistory.input -> M GetUserCouponHistory.output :=
  with_input getUserCouponHistorySchema (fun input =>
    let page := GetUserCouponHistory.page input in
    let limit := GetUserCouponHistory.limit input in
    let skip := (page - 1) * limit in
    couponUsage <- query (fun d => page_of skip limit (usage_of_user userId d)) ;;
    total <- query (fun d =>
      count (fun u => id_eqb (CouponUsage.userId u) userId) (couponUsages d)) ;;
    couponUsageWithCourses <- query (fun d =>
      map (fun usage =>
             (usage,
              if negb (String.eqb (CouponUsage.courseId usage) "")
              then course_findUnique (CouponUsage.courseId usage) d
              else None))
          couponUsage) ;;
    ret (GetUserCouponHistory.mkOutput couponUsageWithCourses page limit total
           (Math_ceil_div total limit))).

Module GetAvailableCoupons.
Record output := mkOutput {
  globalCoupons : list Coupon.t;
  courseSpecificCoupons : list Coupon.t;
  total : nat
}.
End GetAvailableCoupons.

(** Get available coupons for a course (public).  The rows are returned
    whole; the [select] of the source keeps their id, code, name, type,
    value, [validUntil], [maxUses] and [usedCount]. *)
Definition getAvailableCoupons (env : Env) (courseId : option Id)
    : M GetAvailableCoupons.output :=
  globalCoupons <- query (fun d =>
    sort_by_value_desc
      (filter (fun c => Coupon.isActive c && Coupon.isGlobal c
                        && available (now env) c)
              (coupons d))) ;;
  courseSpecificCoupons <-
    (if truthy_str courseId then
       query (fun d =>
         sort_by_value_desc
           (filter (fun c => Coupon.isActive c && negb (Coupon.isGlobal c)
                             && negb (List.length
                                        (coupon_courseCoupons c
                                           (patch courseId "") d) =? 0)%nat
                             && available (now env) c)
                   (coupons d)))
     else ret []) ;;
  ret (GetAvailableCoupons.mkOutput globalCoupons courseSpecificCoupons
         (List.length globalCoupons + List.length courseSpecificCoupons)).

(** Get coupon details by code (public). *)
Definition getCouponByCode (env : Env) (code : string) : M Coupon.t :=
  coupon <- query (coupon_findUnique_code (toUpperCase code)) ;;
  match coupon with
  | None => throw (TRPCError NOT_FOUND "Coupon not found")
  | Some coupon => ret coupon
  end.

End couponsRouter.

(** ** adminCouponsRouter

    The admin middleware has already resolved [ctx.admin]; its id is the
    [adminId] argument. *)

Definition auditLog_create (env : Env) (row : AuditLog.t) : M unit :=
  statement env AuditLogCreate ;;;
  write (fun d => set_auditLogs (auditLogs d ++ [row]) d).

Module adminCouponsRouter.

Module UpdateCoupon.
Record input := mkInput {
      id : Id;
      code : option string;
      name : option string;
      discountType : option DiscountType;
      discountValue : option Q;
      maxUses : option Z;
      maxUsesPerUser : option Z;
      validFrom : option Date;
      validUntil : option Date;
      isGlobal : option bool;
      courseIds : option (list Id);
      isActive : option bool
    }.
End UpdateCoupon.

  (** [/^[A-Z0-9_-]+$/] *)
Definition code_char (c : ascii) : bool :=
    let n := nat_of_ascii c in
    ((65 <=? n) && (n <=? 90) || (48 <=? n) && (n <=? 57)
     || (n =? 95) || (n =? 45))%nat.

Definition opt_ok {A} (p : A -> bool) (o : option A) : bool :=
    match o with Some a => p a | None => true end.

  (** The object schema followed by its [refine]: the refinement looks only
      at the fields present in the request. *)
Definition updateCouponSchema (i : UpdateCoupon.input) : bool :=
    opt_ok (fun s => (3 <=? String.length s)%nat && (String.length s <=? 50)%nat
                     && forallb code_char (list_ascii_of_string s))
           (UpdateCoupon.code i)
    && opt_ok (fun s => (1 <=? String.length s)%nat
                        && (String.length s <=? 200)%nat)
              (UpdateCoupon.name i)
    && opt_ok (Qle_bool 0) (UpdateCoupon.discountValue i)
    && opt_ok (Z.leb 1) (UpdateCoupon.maxUses i)
    && opt_ok (Z.leb 1) (UpdateCoupon.maxUsesPerUser i)
    && negb (match UpdateCoupon.discountType i with
             | Some PERCENTAGE =>
                 truthy_num (UpdateCoupon.discountValue i)
                 && match UpdateCoupon.discountValue i with
                    | Some v => Qgtb v 100
                    | None => false
                    end
             | _ => false
             end).

  (** [data: { ...updateData, ...(code && { code }) }] applied to the row. *)
Definition apply_update (i : UpdateCoupon.input) (c : Coupon.t) : Coupon.t :=
    Coupon.mk (Coupon.id c)
      (if truthy_str (UpdateCoupon.code i)
       then patch (UpdateCoupon.code i) (Coupon.code c) else Coupon.code c)
      (patch (UpdateCoupon.name i) (Coupon.name c))
      (patch (UpdateCoupon.discountType i) (Coupon.discountType c))
      (patch (UpdateCoupon.discountValue i) (Coupon.discountValue c))
      (patch_null (UpdateCoupon.maxUses i) (Coupon.maxUses c))
      (Coupon.usedCount c)
      (patch_null (UpdateCoupon.maxUsesPerUser i) (Coupon.maxUsesPerUser c))
      (patch_null (UpdateCoupon.validFrom i) (Coupon.validFrom c))
      (patch_null (UpdateCoupon.validUntil i) (Coupon.validUntil c))
      (patch (UpdateCoupon.isActive i) (Coupon.isActive c))
      (patch (UpdateCoupon.isGlobal i) (Coupon.isGlobal c)).

Definition coupon_update (env : Env) (i : Id) (f : Coupon.t -> Coupon.t)
      : M Coupon.t :=
    statement env CouponUpdate ;;;
    fun d =>
      match find (by_id_coupon i) (coupons d),
            update_first (by_id_coupon i) f (coupons d) with
      | Some old, Some l => (set_coupons l d, inr (f old))
      | _, _ => (d, inl (PrismaError "Record to update not found"))
      end.

Definition updateCoupon (env : Env) (adminId : Id)
      : UpdateCoupon.input -> M Coupon.t :=
    with_input updateCouponSchema (fun input =>
      let id := UpdateCoupon.id input in
      let code := UpdateCoupon.code input in
      let courseIds := UpdateCoupon.courseIds input in
      rethrow "Failed to update coupon" (
        existingCoupon <- query (coupon_findUnique_id id) ;;
        match existingCoupon with
        | None => throw (TRPCError NOT_FOUND "Coupon not found")
        | Some existingCoupon =>
            (if truthy_str code
                && negb (String.eqb (patch code "") (Coupon.code existingCoupon))
             then
               codeExists <- query (coupon_findUnique_code (patch code "")) ;;
               throw_if (isSome codeExists)
                 (TRPCError CONFLICT "A coupon with this code already exists")
             else ret tt) ;;;
            coupon <- coupon_update env id (apply_update input) ;;
            match courseIds with
            | Some courseIds =>
                statement env CourseCouponDeleteMany ;;;
                write (fun d =>
                  set_courseCoupons
                    (filter (fun cc => negb (id_eqb (CourseCoupon.couponId cc) id))
                            (courseCoupons d)) d) ;;;
                if (0 <? List.length courseIds)%nat then
                  statement env CourseCouponCreateMany ;;;
                  write (fun d =>
                    set_courseCoupons
                      (courseCoupons d
                       ++ map (fun courseId => CourseCoupon.mk id courseId)
                              courseIds) d)
                else ret tt
            | None => ret tt
            end ;;;
            auditLog_create env
              (AuditLog.mk "UPDATE_COUPON" adminId "ADMIN" (Coupon.id coupon)
                 "COUPON") ;;;
            ret coupon
        end)).

Module CalculateDiscount.
Record input := mkInput { couponId : Id; originalPrice : Q }.
Record output := mkOutput {
      out_originalPrice : Q;
      discountAmount : Q;
      finalPrice : Q;
      discountPercentage : Q
    }.
End CalculateDiscount.

Definition calculateDiscountSchema (i : CalculateDiscount.input) : bool :=
    Qle_bool 0 (CalculateDiscount.originalPrice i).

Definition calculateDiscount (env : Env) (adminId : Id)
      : CalculateDiscount.input -> M CalculateDiscount.output :=
    with_input calculateDiscountSchema (fun input =>
      let originalPrice := CalculateDiscount.originalPrice input in
      coupon <- query (coupon_findUnique_id (CalculateDiscount.couponId input)) ;;
      match coupon with
      | None => throw (TRPCError NOT_FOUND "Coupon not found")
      | Some coupon =>
          let discountAmount := discountAmount_of coupon originalPrice in
          let finalPrice := finalPrice_of originalPrice discountAmount in
          ret (CalculateDiscount.mkOutput originalPrice discountAmount
                 finalPrice
                 (discountPercentage_of originalPrice discountAmount))
      end).

Module CreateCoupon.
Record input := mkInput {
  code : string;
  name : string;
  discountType : DiscountType;
  discountValue : Q;
  maxUses : option Z;
  maxUsesPerUser : option Z;
  validFrom : option Date;
  validUntil : option Date;
  isGlobal : bool;
  courseIds : option (list Id);
  isActive : bool
}.
End CreateCoupon.

(** The object schema followed by its two refinements (percentage at most
    100, [validFrom] before [validUntil] when both are given). *)
Definition createCouponSchema (i : CreateCoupon.input) : bool :=
  (3 <=? String.length (CreateCoupon.code i))%nat
  && (String.length (CreateCoupon.code i) <=? 50)%nat
  && forallb code_char (list_ascii_of_string (CreateCoupon.code i))
  && (1 <=? String.length (CreateCoupon.name i))%nat
  && (String.length (CreateCoupon.name i) <=? 200)%nat
  && Qle_bool 0 (CreateCoupon.discountValue i)
  && opt_ok (Z.leb 1) (CreateCoupon.maxUses i)
  && opt_ok (Z.leb 1) (CreateCoupon.maxUsesPerUser i)
  && negb (DiscountType_eqb (CreateCoupon.discountType i) PERCENTAGE
           && Qgtb (CreateCoupon.discountValue i) 100)
  && negb (match CreateCoupon.validFrom i, CreateCoupon.validUntil i with
           | Some f, Some u => u <=? f
           | _, _ => false
           end).

(** [coupon.create]: the code is unique; [usedCount] takes its column
    default, 0. *)
Definition coupon_create (aenv : AdminEnv) (i : CreateCoupon.input) : M Coupon.t :=
  admin_statement aenv CouponCreate ;;;
  fun d =>
    if existsb (by_code (CreateCoupon.code i)) (coupons d)
    then (d, inl (PrismaError "Unique constraint failed"))
    else
      let row :=
        Coupon.mk (cuid (idCounter d)) (CreateCoupon.code i)
          (CreateCoupon.name i) (CreateCoupon.discountType i)
          (CreateCoupon.discountValue i) (CreateCoupon.maxUses i) 0
          (CreateCoupon.maxUsesPerUser i)
          (Some (patch (CreateCoupon.validFrom i) (now (env_of aenv))))
          (CreateCoupon.validUntil i) (CreateCoupon.isActive i)
          (CreateCoupon.isGlobal i) in
      (set_idCounter (S (idCounter d)) (set_coupons (coupons d ++ [row]) d),
       inr row).

(** [course.findMany({ where: { id: { in: courseIds } } })] *)
Definition courses_in (courseIds : list Id) (d : Db) : list Course.t :=
  filter (fun c => existsb (id_eqb (Course.id c)) courseIds) (courses d).

Definition createCoupon (aenv : AdminEnv) (adminId : Id)
    : CreateCoupon.input -> M Coupon.t :=
  with_input createCouponSchema (fun input =>
    let courseIds := CreateCoupon.courseIds input in
    rethrow "Failed to create coupon" (
      existingCoupon <- query (coupon_findUnique_code (CreateCoupon.code input)) ;;
      throw_if (isSome existingCoupon)
        (TRPCError CONFLICT "A coupon with this code already exists") ;;;
      (if (0 <? List.length (patch courseIds []))%nat then
         courses <- query (courses_in (patch courseIds [])) ;;
         throw_if (negb (List.length courses
                         =? List.length (patch courseIds []))%nat)
           (TRPCError BAD_REQUEST "One or more courses not found")
       else ret tt) ;;;
      coupon <- coupon_create aenv input ;;
      (if (0 <? List.length (patch courseIds []))%nat then
         statement (env_of aenv) CourseCouponCreateMany ;;;
         write (fun d =>
           set_courseCoupons
             (courseCoupons d
              ++ map (fun courseId => CourseCoupon.mk (Coupon.id coupon) courseId)
                     (patch courseIds [])) d)
       else ret tt) ;;;
      auditLog_create (env_of aenv)
        (AuditLog.mk "CREATE_COUPON" adminId "ADMIN" (Coupon.id coupon)
           "COUPON") ;;;
      ret coupon)).

(** [include: { enrollments: true, couponUsage: true }] of a coupon. *)
Definition coupon_enrollments (i : Id) (d : Db) : list Enrollment.t :=
  filter (fun e => match Enrollment.appliedCouponId e with
                   | Some c => id_eqb c i
                   | None => false
                   end) (enrollments d).

Definition coupon_usages (i : Id) (d : Db) : list CouponUsage.t :=
  filter (fun u => id_eqb (CouponUsage.couponId u) i) (couponUsages d).

(** [coupon.delete]: the row goes; what the foreign key of CourseCoupon
    does with the links of the coupon is left to [refuses]. *)
Definition coupon_delete (aenv : AdminEnv) (i : Id) : M unit :=
  admin_statement aenv CouponDelete ;;;
  fun d =>
    match delete_first (by_id_coupon i) (coupons d) with
    | Some l => (set_coupons l d, inr tt)
    | None => (d, inl (PrismaError "Record to delete does not exist"))
    end.

(** Returns [{ success: true }]. *)
Definition deleteCoupon (aenv : AdminEnv) (adminId : Id) (id : Id) : M bool :=
  rethrow "Failed to delete coupon" (
    coupon <- query (coupon_findUnique_id id) ;;
    match coupon with
    | None => throw (TRPCError NOT_FOUND "Coupon not found")
    | Some coupon =>
        enrollments <- query (coupon_enrollments id) ;;
        couponUsage <- query (coupon_usages id) ;;
        throw_if ((0 <? List.length enrollments)%nat
                  || (0 <? List.length couponUsage)%nat)
          (TRPCError CONFLICT
             "Cannot delete coupon that has been used. Deactivate it instead.") ;;;
        coupon_delete aenv id ;;;
        auditLog_create (env_of aenv)
          (AuditLog.mk "DELETE_COUPON" adminId "ADMIN" id "COUPON") ;;;
        ret true
    end).

Module ValidateCoupon.
Record input := mkInput { code : string; courseId : option Id; userId : Id }.
Record coupon_view := mkView {
  id : Id;
  view_code : string;
  name : string;
  discountType : DiscountType;
  discountValue : Q;
  isGlobal : bool
}.
Record output := mkOutput {
  valid : bool;
  error : option string;
  coupon : option coupon_view
}.
End ValidateCoupon.

Definition invalid (error : string) : ValidateCoupon.output :=
  ValidateCoupon.mkOutput false (Some error) None.

(** Validate coupon (for checking before application): the code is looked
    up as given, and the uses of [userId] are counted. *)
Definition validateCoupon (env : Env) (adminId : Id)
    (input : ValidateCoupon.input) : M ValidateCoupon.output :=
  let code := ValidateCoupon.code input in
  let courseId := ValidateCoupon.courseId input in
  let userId := ValidateCoupon.userId input in
  coupon <- query (coupon_findUnique_code code) ;;
  match coupon with
  | None => ret (invalid "Coupon not found")
  | Some coupon =>
      couponUsage <- query (coupon_couponUsage coupon userId) ;;
      if negb (Coupon.isActive coupon)
      then ret (invalid "Coupon is not active")
      else if after (Coupon.validFrom coupon) (now env)
      then ret (invalid "Coupon is not yet valid")
      else if before (Coupon.validUntil coupon) (now env)
      then ret (invalid "Coupon has expired")
      else if maxUses_reached coupon
      then ret (invalid "Coupon usage limit reached")
      else if maxUsesPerUser_reached coupon couponUsage
      then ret (invalid "User usage limit reached for this coupon")
      else
        notApplicable <-
          (if negb (Coupon.isGlobal coupon) && truthy_str courseId then
             courseCoupons <-
               query (coupon_courseCoupons coupon (patch courseId "")) ;;
             ret (List.length courseCoupons =? 0)%nat
           else ret false) ;;
        if notApplicable
        then ret (invalid "Coupon is not applicable to this course")
        else
          ret (ValidateCoupon.mkOutput true None
                 (Some (ValidateCoupon.mkView (Coupon.id coupon)
                          (Coupon.code coupon) (Coupon.name coupon)
                          (Coupon.discountType coupon)
                          (Coupon.discountValue coupon)
                          (Coupon.isGlobal coupon))))
  end.

Module GetCouponStats.
Record output := mkOutput {
  totalCoupons : Z;
  activeCoupons : Z;
  inactiveCoupons : Z;
  expiredCoupons : Z;
  totalUsage : Z;
  globalCoupons : Z;
  courseSpecificCoupons : Z;
  topCoupons : list Coupon.t
}.
End GetCouponStats.

(** [{ AND: [{ validUntil: { lt: new Date() } }, { isActive: true }] }] *)
Definition expired_active (t : Date) (c : Coupon.t) : bool :=
  before (Coupon.validUntil c) t && Coupon.isActive c.

(** Get coupon statistics. *)
Definition getCouponStats (env : Env) (adminId : Id) : M GetCouponStats.output :=
  totalCoupons <- query (fun d => count (fun _ => true) (coupons d)) ;;
  activeCoupons <- query (fun d => count Coupon.isActive (coupons d)) ;;
  expiredCoupons <- query (fun d => count (expired_active (now env)) (coupons d)) ;;
  totalUsage <- query (fun d => count (fun _ => true) (couponUsages d)) ;;
  globalCoupons <- query (fun d => count Coupon.isGlobal (coupons d)) ;;
  courseSpecificCoupons <- query (fun d =>
    count (fun c => negb (Coupon.isGlobal c)) (coupons d)) ;;
  topCoupons <- query (fun d => firstn 5 (sort_by_usedCount_desc (coupons d))) ;;
  ret (GetCouponStats.mkOutput totalCoupons activeCoupons
         (totalCoupons - activeCoupons) expiredCoupons totalUsage
         globalCoupons courseSpecificCoupons topCoupons).

Definition deactivate (c : Coupon.t) : Coupon.t :=
  Coupon.mk (Coupon.id c) (Coupon.code c) (Coupon.name c)
    (Coupon.discountType c) (Coupon.discountValue c) (Coupon.maxUses c)
    (Coupon.usedCount c) (Coupon.maxUsesPerUser c) (Coupon.validFrom c)
    (Coupon.validUntil c) false (Coupon.isGlobal c).

(** [coupon.updateMany({ where, data: { isActive: false } })], returning
    [result.count]. *)
Definition coupon_deactivateMany (aenv : AdminEnv) (p : Coupon.t -> bool)
    : M Z :=
  admin_statement aenv CouponUpdateMany ;;;
  fun d =>
    (set_coupons (map (fun c => if p c then deactivate c else c) (coupons d)) d,
     inr (count p (coupons d))).

(** Deactivate expired coupons (utility function); returns
    [deactivatedCount].  The log row has no resource ([resourceId: null]),
    written here as the empty id. *)
Definition deactivateExpiredCoupons (aenv : AdminEnv) (adminId : Id) : M Z :=
  catch_all "Failed to deactivate expired coupons" (
    deactivatedCount <-
      coupon_deactivateMany aenv (expired_active (now (env_of aenv))) ;;
    auditLog_create (env_of aenv)
      (AuditLog.mk "DEACTIVATE_EXPIRED_COUPONS" adminId "ADMIN" "" "COUPON") ;;;
    ret deactivatedCount).

End adminCouponsRouter.

(** ** studentRouter *)

(** [orderBy: { order: 'asc' }] as a stable insertion sort. *)
Fixpoint insert_by_order (x : Lesson.t) (l : list Lesson.t) : list Lesson.t :=
  match l with
  | [] => [x]
  | y :: l' =>
      if Lesson.order x <? Lesson.order y then x :: y :: l'
      else y :: insert_by_order x l'
  end.

Definition sort_by_order (l : list Lesson.t) : list Lesson.t :=
  fold_right insert_by_order [] l.

(** [include: { lessons: { orderBy: { order: 'asc' } } }] of a course. *)
Definition course_lessons (courseId : Id) (d : Db) : list Lesson.t :=
  sort_by_order (filter (fun l => id_eqb (Lesson.courseId l) courseId) (lessons d)).

Definition by_user_course_sp (userId courseId : Id) (p : StudentProgress.t)
    : bool :=
  id_eqb (StudentProgress.userId p) userId
  && id_eqb (StudentProgress.courseId p) courseId.

Definition by_user_lesson (userId lessonId : Id) (p : LessonProgress.t) : bool :=
  id_eqb (LessonProgress.userId p) userId
  && id_eqb (LessonProgress.lessonId p) lessonId.

(** [enrollment.create]: the unique index on (userId, courseId) refuses a
    second row for the pair. *)
Definition enrollment_create (env : Env) (userId courseId : Id)
    (appliedCouponId : option Id) : M Enrollment.t :=
  statement env EnrollmentCreate ;;;
  fun d =>
    if existsb (by_user_course userId courseId) (enrollments d)
    then (d, inl (PrismaError "Unique constraint failed"))
    else
      let row := Enrollment.mk (cuid (idCounter d)) userId courseId
                   appliedCouponId ACTIVE 0%Q None in
      (set_idCounter (S (idCounter d))
         (set_enrollments (enrollments d ++ [row]) d), inr row).

(** [studentProgress.create], unique on (userId, courseId). *)
Definition studentProgress_create (env : Env) (userId courseId : Id)
    (totalWatchTime : Z) (completionRate : Q) : M StudentProgress.t :=
  statement env StudentProgressCreate ;;;
  fun d =>
    if existsb (by_user_course_sp userId courseId) (studentProgresses d)
    then (d, inl (PrismaError "Unique constraint failed"))
    else
      let row := StudentProgress.mk (cuid (idCounter d)) userId courseId
                   totalWatchTime completionRate None in
      (set_idCounter (S (idCounter d))
         (set_studentProgresses (studentProgresses d ++ [row]) d), inr row).

(** Rows inserted one after the other, each against the unique index on
    (userId, lessonId). *)
Fixpoint insert_all (rows table : list LessonProgress.t)
    : option (list LessonProgress.t) :=
  match rows with
  | [] => Some table
  | r :: rows' =>
      if existsb (by_user_lesson (LessonProgress.userId r)
                                 (LessonProgress.lessonId r)) table
      then None
      else insert_all rows' (table ++ [r])
  end.

Definition lessonProgress_createMany (env : Env) (rows : list LessonProgress.t)
    : M unit :=
  statement env LessonProgressCreateMany ;;;
  fun d =>
    match insert_all rows (lessonProgresses d) with
    | Some t => (set_lessonProgresses t d, inr tt)
    | None => (d, inl (PrismaError "Unique constraint failed"))
    end.

(** [coupon.update({ where: { id }, data: { usedCount: { increment: 1 } } })] *)
Definition increment_usedCount (c : Coupon.t) : Coupon.t :=
  Coupon.mk (Coupon.id c) (Coupon.code c) (Coupon.name c)
    (Coupon.discountType c) (Coupon.discountValue c) (Coupon.maxUses c)
    (Coupon.usedCount c + 1) (Coupon.maxUsesPerUser c) (Coupon.validFrom c)
    (Coupon.validUntil c) (Coupon.isActive c) (Coupon.isGlobal c).

Definition coupon_increment (env : Env) (i : Id) : M unit :=
  statement env CouponUpdate ;;;
  fun d =>
    match update_first (by_id_coupon i) increment_usedCount (coupons d) with
    | Some l => (set_coupons l d, inr tt)
    | None => (d, inl (PrismaError "Record to update not found"))
    end.

Definition couponUsage_create (env : Env) (row : CouponUsage.t) : M unit :=
  statement env CouponUsageCreate ;;;
  write (fun d => set_couponUsages (couponUsages d ++ [row]) d).

Definition by_id_lesson (i : Id) (l : Lesson.t) : bool := id_eqb (Lesson.id l) i.

Definition lesson_findUnique (i : Id) (d : Db) : option Lesson.t :=
  find (by_id_lesson i) (lessons d).

Definition studentProgress_findUnique (userId courseId : Id) (d : Db)
    : option StudentProgress.t :=
  find (by_user_course_sp userId courseId) (studentProgresses d).

(** The relation filter [lesson: { courseId }] on a [LessonProgress] row. *)
Definition lesson_in_course (courseId : Id) (d : Db) (p : LessonProgress.t)
    : bool :=
  match lesson_findUnique (LessonProgress.lessonId p) d with
  | Some l => id_eqb (Lesson.courseId l) courseId
  | None => false
  end.

(** [lesson.count({ where: { courseId } })] *)
Definition count_lessons (courseId : Id) (d : Db) : Z :=
  count (fun l => id_eqb (Lesson.courseId l) courseId) (lessons d).

(** [lessonProgress.count({ where: { userId, lesson: { courseId },
    completed: true } })] *)
Definition count_completed (userId courseId : Id) (d : Db) : Z :=
  count (fun p => id_eqb (LessonProgress.userId p) userId
                  && lesson_in_course courseId d p
                  && LessonProgress.completed p)
        (lessonProgresses d).

(** [lessonProgress.aggregate({ ..., _sum: { watchTime: true } })] followed
    by [|| 0]. *)
Definition sum_watchTime (userId courseId : Id) (d : Db) : Z :=
  fold_right Z.add 0
    (map LessonProgress.watchTime
       (filter (fun p => id_eqb (LessonProgress.userId p) userId
                         && lesson_in_course courseId d p)
               (lessonProgresses d))).

Definition set_rate (completionRate : Q) (totalWatchTime : Z)
    (p : StudentProgress.t) : StudentProgress.t :=
  StudentProgress.mk (StudentProgress.id p) (StudentProgress.userId p)
    (StudentProgress.courseId p) totalWatchTime completionRate
    (StudentProgress.lastAccessedAt p).

Definition set_lastAccessedAt (t : Date) (p : StudentProgress.t)
    : StudentProgress.t :=
  StudentProgress.mk (StudentProgress.id p) (StudentProgress.userId p)
    (StudentProgress.courseId p) (StudentProgress.totalWatchTime p)
    (StudentProgress.completionRate p) (Some t).

Definition set_progress (env : Env) (completionRate : Q) (e : Enrollment.t)
    : Enrollment.t :=
  Enrollment.mk (Enrollment.id e) (Enrollment.userId e) (Enrollment.courseId e)
    (Enrollment.appliedCouponId e) (Enrollment.status e) completionRate
    (if Qeq_bool completionRate 100 then Some (now env)
     else Enrollment.completedAt e).

Definition studentProgress_update (env : Env) (p : StudentProgress.t -> bool)
    (f : StudentProgress.t -> StudentProgress.t) : M unit :=
  statement env StudentProgressUpdate ;;;
  fun d =>
    match update_first p f (studentProgresses d) with
    | Some l => (set_studentProgresses l d, inr tt)
    | None => (d, inl (PrismaError "Record to update not found"))
    end.

Definition enrollment_update (env : Env) (p : Enrollment.t -> bool)
    (f : Enrollment.t -> Enrollment.t) : M unit :=
  statement env EnrollmentUpdate ;;;
  fun d =>
    match update_first p f (enrollments d) with
    | Some l => (set_enrollments l d, inr tt)
    | None => (d, inl (PrismaError "Record to update not found"))
    end.

(** [completionRate = totalLessons > 0 ? (completedLessons / totalLessons) * 100 : 0] *)
Definition completionRate_of (completedLessons totalLessons : Z) : Q :=
  if 0 <? totalLessons
  then (inject_Z completedLessons / inject_Z totalLessons) * 100
  else 0.

(** Helper function to update course completion rate. *)
Definition updateCourseProgress (env : Env) (userId courseId : Id) : M unit :=
  totalLessons <- query (count_lessons courseId) ;;
  completedLessons <- query (count_completed userId courseId) ;;
  totalWatchTime <- query (sum_watchTime userId courseId) ;;
  let completionRate := completionRate_of completedLessons totalLessons in
  studentProgress_update env (by_user_course_sp userId courseId)
    (set_rate completionRate totalWatchTime) ;;;
  enrollment_update env (by_user_course userId courseId)
    (set_progress env completionRate).

(** [lessonProgress.upsert({ where: { userId_lessonId }, update, create })] *)
Definition lessonProgress_upsert (env : Env) (userId lessonId : Id)
    (update : LessonProgress.t -> LessonProgress.t) (create : LessonProgress.t)
    : M LessonProgress.t :=
  statement env LessonProgressUpsert ;;;
  fun d =>
    match find (by_user_lesson userId lessonId) (lessonProgresses d),
          update_first (by_user_lesson userId lessonId) update
            (lessonProgresses d) with
    | Some old, Some l => (set_lessonProgresses l d, inr (update old))
    | _, _ =>
        (set_lessonProgresses (lessonProgresses d ++ [create]) d, inr create)
    end.

Module studentRouter.

Module EnrollCourse.
Record input := mkInput { courseId : Id; couponCode : option string }.
End EnrollCourse.

  (** The initial [LessonProgress] row of a lesson. *)
Definition initial_lessonProgress (userId studentProgressId : Id)
      (lesson : Lesson.t) : LessonProgress.t :=
    LessonProgress.mk userId (Lesson.id lesson) studentProgressId 0 false 0 None.

Definition enrollCourse (env : Env) (userId : Id) (input : EnrollCourse.input)
      : M Enrollment.t :=
    let courseId := EnrollCourse.courseId input in
    let couponCode := EnrollCourse.couponCode input in
    rethrow "Failed to enroll in course" (
      existingEnrollment <- query (enrollment_findUnique userId courseId) ;;
      throw_if (isSome existingEnrollment)
        (TRPCError CONFLICT "You are already enrolled in this course") ;;;
      course <- query (course_findUnique courseId) ;;
      match course with
      | None => throw (TRPCError NOT_FOUND "Course not found")
      | Some course =>
          course_lessons <- query (course_lessons courseId) ;;
          throw_if (negb (Course.published course))
            (TRPCError BAD_REQUEST "Course is not available for enrollment") ;;;
          appliedCouponId <-
            (if truthy_str couponCode then
               coupon <- query (coupon_findUnique_code (patch couponCode "")) ;;
               match coupon with
               | None => throw (TRPCError BAD_REQUEST "Invalid or inactive coupon")
               | Some coupon =>
                   courseCoupons <- query (coupon_courseCoupons coupon courseId) ;;
                   couponUsage <- query (coupon_couponUsage coupon userId) ;;
                   throw_if (negb (Coupon.isActive coupon))
                     (TRPCError BAD_REQUEST "Invalid or inactive coupon") ;;;
                   throw_if (after (Coupon.validFrom coupon) (now env))
                     (TRPCError BAD_REQUEST "Coupon is not yet valid") ;;;
                   throw_if (before (Coupon.validUntil coupon) (now env))
                     (TRPCError BAD_REQUEST "Coupon has expired") ;;;
                   throw_if (maxUses_reached coupon)
                     (TRPCError BAD_REQUEST "Coupon usage limit reached") ;;;
                   throw_if (maxUsesPerUser_reached coupon couponUsage)
                     (TRPCError BAD_REQUEST
                        "You have reached the usage limit for this coupon") ;;;
                   throw_if (negb (Coupon.isGlobal coupon)
                             && (List.length courseCoupons =? 0)%nat)
                     (TRPCError BAD_REQUEST
                        "Coupon is not applicable to this course") ;;;
                   ret (Some (Coupon.id coupon))
               end
             else ret None) ;;
          transaction (
            enrollment <- enrollment_create env userId courseId appliedCouponId ;;
            studentProgress <- studentProgress_create env userId courseId 0 0%Q ;;
            (if (0 <? List.length course_lessons)%nat then
               lessonProgress_createMany env
                 (map (initial_lessonProgress userId
                         (StudentProgress.id studentProgress)) course_lessons)
             else ret tt) ;;;
            (if truthy_str appliedCouponId then
               coupon_increment env (patch appliedCouponId "") ;;;
               couponUsage_create env
                 (CouponUsage.mk userId (patch appliedCouponId "") courseId 0%Q)
             else ret tt) ;;;
            ret enrollment)
      end).

Module UpdateLessonProgress.
Record input := mkInput {
      lessonId : Id;
      watchTime : Z;
      lastPosition : Z;
      completed : option bool
    }.
End UpdateLessonProgress.

  (** [watchTime] and [lastPosition]: [z.number().int().min(0)] *)
Definition updateProgressSchema (i : UpdateLessonProgress.input) : bool :=
    (0 <=? UpdateLessonProgress.watchTime i)
    && (0 <=? UpdateLessonProgress.lastPosition i).

Definition updateLessonProgress (env : Env) (userId : Id)
      : UpdateLessonProgress.input -> M LessonProgress.t :=
    with_input updateProgressSchema (fun input =>
      let lessonId := UpdateLessonProgress.lessonId input in
      let watchTime := UpdateLessonProgress.watchTime input in
      let lastPosition := UpdateLessonProgress.lastPosition input in
      let completed := UpdateLessonProgress.completed input in
      rethrow "Failed to update lesson progress" (
        lesson <- query (lesson_findUnique lessonId) ;;
        match lesson with
        | None => throw (TRPCError NOT_FOUND "Lesson not found")
        | Some lesson =>
            enrollments <- query (fun d =>
              filter (by_user_course userId (Lesson.courseId lesson))
                     (enrollments d)) ;;
            match enrollments with
            | [] =>
                throw (TRPCError FORBIDDEN
                         "You must be enrolled in this course to track progress")
            | enrollment :: _ =>
                studentProgress <- query
                  (studentProgress_findUnique userId (Lesson.courseId lesson)) ;;
                match studentProgress with
                | None =>
                    throw (TRPCError NOT_FOUND
                             "Student progress record not found")
                | Some studentProgress =>
                    firstCompletion <-
                      (if patch completed false then
                         done <- query (fun d =>
                           find (fun p => by_user_lesson userId lessonId p
                                          && LessonProgress.completed p)
                                (lessonProgresses d)) ;;
                         ret (negb (isSome done))
                       else ret false) ;;
                    lessonProgress <-
                      lessonProgress_upsert env userId lessonId
                        (fun p =>
                           LessonProgress.mk (LessonProgress.userId p)
                             (LessonProgress.lessonId p)
                             (LessonProgress.studentProgressId p)
                             (Z.max watchTime 0)
                             (patch completed (LessonProgress.completed p))
                             lastPosition
                             (if firstCompletion then Some (now env)
                              else LessonProgress.completedAt p))
                        (LessonProgress.mk userId lessonId
                           (StudentProgress.id studentProgress)
                           (Z.max watchTime 0)
                           (patch completed false)
                           lastPosition
                           (if patch completed false then Some (now env)
                            else None)) ;;
                    updateCourseProgress env userId (Lesson.courseId lesson) ;;;
                    studentProgress_update env
                      (fun p => id_eqb (StudentProgress.id p)
                                       (StudentProgress.id studentProgress))
                      (set_lastAccessedAt (now env)) ;;;
                    ret lessonProgress
                end
            end
        end)).

Module MarkLessonComplete.
Record input := mkInput { lessonId : Id; watchTime : Z }.
End MarkLessonComplete.

Definition markLessonCompleteSchema (i : MarkLessonComplete.input) : bool :=
    0 <=? MarkLessonComplete.watchTime i.

  (** The previous required lessons of the course that the user has no
      completed progress row for. *)
Definition uncompletedRequired (userId : Id) (lesson : Lesson.t) (d : Db)
      : list Lesson.t :=
    filter
      (fun l =>
         (List.length
            (filter (fun p => id_eqb (LessonProgress.lessonId p) (Lesson.id l)
                              && id_eqb (LessonProgress.userId p) userId
                              && LessonProgress.completed p)
                    (lessonProgresses d)) =? 0)%nat)
      (filter (fun l => id_eqb (Lesson.courseId l) (Lesson.courseId lesson)
                        && (Lesson.order l <? Lesson.order lesson)
                        && Lesson.isRequired l)
              (lessons d)).

Definition markLessonComplete (env : Env) (userId : Id)
      : MarkLessonComplete.input -> M LessonProgress.t :=
    with_input markLessonCompleteSchema (fun input =>
      let lessonId := MarkLessonComplete.lessonId input in
      let watchTime := MarkLessonComplete.watchTime input in
      rethrow "Failed to mark lesson as complete" (
        lesson <- query (lesson_findUnique lessonId) ;;
        match lesson with
        | None => throw (TRPCError NOT_FOUND "Lesson not found")
        | Some lesson =>
            enrollments <- query (fun d =>
              filter (by_user_course userId (Lesson.courseId lesson))
                     (enrollments d)) ;;
            throw_if (List.length enrollments =? 0)%nat
              (TRPCError FORBIDDEN "You must be enrolled in this course") ;;;
            (if Lesson.isRequired lesson then
               uncompleted <- query (uncompletedRequired userId lesson) ;;
               throw_if (0 <? List.length uncompleted)%nat
                 (TRPCError BAD_REQUEST
                    "You must complete all previous required lessons first")
             else ret tt) ;;;
            studentProgress <- query
              (studentProgress_findUnique userId (Lesson.courseId lesson)) ;;
            match studentProgress with
            | None => throw (PrismaError "No StudentProgress found")
            | Some studentProgress =>
                lessonProgress <-
                  lessonProgress_upsert env userId lessonId
                    (fun p =>
                       LessonProgress.mk (LessonProgress.userId p)
                         (LessonProgress.lessonId p)
                         (LessonProgress.studentProgressId p)
                         (Z.max watchTime 0) true
                         (LessonProgress.lastPosition p) (Some (now env)))
                    (LessonProgress.mk userId lessonId
                       (StudentProgress.id studentProgress)
                       (Z.max watchTime 0) true 0 (Some (now env))) ;;
                updateCourseProgress env userId (Lesson.courseId lesson) ;;;
                ret lessonProgress
            end
        end)).

(** [include: { progress: { where: { userId } } }] of a lesson. *)
Definition lesson_progress (userId : Id) (lesson : Lesson.t) (d : Db)
    : list LessonProgress.t :=
  filter (fun p => id_eqb (LessonProgress.lessonId p) (Lesson.id lesson)
                   && id_eqb (LessonProgress.userId p) userId)
         (lessonProgresses d).

Module GetCourseProgress.
Record output := mkOutput {
  enrollment : Enrollment.t;
  progress : option StudentProgress.t;
  lessons : list (Lesson.t * option LessonProgress.t)
}.
End GetCourseProgress.

(** Get student's course progress; [userProgress] is [lesson.progress[0] ||
    null]. *)
Definition getCourseProgress (env : Env) (userId : Id) (courseId : Id)
    : M GetCourseProgress.output :=
  enrollment <- query (enrollment_findUnique userId courseId) ;;
  match enrollment with
  | None =>
      throw (TRPCError FORBIDDEN "You are not enrolled in this course")
  | Some enrollment =>
      lessons <- query (fun d =>
        map (fun lesson => (lesson, hd_error (lesson_progress userId lesson d)))
            (course_lessons courseId d)) ;;
      studentProgress <- query (studentProgress_findUnique userId courseId) ;;
      ret (GetCourseProgress.mkOutput enrollment studentProgress lessons)
  end.

(** [Array.prototype.findIndex]: the index of the first match, or -1. *)
Fixpoint findIndex {A} (p : A -> bool) (l : list A) : Z :=
  match l with
  | [] => -1
  | x :: l' =>
      if p x then 0
      else let i := findIndex p l' in if i <? 0 then -1 else i + 1
  end.

(** [array[i]] for an index that may be out of range ([undefined]). *)
Definition at_index {A} (l : list A) (i : Z) : option A :=
  if i <? 0 then None else nth_error l (Z.to_nat i).

Module GetLessonForStudy.
Record output := mkOutput {
  lesson : Lesson.t;
  userProgress : option LessonProgress.t;
  previous : option Lesson.t;
  next : option Lesson.t;
  canAccess : bool
}.
End GetLessonForStudy.

(** [lessonProgress.count({ where: { userId, lessonId: { in: ids },
    completed: true } })] *)
Definition count_completed_in (userId : Id) (ids : list Id) (d : Db) : Z :=
  count (fun p => id_eqb (LessonProgress.userId p) userId
                  && existsb (id_eqb (LessonProgress.lessonId p)) ids
                  && LessonProgress.completed p)
        (lessonProgresses d).

(** Get lesson for study (with next/previous lesson info). *)
Definition getLessonForStudy (env : Env) (userId : Id) (lessonId : Id)
    : M GetLessonForStudy.output :=
  lesson <- query (lesson_findUnique lessonId) ;;
  match lesson with
  | None => throw (TRPCError NOT_FOUND "Lesson not found")
  | Some lesson =>
      enrollments <- query (fun d =>
        filter (by_user_course userId (Lesson.courseId lesson)) (enrollments d)) ;;
      lessons <- query (course_lessons (Lesson.courseId lesson)) ;;
      progress <- query (lesson_progress userId lesson) ;;
      throw_if (List.length enrollments =? 0)%nat
        (TRPCError FORBIDDEN
           "You must be enrolled in this course to access lessons") ;;;
      let currentIndex := findIndex (fun l => id_eqb (Lesson.id l) lessonId) lessons in
      let previousLesson :=
        if 0 <? currentIndex then at_index lessons (currentIndex - 1) else None in
      let nextLesson :=
        if currentIndex <? Z.of_nat (List.length lessons) - 1
        then at_index lessons (currentIndex + 1) else None in
      canAccess <-
        (if Lesson.isRequired lesson && isSome previousLesson then
           let previousRequiredLessons :=
             filter Lesson.isRequired (firstn (Z.to_nat currentIndex) lessons) in
           if (0 <? List.length previousRequiredLessons)%nat then
             completedRequired <- query
               (count_completed_in userId
                  (map Lesson.id previousRequiredLessons)) ;;
             ret (completedRequired
                  =? Z.of_nat (List.length previousRequiredLessons))
           else ret true
         else ret true) ;;
      ret (GetLessonForStudy.mkOutput lesson (hd_error progress) previousLesson
             nextLesson canAccess)
  end.

End studentRouter.

(** ** adminCategoriesRouter *)

Definition by_id_category (i : Id) (c : Category.t) : bool :=
  id_eqb (Category.id c) i.

Definition category_findUnique (i : Id) (d : Db) : option Category.t :=
  find (by_id_category i) (categories d).

(** [include: { courses: true }] of a category. *)
Definition category_courses (i : Id) (d : Db) : list Course.t :=
  filter (fun c => id_eqb (Course.categoryId c) i) (courses d).

Module adminCategoriesRouter.

Definition category_delete (env : Env) (i : Id) : M unit :=
    statement env CategoryDelete ;;;
    fun d =>
      match delete_first (by_id_category i) (categories d) with
      | Some l => (set_categories l d, inr tt)
      | None => (d, inl (PrismaError "Record to delete does not exist"))
      end.

  (** Returns [{ success: true }]. *)
Definition deleteCategory (env : Env) (adminId : Id) (id : Id) : M bool :=
    rethrow "Failed to delete category" (
      category <- query (category_findUnique id) ;;
      match category with
      | None => throw (TRPCError NOT_FOUND "Category not found")
      | Some category =>
          courses <- query (category_courses id) ;;
          throw_if (0 <? List.length courses)%nat
            (TRPCError CONFLICT
               "Cannot delete category with existing courses. Move courses to another category first.") ;;;
          category_delete env id ;;;
          auditLog_create env
            (AuditLog.mk "DELETE_CATEGORY" adminId "ADMIN" id "CATEGORY") ;;;
          ret true
      end).

Module CreateCategory.
Record input := mkInput {
  name : string;
  slug : string;
  description : option string;
  icon : option string;
  color : option string
}.
End CreateCategory.

(** [/^[a-z0-9-]+$/] *)
Definition slug_char (c : ascii) : bool :=
  let n := nat_of_ascii c in
  ((97 <=? n) && (n <=? 122) || (48 <=? n) && (n <=? 57) || (n =? 45))%nat.

Definition hex_char (c : ascii) : bool :=
  let n := nat_of_ascii c in
  ((48 <=? n) && (n <=? 57) || (65 <=? n) && (n <=? 70)
   || (97 <=? n) && (n <=? 102))%nat.

(** [/^#[0-9A-F]{6}$/i] *)
Definition hex_color (s : string) : bool :=
  match s with
  | String c rest =>
      (nat_of_ascii c =? 35)%nat && (String.length rest =? 6)%nat
      && forallb hex_char (list_ascii_of_string rest)
  | EmptyString => false
  end.

Definition slug_ok (s : string) : bool :=
  (1 <=? String.length s)%nat && (String.length s <=? 100)%nat
  && forallb slug_char (list_ascii_of_string s).

Definition name_ok (s : string) : bool :=
  (1 <=? String.length s)%nat && (String.length s <=? 100)%nat.

Definition opt_ok {A} (p : A -> bool) (o : option A) : bool :=
  match o with Some a => p a | None => true end.

Definition createCategorySchema (i : CreateCategory.input) : bool :=
  name_ok (CreateCategory.name i) && slug_ok (CreateCategory.slug i)
  && opt_ok hex_color (CreateCategory.color i).

Definition category_findUnique_name (n : string) (d : Db) : option Category.t :=
  find (fun c => String.eqb (Category.name c) n) (categories d).

Definition category_findUnique_slug (s : string) (d : Db) : option Category.t :=
  find (fun c => String.eqb (Category.slug c) s) (categories d).

(** [category.create]: name and slug are unique. *)
Definition category_create (aenv : AdminEnv) (name slug : string)
    : M Category.t :=
  admin_statement aenv CategoryCreate ;;;
  fun d =>
    if existsb (fun c => String.eqb (Category.name c) name
                         || String.eqb (Category.slug c) slug) (categories d)
    then (d, inl (PrismaError "Unique constraint failed"))
    else
      let row := Category.mk (cuid (idCounter d)) name slug in
      (set_idCounter (S (idCounter d))
         (set_categories (categories d ++ [row]) d), inr row).

Definition createCategory (aenv : AdminEnv) (adminId : Id)
    : CreateCategory.input -> M Category.t :=
  with_input createCategorySchema (fun input =>
    rethrow "Failed to create category" (
      existingName <- query (category_findUnique_name (CreateCategory.name input)) ;;
      throw_if (isSome existingName)
        (TRPCError CONFLICT "A category with this name already exists") ;;;
      existingSlug <- query (category_findUnique_slug (CreateCategory.slug input)) ;;
      throw_if (isSome existingSlug)
        (TRPCError CONFLICT "A category with this slug already exists") ;;;
      category <- category_create aenv (CreateCategory.name input)
                    (CreateCategory.slug input) ;;
      auditLog_create (env_of aenv)
        (AuditLog.mk "CREATE_CATEGORY" adminId "ADMIN" (Category.id category)
           "CATEGORY") ;;;
      ret category)).

Module UpdateCategory.
Record input := mkInput {
  id : Id;
  name : option string;
  slug : option string;
  description : option string;
  icon : option string;
  color : option string
}.
End UpdateCategory.

Definition updateCategorySchema (i : UpdateCategory.input) : bool :=
  opt_ok name_ok (UpdateCategory.name i) && opt_ok slug_ok (UpdateCategory.slug i)
  && opt_ok hex_color (UpdateCategory.color i).

(** [data: { ...updateData, ...(name && { name }), ...(slug && { slug }) }] *)
Definition apply_update (i : UpdateCategory.input) (c : Category.t)
    : Category.t :=
  Category.mk (Category.id c)
    (if truthy_str (UpdateCategory.name i)
     then patch (UpdateCategory.name i) (Category.name c) else Category.name c)
    (if truthy_str (UpdateCategory.slug i)
     then patch (UpdateCategory.slug i) (Category.slug c) else Category.slug c).

(** [category.update]: the new name and slug must not be those of another
    row. *)
Definition category_update (aenv : AdminEnv) (i : Id)
    (f : Category.t -> Category.t) : M Category.t :=
  admin_statement aenv CategoryUpdate ;;;
  fun d =>
    match find (by_id_category i) (categories d),
          update_first (by_id_category i) f (categories d) with
    | Some old, Some l =>
        if existsb (fun c => negb (by_id_category i c)
                             && (String.eqb (Category.name c) (Category.name (f old))
                                 || String.eqb (Category.slug c)
                                      (Category.slug (f old))))
                   (categories d)
        then (d, inl (PrismaError "Unique constraint failed"))
        else (set_categories l d, inr (f old))
    | _, _ => (d, inl (PrismaError "Record to update not found"))
    end.

Definition updateCategory (aenv : AdminEnv) (adminId : Id)
    : UpdateCategory.input -> M Category.t :=
  with_input updateCategorySchema (fun input =>
    let id := UpdateCategory.id input in
    let name := UpdateCategory.name input in
    let slug := UpdateCategory.slug input in
    rethrow "Failed to update category" (
      existingCategory <- query (category_findUnique id) ;;
      match existingCategory with
      | None => throw (TRPCError NOT_FOUND "Category not found")
      | Some existingCategory =>
          (if truthy_str name
              && negb (String.eqb (patch name "") (Category.name existingCategory))
           then
             nameExists <- query (category_findUnique_name (patch name "")) ;;
             throw_if (isSome nameExists)
               (TRPCError CONFLICT "A category with this name already exists")
           else ret tt) ;;;
          (if truthy_str slug
              && negb (String.eqb (patch slug "") (Category.slug existingCategory))
           then
             slugExists <- query (category_findUnique_slug (patch slug "")) ;;
             throw_if (isSome slugExists)
               (TRPCError CONFLICT "A category with this slug already exists")
           else ret tt) ;;;
          category <- category_update aenv id (apply_update input) ;;
          auditLog_create (env_of aenv)
            (AuditLog.mk "UPDATE_CATEGORY" adminId "ADMIN" (Category.id category)
               "CATEGORY") ;;;
          ret category
      end)).

End adminCategoriesRouter.

(** ** adminCoursesRouter and the upload router *)

Definition course_update (env : Env) (i : Id) (f : Course.t -> Course.t)
    : M Course.t :=
  statement env CourseUpdate ;;;
  fun d =>
    match find (by_id_course i) (courses d),
          update_first (by_id_course i) f (courses d) with
    | Some old, Some l => (set_courses l d, inr (f old))
    | _, _ => (d, inl (PrismaError "Record to update not found"))
    end.

(** The lessons of a course as the relation holds them ([include: { lessons:
    true }]). *)
Definition lessons_of (courseId : Id) (d : Db) : list Lesson.t :=
  filter (fun l => id_eqb (Lesson.courseId l) courseId) (lessons d).

Module adminCoursesRouter.

Module UpdateCourse.
Record input := mkInput {
      id : Id;
      title : option string;
      slug : option string;
      description : option string;
      price : option Q;
      difficulty : option Difficulty;
      categoryId : option Id;
      language : option string;
      isFree : option bool;
      published : option bool;
      featured : option bool;
      thumbnail : option string;
      coverImage : option string
    }.
End UpdateCourse.

  (** [/^[a-z0-9-]+$/] *)
Definition slug_char (c : ascii) : bool :=
    let n := nat_of_ascii c in
    ((97 <=? n) && (n <=? 122) || (48 <=? n) && (n <=? 57) || (n =? 45))%nat.

Definition opt_ok {A} (p : A -> bool) (o : option A) : bool :=
    match o with Some a => p a | None => true end.

  (** The length, character and range constraints of the schema (the
      well-formedness of the two URLs is left to the caller). *)
Definition updateCourseSchema (i : UpdateCourse.input) : bool :=
    opt_ok (fun s => (1 <=? String.length s)%nat
                     && (String.length s <=? 200)%nat) (UpdateCourse.title i)
    && opt_ok (fun s => (1 <=? String.length s)%nat
                        && (String.length s <=? 200)%nat
                        && forallb slug_char (list_ascii_of_string s))
              (UpdateCourse.slug i)
    && opt_ok (fun s => (1 <=? String.length s)%nat) (UpdateCourse.description i)
    && opt_ok (Qle_bool 0) (UpdateCourse.price i).

  (** [data: { ...updateData, ...(slug && { slug }) }] applied to the row. *)
Definition apply_update (i : UpdateCourse.input) (c : Course.t) : Course.t :=
    Course.mk (Course.id c)
      (if truthy_str (UpdateCourse.slug i)
       then patch (UpdateCourse.slug i) (Course.slug c) else Course.slug c)
      (patch (UpdateCourse.title i) (Course.title c))
      (patch (UpdateCourse.description i) (Course.description c))
      (patch (UpdateCourse.price i) (Course.price c))
      (patch (UpdateCourse.difficulty i) (Course.difficulty c))
      (patch (UpdateCourse.categoryId i) (Course.categoryId c))
      (patch (UpdateCourse.language i) (Course.language c))
      (patch (UpdateCourse.isFree i) (Course.isFree c))
      (patch (UpdateCourse.published i) (Course.published c))
      (patch (UpdateCourse.featured i) (Course.featured c))
      (patch_null (UpdateCourse.thumbnail i) (Course.thumbnail c))
      (patch_null (UpdateCourse.coverImage i) (Course.coverImage c)).

Definition updateCourse (env : Env) (adminId : Id)
      : UpdateCourse.input -> M Course.t :=
    with_input updateCourseSchema (fun input =>
      let id := UpdateCourse.id input in
      let slug := UpdateCourse.slug input in
      rethrow "Failed to update course" (
        existingCourse <- query (course_findUnique id) ;;
        match existingCourse with
        | None => throw (TRPCError NOT_FOUND "Course not found")
        | Some existingCourse =>
            (if truthy_str slug
                && negb (String.eqb (patch slug "") (Course.slug existingCourse))
             then
               slugExists <- query (course_findUnique_slug (patch slug "")) ;;
               throw_if (isSome slugExists)
                 (TRPCError CONFLICT "A course with this slug already exists")
             else ret tt) ;;;
            course <- course_update env id (apply_update input) ;;
            auditLog_create env
              (AuditLog.mk "UPDATE_COURSE" adminId "ADMIN" (Course.id course)
                 "COURSE") ;;;
            ret course
        end)).

(** [include: { enrollments: true }] of a course. *)
Definition course_enrollments (i : Id) (d : Db) : list Enrollment.t :=
  filter (fun e => id_eqb (Enrollment.courseId e) i) (enrollments d).

(** [course.delete]: the foreign keys of Lesson and Enrollment are declared
    ON DELETE CASCADE, so the rows of the course in these two tables go
    with it. *)
Definition course_delete (aenv : AdminEnv) (i : Id) : M unit :=
  admin_statement aenv CourseDelete ;;;
  fun d =>
    match delete_first (by_id_course i) (courses d) with
    | Some l =>
        (set_enrollments
           (filter (fun e => negb (id_eqb (Enrollment.courseId e) i))
                   (enrollments d))
           (set_lessons
              (filter (fun x => negb (id_eqb (Lesson.courseId x) i))
                      (lessons d))
              (set_courses l d)),
         inr tt)
    | None => (d, inl (PrismaError "Record to delete does not exist"))
    end.

(** Returns [{ success: true }]. *)
Definition deleteCourse (aenv : AdminEnv) (adminId : Id) (id : Id) : M bool :=
  rethrow "Failed to delete course" (
    course <- query (course_findUnique id) ;;
    match course with
    | None => throw (TRPCError NOT_FOUND "Course not found")
    | Some course =>
        enrollments <- query (course_enrollments id) ;;
        throw_if (0 <? List.length enrollments)%nat
          (TRPCError CONFLICT "Cannot delete course with active enrollments") ;;;
        course_delete aenv id ;;;
        auditLog_create (env_of aenv)
          (AuditLog.mk "DELETE_COURSE" adminId "ADMIN" id "COURSE") ;;;
        ret true
    end).

Module CreateLesson.
Record input := mkInput {
  courseId : Id;
  title : string;
  order : Z;
  videoUrl : option string;
  isRequired : bool
}.
End CreateLesson.

(** [title: min(1).max(200)], [order: int().min(1)] *)
Definition createLessonSchema (i : CreateLesson.input) : bool :=
  (1 <=? String.length (CreateLesson.title i))%nat
  && (String.length (CreateLesson.title i) <=? 200)%nat
  && (1 <=? CreateLesson.order i).

Definition lesson_create (aenv : AdminEnv) (i : CreateLesson.input)
    : M Lesson.t :=
  admin_statement aenv LessonCreate ;;;
  fun d =>
    let row := Lesson.mk (cuid (idCounter d)) (CreateLesson.courseId i)
                 (CreateLesson.order i) (CreateLesson.videoUrl i)
                 (CreateLesson.isRequired i) in
    (set_idCounter (S (idCounter d)) (set_lessons (lessons d ++ [row]) d),
     inr row).

Definition createLesson (aenv : AdminEnv) (adminId : Id)
    : CreateLesson.input -> M Lesson.t :=
  with_input createLessonSchema (fun input =>
    rethrow "Failed to create lesson" (
      course <- query (course_findUnique (CreateLesson.courseId input)) ;;
      match course with
      | None => throw (TRPCError NOT_FOUND "Course not found")
      | Some course =>
          lesson <- lesson_create aenv input ;;
          auditLog_create (env_of aenv)
            (AuditLog.mk "CREATE_LESSON" adminId "ADMIN" (Lesson.id lesson)
               "LESSON") ;;;
          ret lesson
      end)).

Definition set_order (o : Z) (l : Lesson.t) : Lesson.t :=
  Lesson.mk (Lesson.id l) (Lesson.courseId l) o (Lesson.videoUrl l)
    (Lesson.isRequired l).

(** [lesson.update({ where: { id }, data: { order } })] *)
Definition lesson_update_order (aenv : AdminEnv) (i : Id) (o : Z) : M unit :=
  admin_statement aenv LessonUpdate ;;;
  fun d =>
    match update_first (by_id_lesson i) (set_order o) (lessons d) with
    | Some l => (set_lessons l d, inr tt)
    | None => (d, inl (PrismaError "Record to update not found"))
    end.

(** The updates of a [$transaction([...])], one after the other. *)
Fixpoint update_orders (aenv : AdminEnv) (ls : list (Id * Z)) : M unit :=
  match ls with
  | [] => ret tt
  | (i, o) :: ls' => lesson_update_order aenv i o ;;; update_orders aenv ls'
  end.

Module BulkUpdateLessonOrder.
Record input := mkInput { courseId : Id; lessons : list (Id * Z) }.
End BulkUpdateLessonOrder.

(** [order: int().min(1)] for every entry. *)
Definition bulkUpdateLessonOrderSchema (i : BulkUpdateLessonOrder.input)
    : bool :=
  forallb (fun l => 1 <=? snd l) (BulkUpdateLessonOrder.lessons i).

(** Returns [{ success: true }]. *)
Definition bulkUpdateLessonOrder (aenv : AdminEnv) (adminId : Id)
    : BulkUpdateLessonOrder.input -> M bool :=
  with_input bulkUpdateLessonOrderSchema (fun input =>
    catch_all "Failed to update lesson order" (
      transaction (update_orders aenv (BulkUpdateLessonOrder.lessons input)) ;;;
      auditLog_create (env_of aenv)
        (AuditLog.mk "BULK_UPDATE_LESSON_ORDER" adminId "ADMIN"
           (BulkUpdateLessonOrder.courseId input) "COURSE") ;;;
      ret true)).

End adminCoursesRouter.

Module uploadRouter.

Module PublishCourse.
Record input := mkInput { courseId : Id; published : bool }.
Record output := mkOutput { course : Course.t; message : string }.
End PublishCourse.

Definition set_published (b : bool) (c : Course.t) : Course.t :=
    Course.mk (Course.id c) (Course.slug c) (Course.title c)
      (Course.description c) (Course.price c) (Course.difficulty c)
      (Course.categoryId c) (Course.language c) (Course.isFree c) b
      (Course.featured c) (Course.thumbnail c) (Course.coverImage c).

Definition lessonsWithoutVideos (ls : list Lesson.t) : list Lesson.t :=
    filter (fun lesson => negb (truthy_str (Lesson.videoUrl lesson))) ls.

  (** The checklist that gates publication, in the order the messages are
      pushed. *)
Definition validationErrors (course : Course.t) (ls : list Lesson.t)
      : list string :=
    (if String.eqb (Course.title course) ""
        || String.eqb (Course.description course) ""
     then ["Course must have title and description"] else [])
    ++ (if negb (truthy_str (Course.thumbnail course))
        then ["Course must have a thumbnail"] else [])
    ++ (if (List.length ls =? 0)%nat
        then ["Course must have at least one lesson"] else [])
    ++ (if negb (Course.isFree course) && Qle_bool (Course.price course) 0
        then ["Paid course must have a price greater than 0"] else [])
    ++ (if (0 <? List.length (lessonsWithoutVideos ls))%nat
        then [NilEmpty.string_of_uint
                (Nat.to_uint (List.length (lessonsWithoutVideos ls)))
              ++ " lessons are missing videos"]
        else []).

Definition publishCourse (env : Env) (adminId : Id)
      (input : PublishCourse.input) : M PublishCourse.output :=
    let courseId := PublishCourse.courseId input in
    let published := PublishCourse.published input in
    rethrow "Failed to update course publication status" (
      course <- query (course_findUnique courseId) ;;
      match course with
      | None => throw (TRPCError NOT_FOUND "Course not found")
      | Some course =>
          lessons <- query (lessons_of courseId) ;;
          (if published then
             let validationErrors := validationErrors course lessons in
             throw_if (0 <? List.length validationErrors)%nat
               (TRPCError BAD_REQUEST
                  ("Course is not ready for publishing: "
                   ++ String.concat ", " validationErrors))
           else ret tt) ;;;
          updatedCourse <- course_update env courseId (set_published published) ;;
          auditLog_create env
            (AuditLog.mk (if published then "PUBLISH_COURSE"
                          else "UNPUBLISH_COURSE")
               adminId "ADMIN" courseId "COURSE") ;;;
          ret (PublishCourse.mkOutput updatedCourse
                 (if published then "Course published successfully!"
                  else "Course unpublished successfully!"))
      end).

Module GetCourseForReview.
Record checks := mkChecks {
  hasBasicInfo : bool;
  hasThumbnail : bool;
  hasLessons : bool;
  allLessonsHaveVideos : bool;
  hasPrice : bool
}.
Record output := mkOutput {
  course : Course.t;
  lessons : list Lesson.t;
  completionChecks : checks;
  isReadyToPublish : bool;
  totalLessons : nat
}.
End GetCourseForReview.

(** Calculate completion status. *)
Definition completionChecks (course : Course.t) (ls : list Lesson.t)
    : GetCourseForReview.checks :=
  GetCourseForReview.mkChecks
    (negb (String.eqb (Course.title course) "")
     && negb (String.eqb (Course.description course) "")
     && negb (String.eqb (Course.categoryId course) ""))
    (truthy_str (Course.thumbnail course))
    (0 <? List.length ls)%nat
    (forallb (fun lesson => truthy_str (Lesson.videoUrl lesson)) ls)
    (Course.isFree course || Qgtb (Course.price course) 0).

(** [Object.values(completionChecks).every(check => check)] *)
Definition isReadyToPublish (c : GetCourseForReview.checks) : bool :=
  forallb (fun check => check)
    [GetCourseForReview.hasBasicInfo c; GetCourseForReview.hasThumbnail c;
     GetCourseForReview.hasLessons c; GetCourseForReview.allLessonsHaveVideos c;
     GetCourseForReview.hasPrice c].

(** Step 6: review and publish course.  The count of lesson assets that the
    source also returns is over a table that is not part of this model. *)
Definition getCourseForReview (env : Env) (adminId : Id) (courseId : Id)
    : M GetCourseForReview.output :=
  course <- query (course_findUnique courseId) ;;
  match course with
  | None => throw (TRPCError NOT_FOUND "Course not found")
  | Some course =>
      lessons <- query (course_lessons courseId) ;;
      let checks := completionChecks course lessons in
      ret (GetCourseForReview.mkOutput course lessons checks
             (isReadyToPublish checks) (List.length lessons))
  end.

End uploadRouter.

(** * Vocabulary of the properties *)

Local Open Scope Q_scope.

(** A procedure that leaves the database as it found it. *)
Definition readonly {A} (m : M A) : Prop := forall d, fst (m d) = d.

(** ** Sample data: the coupons of the seed script *)

Module Sample.

Definition WELCOME20 : Coupon.t :=
  Coupon.mk "ccoupon0001" "WELCOME20" "Welcome Discount" PERCENTAGE 20
    (Some 100%Z) 15%Z (Some 1%Z) None (Some 2000%Z) true true.

Definition SUMMER50 : Coupon.t :=
  Coupon.mk "ccoupon0002" "SUMMER50" "Summer Sale" FIXED_AMOUNT 50
    (Some 50%Z) 8%Z (Some 1%Z) None (Some 3000%Z) true true.

Definition football : Course.t :=
  Course.mk "ccourse0001" "football-basics" "Football Basics" "Ball control"
    (9999 # 100) BEGINNER "ccategory01" "en" false true false
    (Some "https://cdn.example/t.png") None.

Definition sports : Category.t := Category.mk "ccategory01" "Football/Soccer" "football-soccer".

Definition warmup : Lesson.t :=
  Lesson.mk "clesson0001" "ccourse0001" 1%Z (Some "https://cdn.example/v1.mp4") true.

Definition drills : Lesson.t := Lesson.mk "clesson0002" "ccourse0001" 2%Z None true.

(** A coupon whose single use is taken. *)
Definition FULL : Coupon.t :=
  Coupon.mk "ccoupon0003" "FULL" "Sold out" PERCENTAGE 10
    (Some 1%Z) 1%Z None None None true true.

Definition db : Db :=
  mkDb [WELCOME20; SUMMER50; FULL] [] [] [] [football] [warmup; drills] [] []
       [sports] [] 0.

Definition env : Env := mkEnv 1000%Z (fun _ => false).

Definition enrollment1 : Enrollment.t :=
  Enrollment.mk "c0" "cuser000001" "ccourse0001" None ACTIVE 0 None.

Definition progress1 : StudentProgress.t :=
  StudentProgress.mk "c1" "cuser000001" "ccourse0001" 0%Z 0 None.

(** [db] once the user has enrolled in the football course without a
    coupon. *)
Definition db_enrolled : Db :=
  mkDb [WELCOME20; SUMMER50; FULL] [] [] [enrollment1] [football]
       [warmup; drills] [progress1]
       [LessonProgress.mk "cuser000001" "clesson0001" "c1" 0%Z false 0%Z None;
        LessonProgress.mk "cuser000001" "clesson0002" "c1" 0%Z false 0%Z None]
       [sports] [] 2.


End Sample.

(** A procedure whose failure leaves the database as it found it. *)
Definition atomic {A} (m : M A) : Prop :=
  forall d d' e, m d = (d', inl e) -> d' = d.

(** The coupon that [enrollCourse] settles on: none when no (or an empty)
    code came with the request, otherwise the coupon with that code, which
    passed every check. *)
Definition coupon_accepted (env : Env) (userId : Id)
    (input : studentRouter.EnrollCourse.input) (d : Db) (applied : option Id)
    : Prop :=
  (truthy_str (studentRouter.EnrollCourse.couponCode input) = false
   /\ applied = None)
  \/ (exists code c,
        studentRouter.EnrollCourse.couponCode input = Some code
        /\ coupon_findUnique_code code d = Some c
        /\ Coupon.isActive c = true
        /\ after (Coupon.validFrom c) (now env) = false
        /\ before (Coupon.validUntil c) (now env) = false
        /\ maxUses_reached c = false
        /\ maxUsesPerUser_reached c (coupon_couponUsage c userId d) = false
        /\ applied = Some (Coupon.id c)).

(** The database [d'] is [d] after the writes of one enrollment of [userId]
    in [courseId] with the coupon [applied]. *)
Definition enrolled (userId courseId : Id) (applied : option Id)
    (d d' : Db) (e : Enrollment.t) : Prop :=
  let sp := StudentProgress.mk (cuid (S (idCounter d))) userId courseId 0 0%Q None in
  e = Enrollment.mk (cuid (idCounter d)) userId courseId applied ACTIVE 0%Q None
  /\ enrollments d' = (enrollments d ++ [e])%list
  /\ studentProgresses d' = (studentProgresses d ++ [sp])%list
  /\ lessonProgresses d'
     = (lessonProgresses d
        ++ map (studentRouter.initial_lessonProgress userId (StudentProgress.id sp))
               (course_lessons courseId d))%list
  /\ (if truthy_str applied
      then exists l1 c l2,
             coupons d = (l1 ++ c :: l2)%list
             /\ coupons d' = (l1 ++ increment_usedCount c :: l2)%list
             /\ Some (Coupon.id c) = applied
             /\ couponUsages d'
                = (couponUsages d
                   ++ [CouponUsage.mk userId (Coupon.id c) courseId 0%Q])%list
      else coupons d' = coupons d /\ couponUsages d' = couponUsages d)
  /\ courseCoupons d' = courseCoupons d
  /\ courses d' = courses d
  /\ lessons d' = lessons d
  /\ categories d' = categories d
  /\ auditLogs d' = auditLogs d.

Definition enrollment_key (e : Enrollment.t) : Id * Id :=
  (Enrollment.userId e, Enrollment.courseId e).

(** The unique index [Enrollment_userId_courseId_key]. *)
Definition enrollments_unique (d : Db) : Prop :=
  NoDup (map enrollment_key (enrollments d)).

(** The global cap of the coupon is reached. *)
Definition global_cap_reached (c : Coupon.t) : Prop :=
  exists m, Coupon.maxUses c = Some m /\ (1 <= m)%Z /\ (m <= Coupon.usedCount c)%Z.

(** The user has used the coupon as often as its per-user cap allows. *)
Definition user_cap_reached (c : Coupon.t) (userId : Id) (d : Db) : Prop :=
  exists m,
    Coupon.maxUsesPerUser c = Some m /\ (1 <= m)%Z
    /\ (m <= Z.of_nat (List.length (coupon_couponUsage c userId d)))%Z.

(** The rate that the formula of the claim gives in database [d]. *)
Definition rate_in (userId courseId : Id) (d : Db) (rate : Q) : Prop :=
  ((0 < count_lessons courseId d)%Z ->
   rate == inject_Z (count_completed userId courseId d)
           / inject_Z (count_lessons courseId d) * 100)
  /\ (count_lessons courseId d = 0%Z -> rate == 0).

(** A request that raises the value of the 20% coupon WELCOME20 to 150 and
    names the value only: the refinement of [updateCouponSchema] sees no
    [discountType] and lets it through. *)
Definition raise_to_150 : adminCouponsRouter.UpdateCoupon.input :=
  adminCouponsRouter.UpdateCoupon.mkInput "ccoupon0001" None None None (Some 150)
    None None None None None None None.

Definition db_after_raise : Db :=
  fst (adminCouponsRouter.updateCoupon Sample.env "cadmin00001" raise_to_150 Sample.db).

(** The football course has a lesson without a video ([drills]); it starts
    unpublished here. *)
Definition draft : Course.t := uploadRouter.set_published false Sample.football.

Definition db_draft : Db := set_courses [draft] Sample.db.

Definition publish_by_update : adminCoursesRouter.UpdateCourse.input :=
  adminCoursesRouter.UpdateCourse.mkInput "ccourse0001" None None None None None None
    None None (Some true) None None None.

(** A procedure that takes every database to one related to it by [R],
    whether it returns or throws. *)
Definition preserves (R : Db -> Db -> Prop) {A} (m : M A) : Prop :=
  forall d, R d (fst (m d)).

(** The keys of the enrollments, in table order. *)
Definition same_enrollment_keys (d d' : Db) : Prop :=
  map enrollment_key (enrollments d') = map enrollment_key (enrollments d).

(** One call of a procedure of the student router that writes. *)
Inductive student_call :=
  | EnrollCourse (env : Env) (userId : Id)
      (input : studentRouter.EnrollCourse.input)
  | UpdateLessonProgress (env : Env) (userId : Id)
      (input : studentRouter.UpdateLessonProgress.input)
  | MarkLessonComplete (env : Env) (userId : Id)
      (input : studentRouter.MarkLessonComplete.input).

(** The database after a call. *)
Definition after_call (d : Db) (c : student_call) : Db :=
  match c with
  | EnrollCourse env userId input =>
      fst (studentRouter.enrollCourse env userId input d)
  | UpdateLessonProgress env userId input =>
      fst (studentRouter.updateLessonProgress env userId input d)
  | MarkLessonComplete env userId input =>
      fst (studentRouter.markLessonComplete env userId input d)
  end.

(** ** Vocabulary of the further properties *)

Module Catalog.

(** A coupon on offer since the epoch. *)
Definition SPRING10 : Coupon.t :=
  Coupon.mk "ccoupon0004" "SPRING10" "Spring offer" PERCENTAGE 10
    None 0%Z None (Some 0%Z) None true true.

Definition db_spring : Db := set_coupons [SPRING10] Sample.db.

(** Three uses of coupons by the sample user, oldest first. *)
Definition usages : list CouponUsage.t :=
  [CouponUsage.mk "cuser000001" "ccoupon0001" "ccourse0001" 0;
   CouponUsage.mk "cuser000001" "ccoupon0002" "ccourse0001" 0;
   CouponUsage.mk "cuser000001" "ccoupon0004" "ccourse0001" 0].

Definition db_used : Db := set_couponUsages usages Sample.db.

(** An administration environment in which the database rejects nothing. *)
Definition aenv : AdminEnv := mkAdminEnv Sample.env (fun _ => false).

(** A request for a 15% coupon tied to the football course. *)
Definition AUTUMN15 : adminCouponsRouter.CreateCoupon.input :=
  adminCouponsRouter.CreateCoupon.mkInput "AUTUMN15" "Autumn offer" PERCENTAGE
    15 None None None None false (Some ["ccourse0001"]) true.


(** An administration environment at a later instant, when WELCOME20 has
    expired. *)
Definition aenv_later : AdminEnv :=
  mkAdminEnv (mkEnv 2500%Z (fun _ => false)) (fun _ => false).

(** The course of the enrolled user once its lessons are gone, the
    progress record still showing a rate of 50. *)
Definition db_emptied : Db :=
  mkDb [] [] [] [Sample.enrollment1] [Sample.football] []
       [StudentProgress.mk "c1" "cuser000001" "ccourse0001" 120%Z 50 None]
       [] [Sample.sports] [] 2.

End Catalog.

(** The rows on a page of [getUserCouponHistory], and the number of pages it
    announces. *)
Definition history_rows (env : Env) (userId : Id) (limit : Z) (d : Db)
    (page : Z) : list CouponUsage.t :=
  match snd (couponsRouter.getUserCouponHistory env userId
               (couponsRouter.GetUserCouponHistory.mkInput page limit) d) with
  | inr out => map fst (couponsRouter.GetUserCouponHistory.couponUsage out)
  | inl _ => []
  end.

Definition history_pages (env : Env) (userId : Id) (limit : Z) (d : Db) : Z :=
  match snd (couponsRouter.getUserCouponHistory env userId
               (couponsRouter.GetUserCouponHistory.mkInput 1 limit) d) with
  | inr out => couponsRouter.GetUserCouponHistory.pages out
  | inl _ => 0%Z
  end.

(** The unique indexes of Category: no two rows share a name or a slug. *)
Definition categories_unique (d : Db) : Prop :=
  NoDup (map Category.name (categories d))
  /\ NoDup (map Category.slug (categories d)).

(** The unique index of Coupon: no two rows share a code. *)
Definition coupon_codes_unique (d : Db) : Prop :=
  NoDup (map Coupon.code (coupons d)).


(** The unique index of LessonProgress: one row per user and lesson. *)
Definition lessonProgress_key (p : LessonProgress.t) : Id * Id :=
  (LessonProgress.userId p, LessonProgress.lessonId p).

Definition lessonProgress_unique (d : Db) : Prop :=
  NoDup (map lessonProgress_key (lessonProgresses d)).

Definition keeps_lessonProgress_unique (d d' : Db) : Prop :=
  lessonProgress_unique d -> lessonProgress_unique d'.

(** The primary key of Lesson. *)
Definition lesson_ids_unique (d : Db) : Prop :=
  NoDup (map Lesson.id (lessons d)).

(** The unique index of StudentProgress on (userId, courseId). *)
Definition studentProgress_key (p : StudentProgress.t) : Id * Id :=
  (StudentProgress.userId p, StudentProgress.courseId p).

Definition studentProgress_unique (d : Db) : Prop :=
  NoDup (map studentProgress_key (studentProgresses d)).

(** The lessons of a course: the rows of the lessons table whose [courseId]
    column is the course. *)
Definition lessons_of_course (courseId : Id) (d : Db) : list Lesson.t :=
  filter (fun l => String.eqb (Lesson.courseId l) courseId) (lessons d).

(** The completed lesson-progress records of a user in a course: the rows
    whose [userId] column is the user, whose [completed] column is set, and
    whose [lessonId] is the id of a lesson of the course. *)
Definition completed_of_course (userId courseId : Id) (d : Db)
    : list LessonProgress.t :=
  filter (fun p =>
            String.eqb (LessonProgress.userId p) userId
            && LessonProgress.completed p
            && existsb (fun l =>
                          String.eqb (Lesson.id l) (LessonProgress.lessonId p)
                          && String.eqb (Lesson.courseId l) courseId)
                       (lessons d))
         (lessonProgresses d).

(** [rate] is completed / total * 100 over the tables of [d], and 0 when
    the course has no lesson. *)
Definition rate_of_course (userId courseId : Id) (d : Db) (rate : Q) : Prop :=
  let total := List.length (lessons_of_course courseId d) in
  let completed := List.length (completed_of_course userId courseId d) in
  ((0 < total)%nat ->
   rate == inject_Z (Z.of_nat completed) / inject_Z (Z.of_nat total) * 100)
  /\ (total = 0%nat -> rate == 0).

(** The row [sp] of the StudentProgress table of [d] is a record of the user
    and the course and holds that rate. *)
Definition rate_stored (userId courseId : Id) (d : Db) (sp : StudentProgress.t)
    : Prop :=
  In sp (studentProgresses d)
  /\ StudentProgress.userId sp = userId
  /\ StudentProgress.courseId sp = courseId
  /\ rate_of_course userId courseId d (StudentProgress.completionRate sp).

(** [sp] is the only record of the user and the course in [d]. *)
Definition only_record (userId courseId : Id) (d : Db) (sp : StudentProgress.t)
    : Prop :=
  forall sp',
    In sp' (studentProgresses d) ->
    StudentProgress.userId sp' = userId ->
    StudentProgress.courseId sp' = courseId ->
    sp' = sp.

(** What a call leaves alone while it tracks progress: the lessons, and the
    keys of the progress records. *)
Definition progress_frame (d d' : Db) : Prop :=
  lessons d' = lessons d
  /\ map studentProgress_key (studentProgresses d')
     = map studentProgress_key (studentProgresses d).

(** * Properties *)

(** ** Reasoning about procedures *)

Ltac unfold_proc :=
  unfold statement, with_input, rethrow, transaction, bind, query, write,
    throw_if, throw, ret in *.

Lemma readonly_ret {A} (a : A) : readonly (ret a).
Proof. intro d. reflexivity. Qed.

Lemma readonly_throw {A} (e : Exn) : readonly (@throw A e).
Proof. intro d. reflexivity. Qed.

Lemma readonly_query {A} (f : Db -> A) : readonly (query f).
Proof. intro d. reflexivity. Qed.

Lemma readonly_throw_if (c : bool) (e : Exn) : readonly (throw_if c e).
Proof. intro d. destruct c; reflexivity. Qed.

Lemma readonly_bind {A B} (m : M A) (k : A -> M B) :
  readonly m -> (forall a, readonly (k a)) -> readonly (bind m k).
Proof.
  intros Hm Hk d. unfold bind. specialize (Hm d).
  destruct (m d) as [d' [e | a]]; simpl in *; subst d'.
  - reflexivity.
  - apply Hk.
Qed.

Lemma readonly_rethrow {A} (msg : string) (m : M A) :
  readonly m -> readonly (rethrow msg m).
Proof.
  intros Hm d. unfold rethrow. specialize (Hm d).
  destruct (m d) as [d' [[c s | s] | a]]; simpl in *; assumption.
Qed.

Lemma readonly_with_input {I A} (schema : I -> bool) (h : I -> M A) (i : I) :
  (forall i, readonly (h i)) -> readonly (with_input schema h i).
Proof.
  intros Hh. unfold with_input. destruct (schema i).
  - apply Hh.
  - apply readonly_throw.
Qed.

Lemma readonly_if {A} (b : bool) (m1 m2 : M A) :
  readonly m1 -> readonly m2 -> readonly (if b then m1 else m2).
Proof. destruct b; auto. Qed.

Create HintDb readonly.
#[export] Hint Resolve readonly_ret readonly_throw readonly_query
  readonly_throw_if readonly_rethrow readonly_if : readonly.

Ltac solve_readonly :=
  repeat first
    [ progress cbv beta zeta
    | apply readonly_with_input; intro
    | apply readonly_rethrow
    | apply readonly_bind; [ | intro ]
    | apply readonly_if
    | match goal with
      | |- readonly (match ?x with _ => _ end) => destruct x
      end
    | solve [ auto with readonly ] ].

(** Inversion of a procedure that returned. *)
Lemma bind_ok {A B} (m : M A) (k : A -> M B) (d d' : Db) (b : B) :
  bind m k d = (d', inr b) ->
  exists d1 a, m d = (d1, inr a) /\ k a d1 = (d', inr b).
Proof.
  unfold bind. destruct (m d) as [d1 [e | a]]; intros H.
  - discriminate.
  - exists d1, a. split; [reflexivity | exact H].
Qed.

Lemma rethrow_ok {A} (msg : string) (m : M A) (d d' : Db) (a : A) :
  rethrow msg m d = (d', inr a) -> m d = (d', inr a).
Proof.
  unfold rethrow. destruct (m d) as [d1 [[c s | s] | x]]; intros H;
    try discriminate; exact H.
Qed.

Lemma transaction_ok {A} (m : M A) (d d' : Db) (a : A) :
  transaction m d = (d', inr a) -> m d = (d', inr a).
Proof.
  unfold transaction. destruct (m d) as [d1 [e | x]]; intros H;
    try discriminate; exact H.
Qed.

Lemma throw_if_ok (c : bool) (e : Exn) (d d' : Db) (u : unit) :
  throw_if c e d = (d', inr u) -> c = false /\ d' = d.
Proof.
  unfold throw_if, throw, ret. destruct c; intros H; inversion H; auto.
Qed.

Lemma query_ok {A} (f : Db -> A) (d d' : Db) (a : A) :
  query f d = (d', inr a) -> d' = d /\ a = f d.
Proof. unfold query. intros H; inversion H; auto. Qed.

Lemma ret_ok {A} (x : A) (d d' : Db) (a : A) :
  ret x d = (d', inr a) -> d' = d /\ a = x.
Proof. unfold ret. intros H; inversion H; auto. Qed.

Lemma write_ok (f : Db -> Db) (d d' : Db) (u : unit) :
  write f d = (d', inr u) -> d' = f d.
Proof. unfold write. intros H; inversion H; auto. Qed.

Lemma throw_ok {A} (e : Exn) (d d' : Db) (a : A) :
  @throw A e d = (d', inr a) -> False.
Proof. unfold throw. discriminate. Qed.

Lemma statement_ok (env : Env) (s : Stmt) (d d' : Db) (u : unit) :
  statement env s d = (d', inr u) -> rejects env s = false /\ d' = d.
Proof. unfold statement. apply throw_if_ok. Qed.

Lemma with_input_ok {I A} (schema : I -> bool) (h : I -> M A) (i : I)
    (d d' : Db) (a : A) :
  with_input schema h i d = (d', inr a) ->
  schema i = true /\ h i d = (d', inr a).
Proof.
  unfold with_input. destruct (schema i); intros H.
  - auto.
  - discriminate.
Qed.

Ltac inv_step :=
  match goal with
  | H : with_input _ _ _ _ = (_, inr _) |- _ =>
      apply with_input_ok in H; destruct H as [? H]; cbv beta zeta in H
  | H : rethrow _ _ _ = (_, inr _) |- _ => apply rethrow_ok in H
  | H : transaction _ _ = (_, inr _) |- _ => apply transaction_ok in H
  | H : bind _ _ _ = (_, inr _) |- _ =>
      let d1 := fresh "d" in
      let a := fresh "a" in
      let H1 := fresh "Hm" in
      apply bind_ok in H; destruct H as [d1 [a [H1 H]]]; cbv beta in H
  | H : throw_if _ _ _ = (_, inr _) |- _ =>
      apply throw_if_ok in H; destruct H as [? ?]; subst
  | H : statement _ _ _ = (_, inr _) |- _ =>
      apply statement_ok in H; destruct H as [? ?]; subst
  | H : query _ _ = (_, inr _) |- _ =>
      apply query_ok in H; destruct H as [? ?]; subst
  | H : ret _ _ = (_, inr _) |- _ =>
      apply ret_ok in H; destruct H as [? ?]; subst
  | H : write _ _ = (_, inr _) |- _ => apply write_ok in H; subst
  | H : throw _ _ = (_, inr _) |- _ => elim (throw_ok _ _ _ _ H)
  | H : (match ?x with _ => _ end) _ = (_, inr _) |- _ =>
      let E := fresh "E" in destruct x eqn:E
  | H : (if ?x then _ else _) _ = (_, inr _) |- _ =>
      let E := fresh "E" in destruct x eqn:E
  end.

(** ** The discount arithmetic *)

Lemma discountAmount_percentage (c : Coupon.t) (p : Q) :
  Coupon.discountType c = PERCENTAGE ->
  discountAmount_of c p = (p * Coupon.discountValue c) / 100.
Proof. intros H. unfold discountAmount_of. rewrite H. reflexivity. Qed.

Lemma discountAmount_fixed (c : Coupon.t) (p : Q) :
  Coupon.discountType c = FIXED_AMOUNT ->
  discountAmount_of c p = Qmin (Coupon.discountValue c) p.
Proof. intros H. unfold discountAmount_of. rewrite H. reflexivity. Qed.

(** In exact arithmetic a percentage of at most 100 never takes more than
    the price. *)
Lemma percentage_bounded (c : Coupon.t) (p : Q) :
  Coupon.discountType c = PERCENTAGE ->
  0 <= p -> Coupon.discountValue c <= 100 ->
  discountAmount_of c p <= p.
Proof.
  intros Ht Hp Hv. rewrite (discountAmount_percentage c p Ht).
  apply Qle_shift_div_r; [reflexivity |].
  rewrite (Qmult_comm p (Coupon.discountValue c)), (Qmult_comm p 100).
  apply Qmult_le_compat_r; assumption.
Qed.

(** The final price is clamped at zero, whatever the coupon. *)
Lemma finalPrice_nonneg (p a : Q) : 0 <= finalPrice_of p a.
Proof. unfold finalPrice_of, Math_max. apply Q.le_max_l. Qed.

(** A fixed amount never takes more than the price. *)
Lemma fixed_bounded (c : Coupon.t) (p : Q) :
  Coupon.discountType c = FIXED_AMOUNT -> discountAmount_of c p <= p.
Proof.
  intros Ht. rewrite (discountAmount_fixed c p Ht). apply Q.le_min_r.
Qed.

(** ** C1: the discount formula *)

(** C1. For a coupon that [couponsRouter.calculateDiscount] accepts, and for
    any coupon looked up by [adminCouponsRouter.calculateDiscount], at a
    non-negative [originalPrice] the procedure returns, leaves the database
    alone, and its result carries [discountAmount = originalPrice *
    discountValue / 100] for a PERCENTAGE coupon, [discountAmount =
    min(discountValue, originalPrice)] for a FIXED_AMOUNT coupon, and
    [finalPrice = max(0, originalPrice - discountAmount)]. *)
Theorem calculateDiscount_formula (env : Env) (adminId : Id) (d : Db) :
  (forall (input : couponsRouter.CalculateDiscount.input) (c : Coupon.t),
     let p := couponsRouter.CalculateDiscount.originalPrice input in
     0 <= p ->
     coupon_findUnique_code
       (toUpperCase (couponsRouter.CalculateDiscount.couponCode input)) d
       = Some c ->
     Coupon.isActive c = true ->
     after (Coupon.validFrom c) (now env) = false ->
     before (Coupon.validUntil c) (now env) = false ->
     maxUses_reached c = false ->
     (Coupon.isGlobal c = true
      \/ coupon_courseCoupons c
           (couponsRouter.CalculateDiscount.courseId input) d <> []) ->
     exists r,
       couponsRouter.calculateDiscount env input d = (d, inr r)
       /\ (Coupon.discountType c = PERCENTAGE ->
           couponsRouter.CalculateDiscount.discountAmount r
           == p * Coupon.discountValue c / 100)
       /\ (Coupon.discountType c = FIXED_AMOUNT ->
           couponsRouter.CalculateDiscount.discountAmount r
           == Qmin (Coupon.discountValue c) p)
       /\ couponsRouter.CalculateDiscount.finalPrice r
          == Qmax 0 (p - couponsRouter.CalculateDiscount.discountAmount r))
  /\
  (forall (input : adminCouponsRouter.CalculateDiscount.input) (c : Coupon.t),
     let p := adminCouponsRouter.CalculateDiscount.originalPrice input in
     0 <= p ->
     coupon_findUnique_id
       (adminCouponsRouter.CalculateDiscount.couponId input) d = Some c ->
     exists r,
       adminCouponsRouter.calculateDiscount env adminId input d = (d, inr r)
       /\ (Coupon.discountType c = PERCENTAGE ->
           adminCouponsRouter.CalculateDiscount.discountAmount r
           == p * Coupon.discountValue c / 100)
       /\ (Coupon.discountType c = FIXED_AMOUNT ->
           adminCouponsRouter.CalculateDiscount.discountAmount r
           == Qmin (Coupon.discountValue c) p)
       /\ adminCouponsRouter.CalculateDiscount.finalPrice r
          == Qmax 0 (p - adminCouponsRouter.CalculateDiscount.discountAmount r)).
Proof.
  split.
  - intros input c p Hp Hfind Hact Hfrom Huntil Hmax Happl.
    assert (Hschema : couponsRouter.calculateDiscountSchema input = true).
    { unfold couponsRouter.calculateDiscountSchema.
      apply Qle_bool_iff. exact Hp. }
    assert (Hscope : negb (Coupon.isGlobal c)
                     && (List.length
                           (coupon_courseCoupons c
                              (couponsRouter.CalculateDiscount.courseId input) d)
                         =? 0)%nat = false).
    { destruct Happl as [Hg | Hne].
      - rewrite Hg. reflexivity.
      - destruct (coupon_courseCoupons c _ d); [congruence |].
        apply andb_false_r. }
    eexists. split.
    + unfold couponsRouter.calculateDiscount. unfold_proc.
      rewrite Hschema, Hfind, Hact, Hfrom, Huntil, Hmax, Hscope. simpl.
      reflexivity.
    + simpl. fold p. split; [| split].
      * intros Ht. rewrite (discountAmount_percentage c p Ht). reflexivity.
      * intros Ht. rewrite (discountAmount_fixed c p Ht). reflexivity.
      * reflexivity.
  - intros input c p Hp Hfind.
    assert (Hschema : adminCouponsRouter.calculateDiscountSchema input = true).
    { unfold adminCouponsRouter.calculateDiscountSchema.
      apply Qle_bool_iff. exact Hp. }
    eexists. split.
    + unfold adminCouponsRouter.calculateDiscount. unfold_proc.
      rewrite Hschema, Hfind. reflexivity.
    + simpl. fold p. split; [| split].
      * intros Ht. rewrite (discountAmount_percentage c p Ht). reflexivity.
      * intros Ht. rewrite (discountAmount_fixed c p Ht). reflexivity.
      * reflexivity.
Qed.

(** The seed's WELCOME20 (20%) on a price of 200 gives 40 off, and SUMMER50
    (50 off) looked up by id on a price of 30 gives 30 off. *)
Lemma calculateDiscount_formula_witness :
  (exists r,
     couponsRouter.calculateDiscount Sample.env
       (couponsRouter.CalculateDiscount.mkInput "welcome20" "ccourse0001" 200)
       Sample.db = (Sample.db, inr r)
     /\ couponsRouter.CalculateDiscount.discountAmount r == 40
     /\ couponsRouter.CalculateDiscount.finalPrice r == 160)
  /\
  (exists r,
     adminCouponsRouter.calculateDiscount Sample.env "cadmin00001"
       (adminCouponsRouter.CalculateDiscount.mkInput "ccoupon0002" 30)
       Sample.db = (Sample.db, inr r)
     /\ adminCouponsRouter.CalculateDiscount.discountAmount r == 30
     /\ adminCouponsRouter.CalculateDiscount.finalPrice r == 0).
Proof.
  destruct (calculateDiscount_formula Sample.env "cadmin00001" Sample.db) as [Hpub Hadm].
  split.
  - destruct (Hpub (couponsRouter.CalculateDiscount.mkInput "welcome20" "ccourse0001" 200)
                Sample.WELCOME20) as [r [Hrun [Hpct [_ Hfin]]]];
      try reflexivity.
    + simpl. unfold Qle. simpl. lia.
    + left. reflexivity.
    + exists r. split; [exact Hrun |]. split.
      * rewrite (Hpct eq_refl). reflexivity.
      * rewrite Hfin, (Hpct eq_refl). reflexivity.
  - destruct (Hadm (adminCouponsRouter.CalculateDiscount.mkInput "ccoupon0002" 30)
                Sample.SUMMER50) as [r [Hrun [_ [Hfix Hfin]]]];
      try reflexivity.
    + simpl. unfold Qle. simpl. lia.
    + exists r. split; [exact Hrun |]. split.
      * rewrite (Hfix eq_refl). reflexivity.
      * rewrite Hfin, (Hfix eq_refl). reflexivity.
Defined.

(** ** C9: applyCoupon only reads *)

Lemma applyCoupon_readonly (env : Env) (userId : Id)
    (input : couponsRouter.ApplyCoupon.input) :
  readonly (couponsRouter.applyCoupon env userId input).
Proof.
  unfold couponsRouter.applyCoupon. solve_readonly.
Qed.

(** What a successful [applyCoupon] returns. *)
Lemma applyCoupon_success (env : Env) (userId : Id)
    (input : couponsRouter.ApplyCoupon.input) (d d' : Db)
    (r : couponsRouter.ApplyCoupon.output) :
  couponsRouter.applyCoupon env userId input d = (d', inr r) ->
  exists coupon course,
    coupon_findUnique_code
      (toUpperCase (couponsRouter.ApplyCoupon.code input)) d = Some coupon
    /\ course_findUnique (couponsRouter.ApplyCoupon.courseId input) d
       = Some course
    /\ maxUses_reached coupon = false
    /\ maxUsesPerUser_reached coupon (coupon_couponUsage coupon userId d) = false
    /\ enrollment_findUnique userId
         (couponsRouter.ApplyCoupon.courseId input) d = None
    /\ r = couponsRouter.ApplyCoupon.mkOutput true (Coupon.id coupon)
             (Coupon.code coupon) (Coupon.name coupon) (Course.price course)
             (discountAmount_of coupon (Course.price course))
             (finalPrice_of (Course.price course)
                (discountAmount_of coupon (Course.price course)))
             (discountAmount_of coupon (Course.price course))
             (Course.id course) (Course.title course).
Proof.
  unfold couponsRouter.applyCoupon. intros H. repeat inv_step.
  do 2 eexists. repeat split; try eassumption.
  match goal with
  | H : isSome ?x = false |- ?x = None =>
      destruct x; [discriminate H | reflexivity]
  end.
Qed.

(** C9. [applyCoupon] performs no database write, whatever the input and the
    database: the database after the call is the database before it, so the
    coupons (with their [usedCount]), the CouponUsage table and the
    Enrollment table are the same; on success the result is the pricing
    computed from the coupon and the course price. *)
Theorem applyCoupon_performs_no_writes (env : Env) (userId : Id)
    (input : couponsRouter.ApplyCoupon.input) (d : Db) :
  let d' := fst (couponsRouter.applyCoupon env userId input d) in
  d' = d
  /\ coupons d' = coupons d
  /\ couponUsages d' = couponUsages d
  /\ enrollments d' = enrollments d
  /\ forall r,
       snd (couponsRouter.applyCoupon env userId input d) = inr r ->
       exists coupon course,
         coupon_findUnique_code
           (toUpperCase (couponsRouter.ApplyCoupon.code input)) d = Some coupon
         /\ course_findUnique (couponsRouter.ApplyCoupon.courseId input) d
            = Some course
         /\ couponsRouter.ApplyCoupon.originalPrice r = Course.price course
         /\ couponsRouter.ApplyCoupon.discountAmount r
            = discountAmount_of coupon (Course.price course)
         /\ couponsRouter.ApplyCoupon.finalPrice r
            = Qmax 0 (Course.price course
                      - couponsRouter.ApplyCoupon.discountAmount r).
Proof.
  intros d'. subst d'.
  rewrite (applyCoupon_readonly env userId input d).
  repeat (split; [reflexivity |]).
  intros r Hr.
  destruct (couponsRouter.applyCoupon env userId input d) as [d1 res] eqn:Hrun.
  simpl in Hr. subst res.
  destruct (applyCoupon_success _ _ _ _ _ _ Hrun)
    as [coupon [course [Hc [Hk [_ [_ [_ Hout]]]]]]].
  exists coupon, course. subst r. simpl. repeat split; assumption.
Qed.

(** SUMMER50 on the 99.99 course: 50 off, 49.99 to pay, nothing written. *)
Lemma applyCoupon_performs_no_writes_witness :
  fst (couponsRouter.applyCoupon Sample.env "cuser000001"
         (couponsRouter.ApplyCoupon.mkInput "summer50" "ccourse0001") Sample.db)
  = Sample.db
  /\ exists r,
       snd (couponsRouter.applyCoupon Sample.env "cuser000001"
              (couponsRouter.ApplyCoupon.mkInput "summer50" "ccourse0001") Sample.db)
       = inr r
       /\ couponsRouter.ApplyCoupon.discountAmount r == 50
       /\ couponsRouter.ApplyCoupon.finalPrice r == 4999 # 100.
Proof.
  destruct (applyCoupon_performs_no_writes Sample.env "cuser000001"
              (couponsRouter.ApplyCoupon.mkInput "summer50" "ccourse0001") Sample.db)
    as [Hsame [_ [_ [_ Hret]]]].
  split; [exact Hsame |].
  eexists. split; [reflexivity |].
  destruct (Hret _ eq_refl) as [c [k [Hc [Hk [_ [Hd Hf]]]]]].
  vm_compute in Hc. vm_compute in Hk.
  inversion Hc; inversion Hk; subst c k.
  split.
  - rewrite Hd. reflexivity.
  - rewrite Hf, Hd. reflexivity.
Defined.

(** ** C8: a category with courses cannot be deleted *)

Lemma id_eqb_refl (a : Id) : id_eqb a a = true.
Proof. apply String.eqb_refl. Qed.

Lemma id_eqb_eq (a b : Id) : id_eqb a b = true <-> a = b.
Proof. apply String.eqb_eq. Qed.

Lemma filter_In_nonempty {A} (p : A -> bool) (l : list A) (x : A) :
  In x l -> p x = true -> (0 <? List.length (filter p l))%nat = true.
Proof.
  intros Hin Hp.
  assert (Hf : In x (filter p l)) by (apply filter_In; split; assumption).
  destruct (filter p l); [contradiction | reflexivity].
Qed.

Lemma length_zero_nil {A} (l : list A) :
  (0 <? List.length l)%nat = false -> l = [].
Proof. destruct l; [reflexivity | discriminate]. Qed.

(** C8. When the category exists and some course belongs to it,
    [deleteCategory] throws CONFLICT and the database (the category and its
    courses included) is as before; and whenever a call changes the
    categories table, the category had no course. *)
Theorem deleteCategory_rejects_category_with_courses
    (env : Env) (adminId id : Id) (d : Db) :
  (forall cat course,
     category_findUnique id d = Some cat ->
     In course (courses d) -> Course.categoryId course = id ->
     exists msg,
       adminCategoriesRouter.deleteCategory env adminId id d
       = (d, inl (TRPCError CONFLICT msg)))
  /\ (categories (fst (adminCategoriesRouter.deleteCategory env adminId id d))
      <> categories d ->
      category_courses id d = []
      /\ courses (fst (adminCategoriesRouter.deleteCategory env adminId id d))
         = courses d).
Proof.
  split.
  - intros cat course Hcat Hin Hid.
    assert (Hn : (0 <? List.length (category_courses id d))%nat = true).
    { unfold category_courses.
      apply (filter_In_nonempty _ _ course Hin).
      rewrite Hid. apply id_eqb_refl. }
    eexists. unfold adminCategoriesRouter.deleteCategory. unfold_proc.
    rewrite Hcat, Hn. reflexivity.
  - unfold adminCategoriesRouter.deleteCategory,
      adminCategoriesRouter.category_delete, auditLog_create.
    unfold_proc. intros Hchg.
    destruct (category_findUnique id d) as [cat |]; [| now elim Hchg].
    destruct (0 <? List.length (category_courses id d))%nat eqn:Hn;
      [now elim Hchg |].
    split; [apply length_zero_nil; exact Hn |].
    clear Hchg.
    destruct (rejects env CategoryDelete); [reflexivity |].
    destruct (delete_first (by_id_category id) (categories d));
      [| reflexivity].
    destruct (rejects env AuditLogCreate); reflexivity.
Qed.

(** The seeded category holds the football course: deleting it is refused. *)
Lemma deleteCategory_rejects_category_with_courses_witness :
  exists msg,
    adminCategoriesRouter.deleteCategory Sample.env "cadmin00001" "ccategory01" Sample.db
    = (Sample.db, inl (TRPCError CONFLICT msg)).
Proof.
  destruct (deleteCategory_rejects_category_with_courses
              Sample.env "cadmin00001" "ccategory01" Sample.db) as [H _].
  apply (H Sample.sports Sample.football).
  - reflexivity.
  - simpl. left. reflexivity.
  - reflexivity.
Defined.

(** Once its courses are gone the same category is deleted. *)
Example deleteCategory_empty_category :
  categories
    (fst (adminCategoriesRouter.deleteCategory Sample.env "cadmin00001" "ccategory01"
            (set_courses [] Sample.db))) = [].
Proof. reflexivity. Qed.

(** ** enrollCourse: what a call does to the database *)

Lemma atomic_readonly {A} (m : M A) : readonly m -> atomic m.
Proof.
  intros Hm d d' e H. specialize (Hm d). rewrite H in Hm. exact Hm.
Qed.

Lemma atomic_transaction {A} (body : M A) : atomic (transaction body).
Proof.
  intros d d' e. unfold transaction.
  destruct (body d) as [d1 [e1 | a]]; intros H; inversion H; reflexivity.
Qed.

Lemma atomic_bind {A B} (m : M A) (k : A -> M B) :
  readonly m -> (forall a, atomic (k a)) -> atomic (bind m k).
Proof.
  intros Hm Hk d d' e. unfold bind. specialize (Hm d).
  destruct (m d) as [d1 [e1 | a]]; simpl in Hm; subst d1; intros H.
  - inversion H; reflexivity.
  - apply (Hk a d d' e H).
Qed.

Lemma atomic_rethrow {A} (msg : string) (m : M A) :
  atomic m -> atomic (rethrow msg m).
Proof.
  intros Hm d d' e. unfold rethrow.
  destruct (m d) as [d1 [[c s | s] | a]] eqn:Hrun; intros H; inversion H;
    subst; eapply Hm; eassumption.
Qed.

Lemma insert_all_app (rows table t : list LessonProgress.t) :
  insert_all rows table = Some t -> t = (table ++ rows)%list.
Proof.
  revert table. induction rows as [| r rows IH]; intros table H; simpl in H.
  - inversion H. now rewrite app_nil_r.
  - destruct (existsb _ table); [discriminate |].
    apply IH in H. rewrite H, <- app_assoc. reflexivity.
Qed.

Lemma update_first_split {A} (p : A -> bool) (f : A -> A) (l l' : list A) :
  update_first p f l = Some l' ->
  exists l1 x l2,
    l = (l1 ++ x :: l2)%list /\ l' = (l1 ++ f x :: l2)%list /\ p x = true
    /\ find p l = Some x.
Proof.
  revert l'. induction l as [| y l IH]; intros l' H; simpl in H.
  - discriminate.
  - simpl. destruct (p y) eqn:Hp.
    + inversion H. exists [], y, l. repeat split; assumption.
    + destruct (update_first p f l) as [r |]; [| discriminate].
      inversion H; subst l'.
      destruct (IH r eq_refl) as [l1 [x [l2 [H1 [H2 [H3 H4]]]]]].
      exists (y :: l1), x, l2. subst. repeat split; assumption.
Qed.

Lemma enrollCourse_atomic (env : Env) (userId : Id)
    (input : studentRouter.EnrollCourse.input) :
  atomic (studentRouter.enrollCourse env userId input).
Proof.
  unfold studentRouter.enrollCourse. cbv zeta.
  apply atomic_rethrow.
  apply atomic_bind; [apply readonly_query | intro existing].
  apply atomic_bind; [apply readonly_throw_if | intros _].
  apply atomic_bind; [apply readonly_query | intro course].
  destruct course as [course |]; [| apply atomic_readonly, readonly_throw].
  apply atomic_bind; [apply readonly_query | intro ls].
  apply atomic_bind; [apply readonly_throw_if | intros _].
  apply atomic_bind; [solve_readonly | intro applied].
  apply atomic_transaction.
Qed.

Lemma enrollment_create_ok (env : Env) (userId courseId : Id)
    (applied : option Id) (d d' : Db) (row : Enrollment.t) :
  enrollment_create env userId courseId applied d = (d', inr row) ->
  row = Enrollment.mk (cuid (idCounter d)) userId courseId applied ACTIVE 0%Q None
  /\ d' = set_idCounter (S (idCounter d))
            (set_enrollments (enrollments d ++ [row]) d).
Proof.
  unfold enrollment_create. intros H. repeat inv_step.
  destruct (existsb _ (enrollments d)); inversion H; auto.
Qed.

Lemma studentProgress_create_ok (env : Env) (userId courseId : Id)
    (w : Z) (r : Q) (d d' : Db) (row : StudentProgress.t) :
  studentProgress_create env userId courseId w r d = (d', inr row) ->
  row = StudentProgress.mk (cuid (idCounter d)) userId courseId w r None
  /\ d' = set_idCounter (S (idCounter d))
            (set_studentProgresses (studentProgresses d ++ [row]) d).
Proof.
  unfold studentProgress_create. intros H. repeat inv_step.
  destruct (existsb _ (studentProgresses d)); inversion H; auto.
Qed.

Lemma lessonProgress_createMany_ok (env : Env) (rows : list LessonProgress.t)
    (d d' : Db) (u : unit) :
  lessonProgress_createMany env rows d = (d', inr u) ->
  d' = set_lessonProgresses (lessonProgresses d ++ rows) d.
Proof.
  unfold lessonProgress_createMany. intros H. repeat inv_step.
  destruct (insert_all rows (lessonProgresses d)) as [t |] eqn:Hins;
    inversion H.
  apply insert_all_app in Hins. subst t. reflexivity.
Qed.

Lemma coupon_increment_ok (env : Env) (i : Id) (d d' : Db) (u : unit) :
  coupon_increment env i d = (d', inr u) ->
  exists l1 c l2,
    coupons d = (l1 ++ c :: l2)%list
    /\ d' = set_coupons (l1 ++ increment_usedCount c :: l2) d
    /\ Coupon.id c = i
    /\ coupon_findUnique_id i d = Some c.
Proof.
  unfold coupon_increment. intros H. repeat inv_step.
  destruct (update_first (by_id_coupon i) increment_usedCount (coupons d))
    as [l |] eqn:Hup; inversion H.
  destruct (update_first_split _ _ _ _ Hup)
    as [l1 [c [l2 [Hs1 [Hs2 [Hs3 Hs4]]]]]].
  exists l1, c, l2. subst l. repeat split; try assumption.
  apply id_eqb_eq. exact Hs3.
Qed.

Lemma couponUsage_create_ok (env : Env) (row : CouponUsage.t) (d d' : Db)
    (u : unit) :
  couponUsage_create env row d = (d', inr u) ->
  d' = set_couponUsages (couponUsages d ++ [row]) d.
Proof.
  unfold couponUsage_create. intros H. repeat inv_step. reflexivity.
Qed.

Lemma enrollCourse_success (env : Env) (userId : Id)
    (input : studentRouter.EnrollCourse.input) (d d' : Db) (e : Enrollment.t) :
  studentRouter.enrollCourse env userId input d = (d', inr e) ->
  exists course applied,
    enrollment_findUnique userId (studentRouter.EnrollCourse.courseId input) d
    = None
    /\ course_findUnique (studentRouter.EnrollCourse.courseId input) d
       = Some course
    /\ Course.published course = true
    /\ coupon_accepted env userId input d applied
    /\ enrolled userId (studentRouter.EnrollCourse.courseId input) applied
         d d' e.
Proof.
  unfold studentRouter.enrollCourse. cbv zeta. intros H.
  repeat inv_step.
  all: repeat match goal with
         | H : enrollment_create _ _ _ _ _ = (_, inr _) |- _ =>
             apply enrollment_create_ok in H; destruct H as [? ?]
         | H : studentProgress_create _ _ _ _ _ _ = (_, inr _) |- _ =>
             apply studentProgress_create_ok in H; destruct H as [? ?]
         | H : lessonProgress_createMany _ _ _ = (_, inr _) |- _ =>
             apply lessonProgress_createMany_ok in H
         | H : coupon_increment _ _ _ = (_, inr _) |- _ =>
             apply coupon_increment_ok in H;
             destruct H as [?l1 [?c [?l2 [? [? [? ?]]]]]]
         | H : couponUsage_create _ _ _ = (_, inr _) |- _ =>
             apply couponUsage_create_ok in H
         end.
  all: match goal with
       | Hc : course_findUnique _ _ = Some ?t |- _ => exists t
       end.
  all: match goal with
       | H : truthy_str (Some ?i) = _ |- _ => exists (Some i)
       | H : truthy_str None = _ |- _ => exists None
       end.
  all: (split;
        [ match goal with
          | H : isSome ?x = false |- ?x = None =>
              destruct x; [discriminate H | reflexivity]
          end |]).
  all: (split; [reflexivity || assumption |]).
  all: (split;
        [ match goal with
          | H : negb ?b = false |- ?b = true =>
              destruct b; [reflexivity | discriminate H]
          end |]).
  all: split.
  all: try (left; split; [assumption | reflexivity]).
  all: try (right;
            destruct (studentRouter.EnrollCourse.couponCode input) as [code |];
            [| discriminate];
            exists code; eexists; simpl in *;
            repeat split; try eassumption;
            match goal with
            | H : negb ?b = false |- ?b = true =>
                destruct b; [reflexivity | discriminate H]
            end).
  all: try match goal with
           | H : (0 <? List.length ?l)%nat = false |- _ =>
               apply length_zero_nil in H
           end.
  all: unfold enrolled; subst; simpl in *.
  all: try discriminate.
  all: try match goal with
           | H : course_lessons _ _ = [] |- _ => rewrite H
           end.
  all: simpl; rewrite ?app_nil_r.
  all: try match goal with
           | H : negb (_ =? "")%string = _ |- _ => rewrite H
           end.
  all: repeat (split; [reflexivity |]).
  all: try (split; reflexivity).
  all: try (repeat split; reflexivity).
  all: match goal with
       | Hc : coupons _ = (?l1 ++ ?c :: ?l2)%list, Hid : Coupon.id ?c = _ |- _ =>
           split; [| repeat split; reflexivity];
           exists l1, c, l2; rewrite Hid;
           repeat split; try reflexivity; exact Hc
       end.
Qed.

(** ** C7: the writes of enrollCourse are all-or-nothing *)



(** ** C10: the usage row of an enrollment records no discount *)

(** C10. When [enrollCourse] returns an enrollment with an applied coupon,
    the CouponUsage table has grown by exactly one row, for this user, this
    coupon and this course, and the row's [discountAmount] is 0, whatever the
    coupon's type and value and the price of the course. *)
Theorem enrollCourse_usage_records_zero_discount
    (env : Env) (userId : Id) (input : studentRouter.EnrollCourse.input)
    (d d' : Db) (e : Enrollment.t) (couponId : Id) :
  studentRouter.enrollCourse env userId input d = (d', inr e) ->
  Enrollment.appliedCouponId e = Some couponId ->
  truthy_str (Some couponId) = true ->
  couponUsages d'
  = (couponUsages d
     ++ [CouponUsage.mk userId couponId
           (studentRouter.EnrollCourse.courseId input) 0])%list.
Proof.
  intros Hrun Happ Htruthy.
  destruct (enrollCourse_success _ _ _ _ _ _ Hrun)
    as [course [applied [_ [_ [_ [_ Henr]]]]]].
  destruct Henr as [He [_ [_ [_ [Hcoupon _]]]]].
  rewrite He in Happ. simpl in Happ. subst applied.
  rewrite Htruthy in Hcoupon.
  destruct Hcoupon as [l1 [c [l2 [_ [_ [Hid Husage]]]]]].
  inversion Hid; subst couponId. exact Husage.
Qed.

(** WELCOME20 would take 19.998 off the 99.99 course; the usage row that
    [enrollCourse] writes says 0. *)
Lemma enrollCourse_usage_records_zero_discount_witness :
  couponUsages
    (fst (studentRouter.enrollCourse Sample.env "cuser000001"
            (studentRouter.EnrollCourse.mkInput "ccourse0001" (Some "WELCOME20"))
            Sample.db))
  = [CouponUsage.mk "cuser000001" "ccoupon0001" "ccourse0001" 0]
  /\ ~ discountAmount_of Sample.WELCOME20 (Course.price Sample.football) == 0.
Proof.
  split.
  - destruct (studentRouter.enrollCourse Sample.env "cuser000001"
                (studentRouter.EnrollCourse.mkInput "ccourse0001" (Some "WELCOME20"))
                Sample.db) as [d' [ex | e]] eqn:Hrun;
      [vm_compute in Hrun; discriminate |].
    simpl.
    apply (enrollCourse_usage_records_zero_discount Sample.env "cuser000001"
             (studentRouter.EnrollCourse.mkInput "ccourse0001" (Some "WELCOME20"))
             Sample.db d' e "ccoupon0001" Hrun).
    + vm_compute in Hrun. inversion Hrun. reflexivity.
    + reflexivity.
  - vm_compute. discriminate.
Defined.

(** ** C6: usage caps *)

Lemma global_cap_reached_true (c : Coupon.t) :
  global_cap_reached c -> maxUses_reached c = true.
Proof.
  intros [m [Hm [H1 Hle]]]. unfold maxUses_reached, truthy_int. rewrite Hm.
  apply andb_true_intro. split.
  - apply negb_true_iff. apply Z.eqb_neq. lia.
  - apply Z.leb_le. exact Hle.
Qed.

Lemma user_cap_reached_true (c : Coupon.t) (userId : Id) (d : Db) :
  user_cap_reached c userId d ->
  maxUsesPerUser_reached c (coupon_couponUsage c userId d) = true.
Proof.
  intros [m [Hm [H1 Hle]]]. unfold maxUsesPerUser_reached, truthy_int.
  rewrite Hm. apply andb_true_intro. split.
  - apply negb_true_iff. apply Z.eqb_neq. lia.
  - apply Z.leb_le. exact Hle.
Qed.

(** The claim as stated fails for [enrollCourse]: the user is already enrolled
    in the course and presents the exhausted coupon FULL; the call fails with
    CONFLICT, not BAD_REQUEST. *)
Lemma enrollCourse_cap_conflict_not_bad_request :
  ~ (forall (env : Env) (userId : Id)
            (input : studentRouter.EnrollCourse.input) (d : Db)
            (code : string) (c : Coupon.t),
       studentRouter.EnrollCourse.couponCode input = Some code ->
       coupon_findUnique_code code d = Some c ->
       global_cap_reached c \/ user_cap_reached c userId d ->
       exists msg,
         snd (studentRouter.enrollCourse env userId input d)
         = inl (TRPCError BAD_REQUEST msg)).
Proof.
  intros H.
  destruct (H Sample.env "cuser000001"
              (studentRouter.EnrollCourse.mkInput "ccourse0001" (Some "FULL"))
              Sample.db_enrolled "FULL" Sample.FULL eq_refl eq_refl)
    as [msg Hmsg].
  - left. exists 1%Z. repeat split; simpl; lia.
  - vm_compute in Hmsg. discriminate.
Qed.

(** C6 (amended). For a coupon whose global cap (of at least 1) is reached
    or whose per-user cap (of at least 1) the caller has reached:
    [applyCoupon] on its code throws BAD_REQUEST; [enrollCourse] on its code
    throws, with CONFLICT when the caller is already enrolled, NOT_FOUND when
    the course does not exist, and BAD_REQUEST otherwise; in both cases the
    database is as before, so the coupon is not applied. *)
Theorem capped_coupon_is_refused
    (env : Env) (userId : Id) (d : Db) (c : Coupon.t) :
  global_cap_reached c \/ user_cap_reached c userId d ->
  (forall input,
     coupon_findUnique_code
       (toUpperCase (couponsRouter.ApplyCoupon.code input)) d = Some c ->
     exists msg,
       couponsRouter.applyCoupon env userId input d
       = (d, inl (TRPCError BAD_REQUEST msg)))
  /\ (forall input code,
        studentRouter.EnrollCourse.couponCode input = Some code ->
        code <> "" ->
        coupon_findUnique_code code d = Some c ->
        exists k msg,
          studentRouter.enrollCourse env userId input d
          = (d, inl (TRPCError k msg))
          /\ (k = CONFLICT
              /\ enrollment_findUnique userId
                   (studentRouter.EnrollCourse.courseId input) d <> None
              \/ k = NOT_FOUND
                 /\ enrollment_findUnique userId
                      (studentRouter.EnrollCourse.courseId input) d = None
                 /\ course_findUnique
                      (studentRouter.EnrollCourse.courseId input) d = None
              \/ k = BAD_REQUEST
                 /\ enrollment_findUnique userId
                      (studentRouter.EnrollCourse.courseId input) d = None
                 /\ course_findUnique
                      (studentRouter.EnrollCourse.courseId input) d <> None)).
Proof.
  intros Hcap.
  assert (Hreached :
            maxUses_reached c = true
            \/ maxUsesPerUser_reached c (coupon_couponUsage c userId d) = true).
  { destruct Hcap as [Hg | Hu].
    - left. apply global_cap_reached_true. exact Hg.
    - right. apply user_cap_reached_true. exact Hu. }
  clear Hcap. split.
  - intros input Hfind.
    unfold couponsRouter.applyCoupon. unfold_proc.
    destruct (couponsRouter.applyCouponSchema input); [| eexists; reflexivity].
    rewrite Hfind.
    destruct (Coupon.isActive c); simpl; [| eexists; reflexivity].
    destruct (after (Coupon.validFrom c) (now env)); simpl;
      [eexists; reflexivity |].
    destruct (before (Coupon.validUntil c) (now env)); simpl;
      [eexists; reflexivity |].
    destruct (maxUses_reached c) eqn:Hg; simpl; [eexists; reflexivity |].
    destruct Hreached as [Habs | Hu]; [discriminate |].
    rewrite Hu. simpl. eexists; reflexivity.
  - intros input code Hcode Hne Hfind.
    assert (Htruthy :
              truthy_str (studentRouter.EnrollCourse.couponCode input) = true).
    { rewrite Hcode. simpl. apply negb_true_iff. apply String.eqb_neq.
      exact Hne. }
    unfold studentRouter.enrollCourse. unfold_proc.
    destruct (enrollment_findUnique userId
                (studentRouter.EnrollCourse.courseId input) d) as [e0 |];
      simpl.
    { exists CONFLICT. eexists. split; [reflexivity |].
      left. split; [reflexivity | discriminate]. }
    destruct (course_findUnique (studentRouter.EnrollCourse.courseId input) d)
      as [course |]; simpl.
    2: { exists NOT_FOUND. eexists. split; [reflexivity |].
         right. left. repeat split; reflexivity. }
    exists BAD_REQUEST.
    assert (Hthird :
              BAD_REQUEST = CONFLICT /\ @None Enrollment.t <> None
              \/ BAD_REQUEST = NOT_FOUND /\ @None Enrollment.t = None
                 /\ Some course = None
              \/ BAD_REQUEST = BAD_REQUEST /\ @None Enrollment.t = None
                 /\ Some course <> None).
    { right. right. repeat split; try reflexivity. discriminate. }
    destruct (Course.published course); simpl;
      [| eexists; split; [reflexivity | exact Hthird]].
    rewrite Htruthy, Hcode. simpl. rewrite Hfind.
    destruct (Coupon.isActive c); simpl;
      [| eexists; split; [reflexivity | exact Hthird]].
    destruct (after (Coupon.validFrom c) (now env)); simpl;
      [eexists; split; [reflexivity | exact Hthird] |].
    destruct (before (Coupon.validUntil c) (now env)); simpl;
      [eexists; split; [reflexivity | exact Hthird] |].
    destruct (maxUses_reached c) eqn:Hg; simpl;
      [eexists; split; [reflexivity | exact Hthird] |].
    destruct Hreached as [Habs | Hu]; [discriminate |].
    rewrite Hu. simpl. eexists; split; [reflexivity | exact Hthird].
Qed.

(** FULL (one use allowed, one made) is refused by [applyCoupon] and by
    [enrollCourse] with BAD_REQUEST for a user who is not yet enrolled. *)
Lemma capped_coupon_is_refused_witness :
  (exists msg,
     couponsRouter.applyCoupon Sample.env "cuser000001"
       (couponsRouter.ApplyCoupon.mkInput "full" "ccourse0001") Sample.db
     = (Sample.db, inl (TRPCError BAD_REQUEST msg)))
  /\ (exists k msg,
        studentRouter.enrollCourse Sample.env "cuser000001"
          (studentRouter.EnrollCourse.mkInput "ccourse0001" (Some "FULL")) Sample.db
        = (Sample.db, inl (TRPCError k msg))
        /\ k = BAD_REQUEST).
Proof.
  assert (Hcap : global_cap_reached Sample.FULL
                 \/ user_cap_reached Sample.FULL "cuser000001" Sample.db).
  { left. exists 1%Z. repeat split; simpl; lia. }
  destruct (capped_coupon_is_refused Sample.env "cuser000001" Sample.db Sample.FULL
              Hcap) as [Happly Henroll].
  split.
  - apply (Happly (couponsRouter.ApplyCoupon.mkInput "full" "ccourse0001")).
    reflexivity.
  - destruct (Henroll (studentRouter.EnrollCourse.mkInput "ccourse0001" (Some "FULL"))
                "FULL" eq_refl) as [k [msg [Hrun Hk]]].
    + discriminate.
    + reflexivity.
    + exists k, msg. split; [exact Hrun |].
      destruct Hk as [[_ Habs] | [[_ [_ Habs]] | [Hk _]]].
      * elim Habs. reflexivity.
      * vm_compute in Habs. discriminate.
      * exact Hk.
Defined.

(** A coupon that [enrollCourse] accepts stays within its caps once the
    enrollment is counted. *)
Lemma enrollCourse_accepts_below_cap
    (env : Env) (userId : Id) (input : studentRouter.EnrollCourse.input)
    (d d' : Db) (e : Enrollment.t) (code : string) (c : Coupon.t) :
  studentRouter.enrollCourse env userId input d = (d', inr e) ->
  studentRouter.EnrollCourse.couponCode input = Some code ->
  code <> "" ->
  coupon_findUnique_code code d = Some c ->
  (forall m, Coupon.maxUses c = Some m -> (1 <= m)%Z ->
             (Coupon.usedCount c + 1 <= m)%Z)
  /\ (forall m, Coupon.maxUsesPerUser c = Some m -> (1 <= m)%Z ->
                (Z.of_nat (List.length (coupon_couponUsage c userId d)) + 1
                 <= m)%Z).
Proof.
  intros Hrun Hcode Hne Hfind.
  destruct (enrollCourse_success _ _ _ _ _ _ Hrun)
    as [course [applied [_ [_ [_ [Hacc _]]]]]].
  destruct Hacc as [[Hfalsy _] | [code' [c' [Hcode' [Hfind' Hchecks]]]]].
  - rewrite Hcode in Hfalsy. simpl in Hfalsy.
    apply negb_false_iff, String.eqb_eq in Hfalsy. contradiction.
  - rewrite Hcode in Hcode'. inversion Hcode'; subst code'.
    rewrite Hfind in Hfind'. inversion Hfind'; subst c'.
    destruct Hchecks as [_ [_ [_ [Hg [Hu _]]]]].
    split; intros m Hm H1.
    + unfold maxUses_reached, truthy_int in Hg. rewrite Hm in Hg.
      destruct (Z.eqb_spec m 0); [lia |]. simpl in Hg.
      apply Z.leb_gt in Hg. lia.
    + unfold maxUsesPerUser_reached, truthy_int in Hu. rewrite Hm in Hu.
      destruct (Z.eqb_spec m 0); [lia |]. simpl in Hu.
      apply Z.leb_gt in Hu. lia.
Qed.

(** ** C5: the completion rate after a progress write *)

Lemma update_first_find_same {A} (p : A -> bool) (f : A -> A) (l l' : list A) :
  update_first p f l = Some l' ->
  (forall x, p (f x) = p x) ->
  exists x, find p l = Some x /\ find p l' = Some (f x).
Proof.
  revert l'. induction l as [| y l IH]; intros l' H Hp; simpl in H.
  - discriminate.
  - simpl. destruct (p y) eqn:Hy.
    + inversion H; subst l'. exists y. simpl. rewrite Hp, Hy. auto.
    + destruct (update_first p f l) as [r |]; [| discriminate].
      inversion H; subst l'.
      destruct (IH r eq_refl Hp) as [x [H1 H2]].
      exists x. simpl. rewrite Hy. auto.
Qed.

Lemma update_first_find_other {A} (p q : A -> bool) (g : A -> A)
    (l l' : list A) (x : A) :
  update_first q g l = Some l' ->
  (forall y, p (g y) = p y) ->
  find p l = Some x ->
  find p l' = Some x \/ find p l' = Some (g x).
Proof.
  revert l'. induction l as [| y l IH]; intros l' H Hp Hfind; simpl in *.
  - discriminate.
  - destruct (q y) eqn:Hq.
    + inversion H; subst l'. simpl. rewrite Hp.
      destruct (p y).
      * right. inversion Hfind. reflexivity.
      * left. exact Hfind.
    + destruct (update_first q g l) as [r |]; [| discriminate].
      inversion H; subst l'. simpl.
      destruct (p y).
      * left. exact Hfind.
      * apply (IH r eq_refl Hp Hfind).
Qed.

Lemma studentProgress_update_ok (env : Env) (p : StudentProgress.t -> bool)
    (f : StudentProgress.t -> StudentProgress.t) (d d' : Db) (u : unit) :
  studentProgress_update env p f d = (d', inr u) ->
  exists l,
    update_first p f (studentProgresses d) = Some l
    /\ d' = set_studentProgresses l d.
Proof.
  unfold studentProgress_update. intros H. repeat inv_step.
  destruct (update_first p f (studentProgresses d)) as [l |]; inversion H.
  exists l. auto.
Qed.

Lemma enrollment_update_ok (env : Env) (p : Enrollment.t -> bool)
    (f : Enrollment.t -> Enrollment.t) (d d' : Db) (u : unit) :
  enrollment_update env p f d = (d', inr u) ->
  exists l,
    update_first p f (enrollments d) = Some l /\ d' = set_enrollments l d.
Proof.
  unfold enrollment_update. intros H. repeat inv_step.
  destruct (update_first p f (enrollments d)) as [l |]; inversion H.
  exists l. auto.
Qed.

Lemma lessonProgress_upsert_ok (env : Env) (userId lessonId : Id)
    (update : LessonProgress.t -> LessonProgress.t) (create : LessonProgress.t)
    (d d' : Db) (r : LessonProgress.t) :
  lessonProgress_upsert env userId lessonId update create d = (d', inr r) ->
  exists t, d' = set_lessonProgresses t d.
Proof.
  unfold lessonProgress_upsert. intros H. repeat inv_step.
  destruct (find _ (lessonProgresses d));
    [destruct (update_first _ update (lessonProgresses d)) |];
    inversion H; eexists; reflexivity.
Qed.

(** The counts read by [updateCourseProgress] depend on the lesson and
    lesson-progress tables only. *)
Lemma counts_frame (userId courseId : Id) (d1 d2 : Db) :
  lessons d1 = lessons d2 ->
  lessonProgresses d1 = lessonProgresses d2 ->
  count_lessons courseId d1 = count_lessons courseId d2
  /\ count_completed userId courseId d1 = count_completed userId courseId d2.
Proof.
  intros Hl Hp.
  unfold count_lessons, count_completed, lesson_in_course, lesson_findUnique.
  rewrite Hl, Hp. split; reflexivity.
Qed.

Lemma completionRate_of_rate_in (userId courseId : Id) (d : Db) :
  rate_in userId courseId d
    (completionRate_of (count_completed userId courseId d)
                       (count_lessons courseId d)).
Proof.
  unfold rate_in, completionRate_of. split.
  - intros Hpos. apply Z.ltb_lt in Hpos. rewrite Hpos. reflexivity.
  - intros Hz. rewrite Hz. reflexivity.
Qed.

(** What a successful [updateCourseProgress] stores. *)
Lemma updateCourseProgress_ok (env : Env) (userId courseId : Id) (d d' : Db)
    (u : unit) :
  updateCourseProgress env userId courseId d = (d', inr u) ->
  lessons d' = lessons d
  /\ lessonProgresses d' = lessonProgresses d
  /\ exists sp,
       studentProgress_findUnique userId courseId d' = Some sp
       /\ StudentProgress.completionRate sp
          = completionRate_of (count_completed userId courseId d)
                              (count_lessons courseId d).
Proof.
  unfold updateCourseProgress. intros H. repeat inv_step.
  apply studentProgress_update_ok in Hm2. destruct Hm2 as [l [Hl Hd]].
  apply enrollment_update_ok in H. destruct H as [le [Hle Hd']].
  subst. simpl. repeat split.
  unfold studentProgress_findUnique. simpl.
  destruct (update_first_find_same _ _ _ _ Hl) as [x [_ Hx]].
  - intros x. reflexivity.
  - eexists. split; [exact Hx | reflexivity].
Qed.

Lemma rate_in_frame (userId courseId : Id) (d1 d2 : Db) (rate : Q) :
  lessons d1 = lessons d2 ->
  lessonProgresses d1 = lessonProgresses d2 ->
  rate_in userId courseId d1 rate -> rate_in userId courseId d2 rate.
Proof.
  intros Hl Hp. unfold rate_in.
  destruct (counts_frame userId courseId d1 d2 Hl Hp) as [Hc1 Hc2].
  rewrite Hc1, Hc2. auto.
Qed.

Lemma rate_after_updateCourseProgress (env : Env) (userId courseId : Id)
    (d1 d2 : Db) (u : unit) :
  updateCourseProgress env userId courseId d1 = (d2, inr u) ->
  exists sp,
    studentProgress_findUnique userId courseId d2 = Some sp
    /\ rate_in userId courseId d2 (StudentProgress.completionRate sp).
Proof.
  intros H. apply updateCourseProgress_ok in H.
  destruct H as [Hl [Hp [sp [Hfind Hrate]]]].
  exists sp. split; [exact Hfind |].
  rewrite Hrate.
  apply (rate_in_frame userId courseId d1 d2); [now symmetry | now symmetry |].
  apply completionRate_of_rate_in.
Qed.

Lemma rate_after_touch (env : Env) (userId courseId : Id)
    (q : StudentProgress.t -> bool) (t : Date) (d2 d3 : Db) (u : unit) :
  studentProgress_update env q (set_lastAccessedAt t) d2 = (d3, inr u) ->
  (exists sp,
     studentProgress_findUnique userId courseId d2 = Some sp
     /\ rate_in userId courseId d2 (StudentProgress.completionRate sp)) ->
  exists sp,
    studentProgress_findUnique userId courseId d3 = Some sp
    /\ rate_in userId courseId d3 (StudentProgress.completionRate sp).
Proof.
  intros H [sp [Hfind Hrate]].
  apply studentProgress_update_ok in H. destruct H as [l [Hl Hd]].
  assert (Hframe : rate_in userId courseId d3
                     (StudentProgress.completionRate sp)).
  { apply (rate_in_frame userId courseId d2 d3); subst d3; auto. }
  unfold studentProgress_findUnique in *.
  destruct (update_first_find_other (by_user_course_sp userId courseId) q
              (set_lastAccessedAt t) _ _ sp Hl) as [Hsame | Htouched].
  - intros y. reflexivity.
  - exact Hfind.
  - exists sp. subst d3. simpl. auto.
  - exists (set_lastAccessedAt t sp). subst d3. simpl. auto.
Qed.

(** ** C2: a percentage above 100 *)

(** Within the bounds that [createCouponSchema] enforces, the claim holds:
    a percentage coupon of at most 100 never discounts more than the price,
    and the final price is never negative. *)
Lemma calculateDiscount_bounded (env : Env) (d d' : Db)
    (input : couponsRouter.CalculateDiscount.input)
    (r : couponsRouter.CalculateDiscount.output) :
  couponsRouter.calculateDiscount env input d = (d', inr r) ->
  exists c,
    coupon_findUnique_code
      (toUpperCase (couponsRouter.CalculateDiscount.couponCode input)) d
    = Some c
    /\ (Coupon.discountType c = PERCENTAGE ->
        Coupon.discountValue c <= 100 ->
        couponsRouter.CalculateDiscount.discountAmount r
        <= couponsRouter.CalculateDiscount.originalPrice input)
    /\ 0 <= couponsRouter.CalculateDiscount.finalPrice r.
Proof.
  unfold couponsRouter.calculateDiscount. intros H. repeat inv_step.
  match goal with
  | Hc : coupon_findUnique_code _ _ = Some ?c |- _ => exists c
  end.
  split; [reflexivity |]. simpl. split.
  - intros Ht Hv. apply percentage_bounded; try assumption.
    apply Qle_bool_iff. assumption.
  - apply finalPrice_nonneg.
Qed.

(** C2 (failing input). After [updateCoupon] has accepted the value 150 for
    the PERCENTAGE coupon WELCOME20, [calculateDiscount] on an
    [originalPrice] of 100 returns a [discountAmount] of 150, more than the
    price; [createCouponSchema]'s bound of 100 is not enforced on this
    path. *)
Theorem percentage_above_100_after_update :
  (exists c,
     adminCouponsRouter.updateCoupon Sample.env "cadmin00001" raise_to_150 Sample.db
     = (db_after_raise, inr c)
     /\ Coupon.discountType c = PERCENTAGE
     /\ Coupon.discountValue c == 150)
  /\ exists r,
       couponsRouter.calculateDiscount Sample.env
         (couponsRouter.CalculateDiscount.mkInput "WELCOME20" "ccourse0001" 100)
         db_after_raise = (db_after_raise, inr r)
       /\ couponsRouter.CalculateDiscount.discountAmount r == 150
       /\ ~ couponsRouter.CalculateDiscount.discountAmount r
            <= couponsRouter.CalculateDiscount.originalPrice
                 (couponsRouter.CalculateDiscount.mkInput "WELCOME20" "ccourse0001" 100)
       /\ couponsRouter.CalculateDiscount.finalPrice r == 0.
Proof.
  split.
  - eexists. split; [vm_compute; reflexivity |]. split; reflexivity.
  - eexists. split; [vm_compute; reflexivity |]. split; [reflexivity |]. split.
    + vm_compute. intros H. apply H. reflexivity.
    + reflexivity.
Qed.

(** The same request with the type spelled out is refused by the schema. *)
Example updateCoupon_refuses_explicit_percentage :
  adminCouponsRouter.updateCoupon Sample.env "cadmin00001"
    (adminCouponsRouter.UpdateCoupon.mkInput "ccoupon0001" None None (Some PERCENTAGE)
       (Some 150) None None None None None None None) Sample.db
  = (Sample.db, inl (TRPCError BAD_REQUEST "Input validation failed")).
Proof. reflexivity. Qed.

(** ** C3: publishing through updateCourse *)

(** [publishCourse] refuses a course one of whose lessons lacks a video. *)
Lemma publishCourse_requires_videos (env : Env) (adminId : Id) (d : Db)
    (input : uploadRouter.PublishCourse.input) (course : Course.t)
    (lesson : Lesson.t) :
  uploadRouter.PublishCourse.published input = true ->
  course_findUnique (uploadRouter.PublishCourse.courseId input) d = Some course ->
  In lesson (lessons d) ->
  Lesson.courseId lesson = uploadRouter.PublishCourse.courseId input ->
  truthy_str (Lesson.videoUrl lesson) = false ->
  exists msg,
    uploadRouter.publishCourse env adminId input d
    = (d, inl (TRPCError BAD_REQUEST msg)).
Proof.
  intros Hpub Hcourse Hin Hcid Hvid.
  assert (Hmissing :
            (0 <? List.length
                    (uploadRouter.lessonsWithoutVideos
                       (lessons_of (uploadRouter.PublishCourse.courseId input) d)))%nat
            = true).
  { unfold uploadRouter.lessonsWithoutVideos.
    apply (filter_In_nonempty _ _ lesson).
    - unfold lessons_of. apply filter_In. split; [exact Hin |].
      rewrite Hcid. apply id_eqb_refl.
    - rewrite Hvid. reflexivity. }
  assert (Herrs :
            (0 <? List.length
                    (uploadRouter.validationErrors course
                       (lessons_of (uploadRouter.PublishCourse.courseId input) d)))%nat
            = true).
  { unfold uploadRouter.validationErrors. rewrite Hmissing.
    rewrite !length_app. simpl. apply Nat.ltb_lt. lia. }
  unfold uploadRouter.publishCourse. unfold_proc.
  rewrite Hcourse, Hpub, Herrs. eexists. reflexivity.
Qed.

(** C3 (failing input). [updateCourse] with [published: true] on a course
    that has a lesson without a video returns the course, now published;
    [publishCourse] refuses the same course with BAD_REQUEST. *)
Theorem updateCourse_publishes_without_videos :
  In Sample.drills (lessons_of "ccourse0001" db_draft)
  /\ Lesson.videoUrl Sample.drills = None
  /\ (exists d' course,
        adminCoursesRouter.updateCourse Sample.env "cadmin00001" publish_by_update
          db_draft = (d', inr course)
        /\ Course.published course = true
        /\ option_map Course.published (course_findUnique "ccourse0001" db_draft)
           = Some false
        /\ option_map Course.published (course_findUnique "ccourse0001" d')
           = Some true)
  /\ exists msg,
       uploadRouter.publishCourse Sample.env "cadmin00001"
         (uploadRouter.PublishCourse.mkInput "ccourse0001" true) db_draft
       = (db_draft, inl (TRPCError BAD_REQUEST msg)).
Proof.
  split; [simpl; auto |]. split; [reflexivity |]. split.
  - do 2 eexists. split; [vm_compute; reflexivity |]. repeat split.
  - eexists. vm_compute. reflexivity.
Qed.

(** No lesson is ever consulted: whenever the course exists and the slug is
    not taken, [updateCourse] publishes. *)
Lemma updateCourse_ignores_lessons (env : Env) (adminId : Id) (d : Db)
    (i : Id) (course : Course.t) :
  rejects env CourseUpdate = false ->
  rejects env AuditLogCreate = false ->
  course_findUnique i d = Some course ->
  exists d' course',
    adminCoursesRouter.updateCourse env adminId
      (adminCoursesRouter.UpdateCourse.mkInput i None None None None None None
         None None (Some true) None None None) d = (d', inr course')
    /\ Course.published course' = true
    /\ lessons d' = lessons d.
Proof.
  intros Hr1 Hr2 Hfind.
  unfold adminCoursesRouter.updateCourse, course_update, auditLog_create.
  unfold_proc. simpl. rewrite Hfind, Hr1. simpl.
  unfold course_findUnique in Hfind. rewrite Hfind.
  destruct (update_first (by_id_course i)
              (adminCoursesRouter.apply_update _) (courses d)) as [l |] eqn:Hup.
  - rewrite Hr2. simpl. do 2 eexists. split; [reflexivity |].
    split; reflexivity.
  - exfalso. clear - Hfind Hup.
    induction (courses d) as [| y l IH]; simpl in *; [discriminate |].
    destruct (by_id_course i y); [discriminate |].
    destruct (update_first (by_id_course i) _ l); [discriminate |].
    apply IH; auto.
Qed.

(** ** C4: one enrollment per user and course *)

Lemma find_none_not_in (userId courseId : Id) (l : list Enrollment.t) :
  find (by_user_course userId courseId) l = None ->
  ~ In (userId, courseId) (map enrollment_key l).
Proof.
  intros Hfind Hin. apply in_map_iff in Hin. destruct Hin as [e [Hk He]].
  apply (find_none _ _ Hfind) in He.
  unfold enrollment_key in Hk. inversion Hk; subst.
  unfold by_user_course in He. rewrite !id_eqb_refl in He. discriminate.
Qed.

Lemma NoDup_snoc {A} (l : list A) (x : A) :
  NoDup l -> ~ In x l -> NoDup (l ++ [x]).
Proof.
  intros Hl Hx. induction Hl as [| y l Hy Hl IH]; simpl.
  - constructor; [intros [] | constructor].
  - constructor.
    + intros Hin. apply in_app_or in Hin. destruct Hin as [Hin | [Heq | []]].
      * contradiction.
      * subst. apply Hx. left. reflexivity.
    + apply IH. intros Hin. apply Hx. right. exact Hin.
Qed.

Lemma enrollCourse_keeps_unique
    (env : Env) (userId : Id) (input : studentRouter.EnrollCourse.input)
    (d : Db) :
  enrollments_unique d ->
  enrollments_unique (fst (studentRouter.enrollCourse env userId input d)).
Proof.
  intros Huniq.
  destruct (studentRouter.enrollCourse env userId input d) as [d' [ex | e]]
    eqn:Hrun; simpl.
  - rewrite (enrollCourse_atomic env userId input d d' ex Hrun). exact Huniq.
  - destruct (enrollCourse_success _ _ _ _ _ _ Hrun)
      as [course [applied [Hnone [_ [_ [_ Henr]]]]]].
    destruct Henr as [He [Hens _]].
    unfold enrollments_unique. rewrite Hens, map_app. simpl.
    apply NoDup_snoc; [exact Huniq |].
    rewrite He. unfold enrollment_key. simpl.
    apply find_none_not_in. exact Hnone.
Qed.

Example enrollCourse_sample :
  studentRouter.enrollCourse Sample.env "cuser000001"
    (studentRouter.EnrollCourse.mkInput "ccourse0001" None) Sample.db
  = (Sample.db_enrolled, inr Sample.enrollment1).
Proof. reflexivity. Qed.

(** The procedures that track progress keep the keys of the enrollments;
    the generic part is stated for any reflexive and transitive relation
    between databases. *)

Section Preserves.

Variable R : Db -> Db -> Prop.
Hypothesis R_refl : forall d, R d d.
Hypothesis R_trans : forall a b c, R a b -> R b c -> R a c.

Lemma preserves_readonly {A} (m : M A) : readonly m -> preserves R m.
Proof. intros Hm d. rewrite Hm. apply R_refl. Qed.

Lemma preserves_bind {A B} (m : M A) (k : A -> M B) :
  preserves R m -> (forall a, preserves R (k a)) -> preserves R (bind m k).
Proof.
  intros Hm Hk d. unfold bind. specialize (Hm d).
  destruct (m d) as [d1 [e | a]]; simpl in *.
  - exact Hm.
  - apply (R_trans _ _ _ Hm). apply Hk.
Qed.

Lemma preserves_rethrow {A} (msg : string) (m : M A) :
  preserves R m -> preserves R (rethrow msg m).
Proof.
  intros Hm d. unfold rethrow. specialize (Hm d).
  destruct (m d) as [d1 [[c s | s] | a]]; simpl in *; exact Hm.
Qed.

Lemma preserves_with_input {I A} (schema : I -> bool) (h : I -> M A) (i : I) :
  (forall i, preserves R (h i)) -> preserves R (with_input schema h i).
Proof.
  intros Hh. unfold with_input. destruct (schema i).
  - apply Hh.
  - apply preserves_readonly, readonly_throw.
Qed.

Lemma preserves_if {A} (b : bool) (m1 m2 : M A) :
  preserves R m1 -> preserves R m2 -> preserves R (if b then m1 else m2).
Proof. destruct b; auto. Qed.

End Preserves.

Ltac preserves_step :=
  first
    [ progress cbv beta zeta
    | apply preserves_with_input; [assumption | intro]
    | apply preserves_rethrow
    | apply preserves_bind; [assumption | | intro]
    | apply preserves_if
    | match goal with
      | |- preserves _ (match ?x with _ => _ end) => destruct x
      end
    | solve [ apply preserves_readonly;
              [assumption | auto with readonly] ] ].

Lemma same_enrollment_keys_refl (d : Db) : same_enrollment_keys d d.
Proof. reflexivity. Qed.

Lemma same_enrollment_keys_trans (a b c : Db) :
  same_enrollment_keys a b -> same_enrollment_keys b c ->
  same_enrollment_keys a c.
Proof. unfold same_enrollment_keys. intros H1 H2. rewrite H2. exact H1. Qed.

Lemma update_first_keys {A K} (key : A -> K) (p : A -> bool) (f : A -> A)
    (l l' : list A) :
  (forall x, key (f x) = key x) ->
  update_first p f l = Some l' -> map key l' = map key l.
Proof.
  intros Hk. revert l'. induction l as [| y l IH]; intros l' H; simpl in H.
  - discriminate.
  - destruct (p y).
    + inversion H. simpl. rewrite Hk. reflexivity.
    + destruct (update_first p f l) as [r |]; [| discriminate].
      inversion H. simpl. rewrite (IH r eq_refl). reflexivity.
Qed.

Lemma preserves_keys_statement (env : Env) (s : Stmt) :
  preserves same_enrollment_keys (statement env s).
Proof.
  apply preserves_readonly; [apply same_enrollment_keys_refl |].
  unfold statement. apply readonly_throw_if.
Qed.

Lemma preserves_keys_lessonProgress_upsert (env : Env) (userId lessonId : Id)
    (update : LessonProgress.t -> LessonProgress.t) (create : LessonProgress.t) :
  preserves same_enrollment_keys
    (lessonProgress_upsert env userId lessonId update create).
Proof.
  unfold lessonProgress_upsert.
  apply preserves_bind;
    [apply same_enrollment_keys_trans | apply preserves_keys_statement |].
  intros _ d.
  destruct (find _ (lessonProgresses d));
    [destruct (update_first _ update (lessonProgresses d)) |]; reflexivity.
Qed.

Lemma preserves_keys_studentProgress_update (env : Env)
    (p : StudentProgress.t -> bool) (f : StudentProgress.t -> StudentProgress.t) :
  preserves same_enrollment_keys (studentProgress_update env p f).
Proof.
  unfold studentProgress_update.
  apply preserves_bind;
    [apply same_enrollment_keys_trans | apply preserves_keys_statement |].
  intros _ d.
  destruct (update_first p f (studentProgresses d)); reflexivity.
Qed.

Lemma preserves_keys_enrollment_update (env : Env) (p : Enrollment.t -> bool)
    (rate : Q) :
  preserves same_enrollment_keys
    (enrollment_update env p (set_progress env rate)).
Proof.
  unfold enrollment_update.
  apply preserves_bind;
    [apply same_enrollment_keys_trans | apply preserves_keys_statement |].
  intros _ d.
  destruct (update_first p (set_progress env rate) (enrollments d)) as [l |]
    eqn:Hup; [| reflexivity].
  unfold same_enrollment_keys. simpl.
  apply (update_first_keys enrollment_key p (set_progress env rate)).
  - intros x. reflexivity.
  - exact Hup.
Qed.

Lemma preserves_keys_updateCourseProgress (env : Env) (userId courseId : Id) :
  preserves same_enrollment_keys (updateCourseProgress env userId courseId).
Proof.
  pose proof same_enrollment_keys_refl as Hrefl.
  pose proof same_enrollment_keys_trans as Htrans.
  unfold updateCourseProgress.
  repeat first
    [ apply preserves_keys_studentProgress_update
    | apply preserves_keys_enrollment_update
    | preserves_step ].
Qed.

Lemma preserves_keys_updateLessonProgress (env : Env) (userId : Id)
    (input : studentRouter.UpdateLessonProgress.input) :
  preserves same_enrollment_keys
    (studentRouter.updateLessonProgress env userId input).
Proof.
  pose proof same_enrollment_keys_refl as Hrefl.
  pose proof same_enrollment_keys_trans as Htrans.
  unfold studentRouter.updateLessonProgress.
  repeat first
    [ apply preserves_keys_studentProgress_update
    | apply preserves_keys_lessonProgress_upsert
    | apply preserves_keys_updateCourseProgress
    | preserves_step ].
Qed.

Lemma preserves_keys_markLessonComplete (env : Env) (userId : Id)
    (input : studentRouter.MarkLessonComplete.input) :
  preserves same_enrollment_keys
    (studentRouter.markLessonComplete env userId input).
Proof.
  pose proof same_enrollment_keys_refl as Hrefl.
  pose proof same_enrollment_keys_trans as Htrans.
  unfold studentRouter.markLessonComplete.
  repeat first
    [ apply preserves_keys_lessonProgress_upsert
    | apply preserves_keys_updateCourseProgress
    | preserves_step ].
Qed.

Lemma after_call_keeps_unique (d : Db) (c : student_call) :
  enrollments_unique d -> enrollments_unique (after_call d c).
Proof.
  intros Huniq. destruct c as [env userId input | env userId input
                              | env userId input]; simpl.
  - apply enrollCourse_keeps_unique. exact Huniq.
  - unfold enrollments_unique.
    rewrite (preserves_keys_updateLessonProgress env userId input d).
    exact Huniq.
  - unfold enrollments_unique.
    rewrite (preserves_keys_markLessonComplete env userId input d).
    exact Huniq.
Qed.

(** C4. If an enrollment of the user in the course exists, [enrollCourse]
    throws CONFLICT and the database is as before (no enrollment is added);
    a call never breaks the uniqueness of (user, course) among the
    enrollments, whether it returns or throws; and so after any sequence of
    calls of the student router's writing procedures there is still at most
    one enrollment per (user, course). *)
Theorem enrollCourse_rejects_second_enrollment
    (env : Env) (userId : Id) (input : studentRouter.EnrollCourse.input)
    (d : Db) :
  (forall e0,
     enrollment_findUnique userId (studentRouter.EnrollCourse.courseId input) d
     = Some e0 ->
     studentRouter.enrollCourse env userId input d
     = (d, inl (TRPCError CONFLICT "You are already enrolled in this course")))
  /\ (enrollments_unique d ->
      enrollments_unique (fst (studentRouter.enrollCourse env userId input d)))
  /\ (forall calls : list student_call,
        enrollments_unique d ->
        enrollments_unique (fold_left after_call calls d)).
Proof.
  split; [| split].
  - intros e0 Hfind. unfold studentRouter.enrollCourse. unfold_proc.
    rewrite Hfind. reflexivity.
  - apply enrollCourse_keeps_unique.
  - intros calls. revert d.
    induction calls as [| c calls IH]; intros d Huniq; simpl.
    + exact Huniq.
    + apply IH. apply after_call_keeps_unique. exact Huniq.
Qed.

(** A second call for the same pair is refused; the first call, and a run
    of three calls with the enrollment repeated, leave the enrollments
    unique. *)
Lemma enrollCourse_rejects_second_enrollment_witness :
  studentRouter.enrollCourse Sample.env "cuser000001"
    (studentRouter.EnrollCourse.mkInput "ccourse0001" None) Sample.db_enrolled
  = (Sample.db_enrolled,
     inl (TRPCError CONFLICT "You are already enrolled in this course"))
  /\ enrollments_unique
       (fst (studentRouter.enrollCourse Sample.env "cuser000001"
               (studentRouter.EnrollCourse.mkInput "ccourse0001" None) Sample.db))
  /\ enrollments_unique
       (fold_left after_call
          [EnrollCourse Sample.env "cuser000001"
             (studentRouter.EnrollCourse.mkInput "ccourse0001" None);
           MarkLessonComplete Sample.env "cuser000001"
             (studentRouter.MarkLessonComplete.mkInput "clesson0001" 120);
           EnrollCourse Sample.env "cuser000001"
             (studentRouter.EnrollCourse.mkInput "ccourse0001" (Some "WELCOME20"))]
          Sample.db).
Proof.
  assert (Hempty : enrollments_unique Sample.db).
  { unfold enrollments_unique. simpl. constructor. }
  split; [| split].
  - apply (proj1 (enrollCourse_rejects_second_enrollment Sample.env "cuser000001"
                    (studentRouter.EnrollCourse.mkInput "ccourse0001" None)
                    Sample.db_enrolled) Sample.enrollment1).
    reflexivity.
  - apply (proj1 (proj2 (enrollCourse_rejects_second_enrollment Sample.env
                           "cuser000001"
                           (studentRouter.EnrollCourse.mkInput "ccourse0001" None)
                           Sample.db))).
    exact Hempty.
  - apply (proj2 (proj2 (enrollCourse_rejects_second_enrollment Sample.env
                           "cuser000001"
                           (studentRouter.EnrollCourse.mkInput "ccourse0001" None)
                           Sample.db))).
    exact Hempty.
Defined.

(** * Further properties of the routers *)

(** ** Reasoning about the further combinators *)

Lemma catch_all_ok {A} (msg : string) (m : M A) (d d' : Db) (a : A) :
  catch_all msg m d = (d', inr a) -> m d = (d', inr a).
Proof.
  unfold catch_all. destruct (m d) as [d1 [e | x]]; intros H;
    [discriminate | exact H].
Qed.

Lemma admin_statement_ok (aenv : AdminEnv) (s : AdminStmt) (d d' : Db)
    (u : unit) :
  admin_statement aenv s d = (d', inr u) -> refuses aenv s = false /\ d' = d.
Proof. unfold admin_statement. apply throw_if_ok. Qed.

Ltac inv_more :=
  first
    [ inv_step
    | match goal with
      | H : catch_all _ _ _ = (_, inr _) |- _ => apply catch_all_ok in H
      | H : admin_statement _ _ _ = (_, inr _) |- _ =>
          apply admin_statement_ok in H; destruct H as [? ?]; subst
      end ].

Lemma readonly_catch_all {A} (msg : string) (m : M A) :
  readonly m -> readonly (catch_all msg m).
Proof.
  intros Hm d. unfold catch_all. specialize (Hm d).
  destruct (m d) as [d' [e | a]]; simpl in *; assumption.
Qed.

Ltac readonly_step :=
  first
    [ progress cbv beta zeta
    | apply readonly_with_input; intro
    | apply readonly_rethrow
    | apply readonly_catch_all
    | apply readonly_bind; [ | intro ]
    | apply readonly_if
    | match goal with
      | |- readonly (match ?x with _ => _ end) => destruct x
      end
    | solve [ auto with readonly ] ].

(** ** validateCoupon and calculateDiscount agree *)

(** X1. For a non-empty code, a course id and a non-negative price, the
    public [validateCoupon] always returns (it never throws and never
    writes), and it reports [valid: true] exactly when [calculateDiscount]
    returns a price for the same code and course. *)
Theorem validateCoupon_agrees_with_calculateDiscount
    (env : Env) (d : Db) (code : string) (courseId : Id) (p : Q) :
  (1 <= String.length code)%nat ->
  courseId <> "" ->
  0 <= p ->
  exists out,
    couponsRouter.validateCoupon env
      (couponsRouter.ValidateCoupon.mkInput code (Some courseId)) d
    = (d, inr out)
    /\ (couponsRouter.ValidateCoupon.valid out = true <->
        exists r,
          couponsRouter.calculateDiscount env
            (couponsRouter.CalculateDiscount.mkInput code courseId p) d
          = (d, inr r)).
Proof.
  intros Hlen Hcid Hp.
  assert (Hs1 : couponsRouter.validateCouponSchema
                  (couponsRouter.ValidateCoupon.mkInput code (Some courseId))
                = true).
  { unfold couponsRouter.validateCouponSchema.
    apply Nat.leb_le. exact Hlen. }
  assert (Hs2 : couponsRouter.calculateDiscountSchema
                  (couponsRouter.CalculateDiscount.mkInput code courseId p)
                = true).
  { unfold couponsRouter.calculateDiscountSchema.
    apply Qle_bool_iff. exact Hp. }
  assert (Htruthy : truthy_str (Some courseId) = true).
  { simpl. apply negb_true_iff, String.eqb_neq. exact Hcid. }
  unfold couponsRouter.validateCoupon, couponsRouter.calculateDiscount.
  unfold catch_all. unfold_proc. rewrite Hs1, Hs2. simpl.
  destruct (coupon_findUnique_code (toUpperCase code) d) as [c |]; simpl.
  2: { eexists. split; [reflexivity |]. simpl.
       split; [discriminate | intros [r Hr]; discriminate]. }
  destruct (Coupon.isActive c); simpl.
  2: { eexists. split; [reflexivity |]. simpl.
       split; [discriminate | intros [r Hr]; discriminate]. }
  destruct (after (Coupon.validFrom c) (now env)); simpl.
  { eexists. split; [reflexivity |]. simpl.
    split; [discriminate | intros [r Hr]; discriminate]. }
  destruct (before (Coupon.validUntil c) (now env)); simpl.
  { eexists. split; [reflexivity |]. simpl.
    split; [discriminate | intros [r Hr]; discriminate]. }
  destruct (maxUses_reached c); simpl.
  { eexists. split; [reflexivity |]. simpl.
    split; [discriminate | intros [r Hr]; discriminate]. }
  simpl in Htruthy.
  destruct (Coupon.isGlobal c); simpl; rewrite ?Htruthy; simpl.
  { eexists. split; [reflexivity |]. simpl.
    split; [intros _; eexists; reflexivity | reflexivity]. }
  destruct (List.length (coupon_courseCoupons c courseId d) =? 0)%nat; simpl.
  { eexists. split; [reflexivity |]. simpl.
    split; [discriminate | intros [r Hr]; discriminate]. }
  eexists. split; [reflexivity |]. simpl.
  split; [intros _; eexists; reflexivity | reflexivity].
Qed.

Lemma validateCoupon_agrees_with_calculateDiscount_witness :
  exists out,
    couponsRouter.validateCoupon Sample.env
      (couponsRouter.ValidateCoupon.mkInput "welcome20" (Some "ccourse0001"))
      Sample.db = (Sample.db, inr out)
    /\ couponsRouter.ValidateCoupon.valid out = true.
Proof.
  destruct (validateCoupon_agrees_with_calculateDiscount Sample.env Sample.db
              "welcome20" "ccourse0001" 100) as [out [Hrun Hiff]].
  - simpl. lia.
  - discriminate.
  - unfold Qle. simpl. lia.
  - exists out. split; [exact Hrun |].
    apply Hiff. eexists. vm_compute. reflexivity.
Defined.

(** ** The coupons that getAvailableCoupons lists *)

Lemma In_insert_by_value (x y : Coupon.t) (l : list Coupon.t) :
  In x (insert_by_value y l) -> x = y \/ In x l.
Proof.
  induction l as [| z l IH]; simpl.
  - intros [H | []]. subst. auto.
  - destruct (Qle_bool (Coupon.discountValue z) (Coupon.discountValue y));
      simpl.
    + intros [H | [H | H]]; subst; auto.
    + intros [H | H]; subst; auto. destruct (IH H); auto.
Qed.

Lemma In_sort_by_value_desc (x : Coupon.t) (l : list Coupon.t) :
  In x (sort_by_value_desc l) -> In x l.
Proof.
  induction l as [| y l IH]; simpl; [auto |].
  intros H. apply In_insert_by_value in H. destruct H; auto.
Qed.

Lemma available_passes (t : Date) (c : Coupon.t) :
  available t c = true ->
  after (Coupon.validFrom c) t = false
  /\ before (Coupon.validUntil c) t = false
  /\ maxUses_reached c = false.
Proof.
  unfold available, after, before, maxUses_reached, truthy_int.
  intros H. apply andb_prop in H. destruct H as [H Hm].
  apply andb_prop in H. destruct H as [Hf Hu].
  repeat split.
  - destruct (Coupon.validFrom c); [| discriminate].
    apply Z.leb_le in Hf. apply Z.ltb_ge. exact Hf.
  - destruct (Coupon.validUntil c); [| reflexivity].
    apply Z.leb_le in Hu. apply Z.ltb_ge. exact Hu.
  - destruct (Coupon.maxUses c); [| reflexivity].
    apply Z.ltb_lt in Hm. apply andb_false_iff. right.
    apply Z.leb_gt. exact Hm.
Qed.

(** X2. Every coupon that [getAvailableCoupons] lists for a course, global
    or specific to the course, is accepted by [calculateDiscount] for that
    course at any non-negative price, provided its code leads back to it
    (codes are upper-case and unique). *)
Theorem availableCoupons_are_accepted
    (env : Env) (d d' : Db) (courseId : Id)
    (out : couponsRouter.GetAvailableCoupons.output) (c : Coupon.t) (p : Q) :
  courseId <> "" ->
  0 <= p ->
  couponsRouter.getAvailableCoupons env (Some courseId) d = (d', inr out) ->
  In c (couponsRouter.GetAvailableCoupons.globalCoupons out)
  \/ In c (couponsRouter.GetAvailableCoupons.courseSpecificCoupons out) ->
  coupon_findUnique_code (toUpperCase (Coupon.code c)) d = Some c ->
  exists r,
    couponsRouter.calculateDiscount env
      (couponsRouter.CalculateDiscount.mkInput (Coupon.code c) courseId p) d
    = (d, inr r).
Proof.
  intros Hcid Hp Hrun Hin Hfind.
  assert (Hs : couponsRouter.calculateDiscountSchema
                 (couponsRouter.CalculateDiscount.mkInput (Coupon.code c)
                    courseId p) = true).
  { unfold couponsRouter.calculateDiscountSchema.
    apply Qle_bool_iff. exact Hp. }
  assert (Htruthy : truthy_str (Some courseId) = true).
  { simpl. apply negb_true_iff, String.eqb_neq. exact Hcid. }
  unfold couponsRouter.getAvailableCoupons in Hrun.
  rewrite Htruthy in Hrun. unfold_proc. inversion Hrun; subst d' out.
  clear Hrun. simpl in Hin.
  assert (Hok : Coupon.isActive c = true
                /\ available (now env) c = true
                /\ negb (Coupon.isGlobal c)
                   && (List.length (coupon_courseCoupons c courseId d) =? 0)%nat
                   = false).
  { destruct Hin as [Hin | Hin]; apply In_sort_by_value_desc in Hin;
      apply filter_In in Hin; destruct Hin as [_ Hc].
    - apply andb_prop in Hc. destruct Hc as [Hc Hav].
      apply andb_prop in Hc. destruct Hc as [Hact Hglob].
      rewrite Hglob. auto.
    - apply andb_prop in Hc. destruct Hc as [Hc Hav].
      apply andb_prop in Hc. destruct Hc as [Hc Hcc].
      apply andb_prop in Hc. destruct Hc as [Hact Hglob].
      repeat split; try assumption.
      apply negb_true_iff in Hcc. simpl in Hcc. rewrite Hcc.
      apply andb_false_r. }
  destruct Hok as [Hact [Hav Happl]].
  destruct (available_passes _ _ Hav) as [Hfrom [Huntil Hmax]].
  eexists. unfold couponsRouter.calculateDiscount. unfold_proc.
  rewrite Hs. simpl. rewrite Hfind, Hact, Hfrom, Huntil, Hmax. simpl.
  rewrite Happl. simpl. reflexivity.
Qed.

(** SPRING10, listed for the football course, is priced by
    [calculateDiscount]. *)
Lemma availableCoupons_are_accepted_witness :
  exists r,
    couponsRouter.calculateDiscount Sample.env
      (couponsRouter.CalculateDiscount.mkInput "SPRING10" "ccourse0001" 50)
      Catalog.db_spring = (Catalog.db_spring, inr r).
Proof.
  destruct (couponsRouter.getAvailableCoupons Sample.env (Some "ccourse0001")
              Catalog.db_spring) as [d' [ex | out]] eqn:Hrun;
    [vm_compute in Hrun; discriminate |].
  apply (availableCoupons_are_accepted Sample.env Catalog.db_spring d'
           "ccourse0001" out Catalog.SPRING10 50).
  - discriminate.
  - unfold Qle. simpl. lia.
  - exact Hrun.
  - vm_compute in Hrun. inversion Hrun. left. simpl. left. reflexivity.
  - reflexivity.
Defined.

(** ** The pages of getUserCouponHistory *)

Lemma firstn_plus {A} (a b : nat) (l : list A) :
  firstn (a + b) l = (firstn a l ++ firstn b (skipn a l))%list.
Proof.
  revert l. induction a as [| a IH]; intros l; simpl.
  - reflexivity.
  - destruct l as [| x l]; simpl.
    + now rewrite firstn_nil.
    + now rewrite IH.
Qed.

Lemma pages_concat {A} (n m : nat) (l : list A) :
  List.concat (map (fun k => firstn n (skipn (k * n) l)) (seq 0 m))
  = firstn (m * n) l.
Proof.
  induction m as [| m IH].
  - reflexivity.
  - rewrite seq_S, map_app, concat_app, IH. simpl.
    rewrite app_nil_r, (Nat.add_comm n (m * n)).
    symmetry. apply firstn_plus.
Qed.

Lemma ceil_div_covers (total limit : Z) :
  (0 < limit)%Z -> (total <= Math_ceil_div total limit * limit)%Z.
Proof.
  intros Hl. unfold Math_ceil_div.
  set (x := inject_Z total / inject_Z limit).
  assert (Hx : x <= inject_Z (Qceiling x)) by apply Qle_ceiling.
  assert (Hpos : 0 < inject_Z limit).
  { unfold Qlt. simpl. lia. }
  assert (Hmul : x * inject_Z limit <= inject_Z (Qceiling x) * inject_Z limit).
  { apply Qmult_le_compat_r; [exact Hx | apply Qlt_le_weak; exact Hpos]. }
  unfold x in Hmul at 1.
  rewrite Qmult_comm, Qmult_div_r in Hmul.
  - rewrite <- inject_Z_mult in Hmul. unfold Qle in Hmul. simpl in Hmul.
    lia.
  - intros H0. rewrite H0 in Hpos. apply (Qlt_irrefl 0). exact Hpos.
Qed.

Lemma history_rows_eq (env : Env) (userId : Id) (limit : Z) (d : Db)
    (page : Z) :
  (1 <= limit <= 50)%Z -> (1 <= page)%Z ->
  history_rows env userId limit d page
  = firstn (Z.to_nat limit)
      (skipn (Z.to_nat (page - 1) * Z.to_nat limit) (couponsRouter.usage_of_user userId d)).
Proof.
  intros Hl Hp. unfold history_rows, couponsRouter.getUserCouponHistory.
  assert (Hs : couponsRouter.getUserCouponHistorySchema
                 (couponsRouter.GetUserCouponHistory.mkInput page limit) = true).
  { unfold couponsRouter.getUserCouponHistorySchema. simpl.
    rewrite !andb_true_iff, !Z.leb_le. lia. }
  unfold_proc. rewrite Hs. simpl. rewrite map_map. simpl. rewrite map_id.
  unfold page_of. rewrite Z2Nat.inj_mul by lia. reflexivity.
Qed.

Lemma history_pages_eq (env : Env) (userId : Id) (limit : Z) (d : Db) :
  (1 <= limit <= 50)%Z ->
  history_pages env userId limit d
  = Math_ceil_div (Z.of_nat (List.length (couponsRouter.usage_of_user userId d))) limit.
Proof.
  intros Hl. unfold history_pages, couponsRouter.getUserCouponHistory.
  assert (Hs : couponsRouter.getUserCouponHistorySchema
                 (couponsRouter.GetUserCouponHistory.mkInput 1 limit) = true).
  { unfold couponsRouter.getUserCouponHistorySchema. simpl.
    rewrite !andb_true_iff, !Z.leb_le. lia. }
  unfold_proc. rewrite Hs. simpl.
  unfold couponsRouter.usage_of_user, newest_first, count. rewrite length_rev. reflexivity.
Qed.

(** X3. For a page size between 1 and 50, the pages 1 .. [pages] that
    [getUserCouponHistory] announces, put one after the other, are exactly
    the user's coupon uses, newest first; no page holds more than [limit]
    rows, and every page after the last is empty. *)
Theorem coupon_history_pages_cover (env : Env) (userId : Id) (d : Db)
    (limit : Z) :
  (1 <= limit <= 50)%Z ->
  List.concat (map (fun k => history_rows env userId limit d (Z.of_nat k))
              (seq 1 (Z.to_nat (history_pages env userId limit d))))
  = couponsRouter.usage_of_user userId d
  /\ (forall page, (1 <= page)%Z ->
        (List.length (history_rows env userId limit d page)
         <= Z.to_nat limit)%nat)
  /\ (forall page, (history_pages env userId limit d < page)%Z ->
        history_rows env userId limit d page = []).
Proof.
  intros Hl.
  pose proof (ceil_div_covers
                (Z.of_nat (List.length (couponsRouter.usage_of_user userId d))) limit)
    as Hcover.
  rewrite <- (history_pages_eq env userId limit d Hl) in Hcover.
  specialize (Hcover ltac:(lia)).
  set (pages := history_pages env userId limit d) in *.
  set (L := couponsRouter.usage_of_user userId d) in *.
  assert (Hpages : (0 <= pages)%Z) by nia.
  split; [| split].
  - rewrite <- seq_shift, map_map.
    rewrite (map_ext _ (fun k => firstn (Z.to_nat limit)
                                   (skipn (k * Z.to_nat limit) L))).
    + rewrite pages_concat. apply firstn_all2. nia.
    + intros k. rewrite history_rows_eq by lia. fold L.
      replace (Z.to_nat (Z.of_nat (S k) - 1)) with k by lia. reflexivity.
  - intros page Hp. rewrite history_rows_eq by lia. apply firstn_le_length.
  - intros page Hp. rewrite history_rows_eq by lia. fold L.
    rewrite skipn_all2; [apply firstn_nil | nia].
Qed.

(** Three uses in pages of two: two pages, the second holding the oldest
    use. *)
Lemma coupon_history_pages_cover_witness :
  history_pages Sample.env "cuser000001" 2 Catalog.db_used = 2%Z
  /\ (history_rows Sample.env "cuser000001" 2 Catalog.db_used 1
      ++ history_rows Sample.env "cuser000001" 2 Catalog.db_used 2)%list
     = rev Catalog.usages.
Proof.
  split; [reflexivity |].
  destruct (coupon_history_pages_cover Sample.env "cuser000001"
              Catalog.db_used 2) as [Hcover _]; [lia |].
  transitivity (couponsRouter.usage_of_user "cuser000001" Catalog.db_used);
    [| reflexivity].
  rewrite <- Hcover. reflexivity.
Defined.

(** ** Categories: conflicts, uniqueness, round trip *)

(** X4. [createCategory] on a valid request whose name, or else whose slug,
    is already taken throws CONFLICT and leaves the database as it was;
    when neither is taken and the database rejects nothing it returns the
    new category, stored at the end of the table under the requested name
    and slug. *)
Theorem createCategory_conflicts
    (aenv : AdminEnv) (adminId : Id)
    (input : adminCategoriesRouter.CreateCategory.input) (d : Db) :
  adminCategoriesRouter.createCategorySchema input = true ->
  (forall c,
     adminCategoriesRouter.category_findUnique_name
       (adminCategoriesRouter.CreateCategory.name input) d = Some c ->
     adminCategoriesRouter.createCategory aenv adminId input d
     = (d, inl (TRPCError CONFLICT "A category with this name already exists")))
  /\ (forall c,
        adminCategoriesRouter.category_findUnique_name
          (adminCategoriesRouter.CreateCategory.name input) d = None ->
        adminCategoriesRouter.category_findUnique_slug
          (adminCategoriesRouter.CreateCategory.slug input) d = Some c ->
        adminCategoriesRouter.createCategory aenv adminId input d
        = (d, inl (TRPCError CONFLICT "A category with this slug already exists")))
  /\ (adminCategoriesRouter.category_findUnique_name
        (adminCategoriesRouter.CreateCategory.name input) d = None ->
      adminCategoriesRouter.category_findUnique_slug
        (adminCategoriesRouter.CreateCategory.slug input) d = None ->
      refuses aenv CategoryCreate = false ->
      rejects (env_of aenv) AuditLogCreate = false ->
      exists d' c,
        adminCategoriesRouter.createCategory aenv adminId input d = (d', inr c)
        /\ Category.name c = adminCategoriesRouter.CreateCategory.name input
        /\ Category.slug c = adminCategoriesRouter.CreateCategory.slug input
        /\ categories d' = (categories d ++ [c])%list).
Proof.
  intros Hschema.
  unfold adminCategoriesRouter.createCategory,
    adminCategoriesRouter.category_create, auditLog_create, admin_statement.
  unfold_proc. rewrite Hschema. split; [| split].
  - intros c Hn. rewrite Hn. reflexivity.
  - intros c Hn Hs. rewrite Hn. simpl. rewrite Hs. reflexivity.
  - intros Hn Hs Hr1 Hr2. rewrite Hn. simpl. rewrite Hs. simpl.
    rewrite Hr1. simpl.
    assert (Hfresh :
              existsb (fun c =>
                         (Category.name c
                          =? adminCategoriesRouter.CreateCategory.name input)%string
                         || (Category.slug c
                             =? adminCategoriesRouter.CreateCategory.slug input)%string)
                      (categories d) = false).
    { unfold adminCategoriesRouter.category_findUnique_name,
        adminCategoriesRouter.category_findUnique_slug in Hn, Hs.
      destruct (existsb _ (categories d)) eqn:Hex; [| reflexivity].
      apply existsb_exists in Hex. destruct Hex as [x [Hin Hx]].
      apply orb_prop in Hx. destruct Hx as [Hx | Hx].
      - pose proof (find_none _ _ Hn x Hin) as Hc. simpl in Hc. congruence.
      - pose proof (find_none _ _ Hs x Hin) as Hc. simpl in Hc. congruence. }
    rewrite Hfresh, Hr2. simpl. do 2 eexists.
    split; [reflexivity |]. simpl. repeat split.
Qed.

(** The seeded category's name is taken; a new name and slug are stored. *)
Lemma createCategory_conflicts_witness :
  adminCategoriesRouter.createCategory Catalog.aenv "cadmin00001"
    (adminCategoriesRouter.CreateCategory.mkInput "Football/Soccer" "soccer"
       None None (Some "#10b981")) Sample.db
  = (Sample.db,
     inl (TRPCError CONFLICT "A category with this name already exists"))
  /\ exists d' c,
       adminCategoriesRouter.createCategory Catalog.aenv "cadmin00001"
         (adminCategoriesRouter.CreateCategory.mkInput "Tennis" "tennis"
            None None None) Sample.db = (d', inr c)
       /\ map Category.slug (categories d') = ["football-soccer"; "tennis"].
Proof.
  split.
  - apply (proj1 (createCategory_conflicts Catalog.aenv "cadmin00001"
                    (adminCategoriesRouter.CreateCategory.mkInput
                       "Football/Soccer" "soccer" None None (Some "#10b981"))
                    Sample.db eq_refl) Sample.sports).
    reflexivity.
  - destruct (proj2 (proj2 (createCategory_conflicts Catalog.aenv "cadmin00001"
                              (adminCategoriesRouter.CreateCategory.mkInput
                                 "Tennis" "tennis" None None None)
                              Sample.db eq_refl))
                eq_refl eq_refl eq_refl eq_refl)
      as [d' [c [Hrun [Hname [Hslug Hcats]]]]].
    exists d', c. split; [exact Hrun |].
    rewrite Hcats, map_app. simpl. rewrite Hslug. reflexivity.
Defined.

Lemma delete_first_split {A} (p : A -> bool) (l l' : list A) :
  delete_first p l = Some l' ->
  exists l1 x l2,
    l = (l1 ++ x :: l2)%list /\ l' = (l1 ++ l2)%list /\ find p l = Some x.
Proof.
  revert l'. induction l as [| y l IH]; intros l' H; simpl in H.
  - discriminate.
  - simpl. destruct (p y) eqn:Hp.
    + inversion H; subst. exists [], y, l'. auto.
    + destruct (delete_first p l) as [r |]; [| discriminate].
      inversion H; subst l'.
      destruct (IH r eq_refl) as [l1 [x [l2 [H1 [H2 H3]]]]].
      exists (y :: l1), x, l2. subst. auto.
Qed.

Lemma NoDup_map_remove {A K} (k : A -> K) (l1 l2 : list A) (x : A) :
  NoDup (map k (l1 ++ x :: l2)) -> NoDup (map k (l1 ++ l2)).
Proof.
  rewrite !map_app. simpl. apply NoDup_remove_1.
Qed.

Lemma NoDup_map_replace {A K} (k : A -> K) (l1 l2 : list A) (x y : A) :
  NoDup (map k (l1 ++ x :: l2)) ->
  k y = k x \/ ~ In (k y) (map k (l1 ++ x :: l2)) ->
  NoDup (map k (l1 ++ y :: l2)).
Proof.
  intros Hnd [Heq | Hnew].
  - rewrite !map_app in *. simpl in *. rewrite Heq. exact Hnd.
  - rewrite !map_app in *. simpl in *.
    apply (Permutation_NoDup (Permutation_middle _ _ _)).
    constructor.
    + intros Hin. apply Hnew. apply in_app_or in Hin.
      apply in_or_app. destruct Hin; [left | right; right]; assumption.
    + apply NoDup_remove_1 in Hnd. exact Hnd.
Qed.

Lemma find_none_not_in_map {A} (k : A -> string) (s : string) (l : list A) :
  find (fun c => String.eqb (k c) s) l = None -> ~ In s (map k l).
Proof.
  intros Hfind Hin. apply in_map_iff in Hin. destruct Hin as [x [Hk Hx]].
  pose proof (find_none _ _ Hfind x Hx) as Hc. simpl in Hc.
  rewrite Hk, String.eqb_refl in Hc. discriminate.
Qed.

Lemma existsb_false_not_in_map {A} (k : A -> string) (s : string)
    (q : A -> bool) (l : list A) :
  existsb (fun c => String.eqb (k c) s || q c) l = false -> ~ In s (map k l).
Proof.
  intros Hex Hin. apply in_map_iff in Hin. destruct Hin as [x [Hk Hx]].
  assert (Ht : existsb (fun c => String.eqb (k c) s || q c) l = true).
  { apply existsb_exists. exists x. split; [exact Hx |].
    rewrite Hk, String.eqb_refl. reflexivity. }
  congruence.
Qed.

(** The database a procedure leaves behind, step by step. *)
Lemma fst_rethrow {A} (msg : string) (m : M A) (d : Db) :
  fst (rethrow msg m d) = fst (m d).
Proof.
  unfold rethrow. destruct (m d) as [d' [[c s | s] | a]]; reflexivity.
Qed.

Lemma fst_catch_all {A} (msg : string) (m : M A) (d : Db) :
  fst (catch_all msg m d) = fst (m d).
Proof.
  unfold catch_all. destruct (m d) as [d' [e | a]]; reflexivity.
Qed.

Lemma fst_with_input {I A} (schema : I -> bool) (h : I -> M A) (i : I)
    (d : Db) :
  fst (with_input schema h i d) = d
  \/ schema i = true /\ fst (with_input schema h i d) = fst (h i d).
Proof.
  unfold with_input. destruct (schema i); [right | left]; auto.
Qed.

Lemma fst_bind_readonly {A B} (m : M A) (k : A -> M B) (d : Db) :
  readonly m ->
  fst (bind m k d) = d
  \/ exists a, m d = (d, inr a) /\ fst (bind m k d) = fst (k a d).
Proof.
  intros Hm. unfold bind. specialize (Hm d).
  destruct (m d) as [d' [e | a]]; simpl in Hm; subst d'.
  - left. reflexivity.
  - right. exists a. auto.
Qed.

Lemma fst_bind {A B} (m : M A) (k : A -> M B) (d : Db) :
  (exists e, m d = (fst (m d), inl e) /\ fst (bind m k d) = fst (m d))
  \/ exists a, m d = (fst (m d), inr a)
               /\ fst (bind m k d) = fst (k a (fst (m d))).
Proof.
  unfold bind. destruct (m d) as [d' [e | a]]; simpl.
  - left. exists e. auto.
  - right. exists a. auto.
Qed.

Ltac fst_input Hs :=
  match goal with
  | |- context [fst (with_input ?s ?h ?i ?d)] =>
      let Hd := fresh "Hd" in
      destruct (fst_with_input s h i d) as [Hd | [Hs Hd]];
      rewrite Hd; clear Hd; [ | cbv beta zeta ]
  end.

Ltac fst_read a Hm :=
  match goal with
  | |- context [fst (bind ?m ?k ?d)] =>
      let Hd := fresh "Hd" in
      destruct (fst_bind_readonly m k d) as [Hd | [a [Hm Hd]]];
      [ repeat readonly_step
      | rewrite Hd
      | rewrite Hd; clear Hd; cbv beta ]
  end.

Lemma apply_update_name (input : adminCategoriesRouter.UpdateCategory.input)
    (old : Category.t) :
  Category.name (adminCategoriesRouter.apply_update input old) = Category.name old
  \/ (truthy_str (adminCategoriesRouter.UpdateCategory.name input)
      && negb (patch (adminCategoriesRouter.UpdateCategory.name input) ""
               =? Category.name old)%string = true
      /\ Category.name (adminCategoriesRouter.apply_update input old)
         = patch (adminCategoriesRouter.UpdateCategory.name input) "").
Proof.
  simpl. destruct (adminCategoriesRouter.UpdateCategory.name input) as [s |];
    simpl; [| now left].
  destruct (negb (s =? "")%string); simpl; [| now left].
  destruct (String.eqb_spec s (Category.name old)); [now left | now right].
Qed.

Lemma apply_update_slug (input : adminCategoriesRouter.UpdateCategory.input)
    (old : Category.t) :
  Category.slug (adminCategoriesRouter.apply_update input old) = Category.slug old
  \/ (truthy_str (adminCategoriesRouter.UpdateCategory.slug input)
      && negb (patch (adminCategoriesRouter.UpdateCategory.slug input) ""
               =? Category.slug old)%string = true
      /\ Category.slug (adminCategoriesRouter.apply_update input old)
         = patch (adminCategoriesRouter.UpdateCategory.slug input) "").
Proof.
  simpl. destruct (adminCategoriesRouter.UpdateCategory.slug input) as [s |];
    simpl; [| now left].
  destruct (negb (s =? "")%string); simpl; [| now left].
  destruct (String.eqb_spec s (Category.slug old)); [now left | now right].
Qed.

(** What [updateCategory] can leave behind: the table as it was, or the
    table with the first row of that id replaced, the new name and the new
    slug being either the old ones or held by no row. *)
Lemma updateCategory_state (aenv : AdminEnv) (adminId : Id)
    (input : adminCategoriesRouter.UpdateCategory.input) (d : Db) :
  let d' := fst (adminCategoriesRouter.updateCategory aenv adminId input d) in
  categories d' = categories d
  \/ exists l1 x l2 y,
       categories d = (l1 ++ x :: l2)%list
       /\ categories d' = (l1 ++ y :: l2)%list
       /\ (Category.name y = Category.name x
           \/ ~ In (Category.name y) (map Category.name (categories d)))
       /\ (Category.slug y = Category.slug x
           \/ ~ In (Category.slug y) (map Category.slug (categories d))).
Proof.
  cbv zeta. unfold adminCategoriesRouter.updateCategory.
  fst_input Hschema; [now left |].
  cbv beta zeta. rewrite fst_rethrow.
  fst_read existing Hex; [now left |].
  apply query_ok in Hex. destruct Hex as [_ Hex].
  destruct existing as [old |]; [| now left].
  fst_read u1 Hname; [now left |].
  assert (Hn : Category.name (adminCategoriesRouter.apply_update input old)
               = Category.name old
               \/ ~ In (Category.name
                          (adminCategoriesRouter.apply_update input old))
                       (map Category.name (categories d))).
  { destruct (apply_update_name input old) as [H | [Hc Hy]]; [now left |].
    right. rewrite Hc in Hname. repeat inv_step. rewrite Hy.
    apply find_none_not_in_map.
    match goal with
    | H : isSome ?x = false |- _ => destruct x eqn:Hx; [discriminate H |]
    end.
    exact Hx. }
  clear Hname.
  fst_read u2 Hslug; [now left |].
  assert (Hs : Category.slug (adminCategoriesRouter.apply_update input old)
               = Category.slug old
               \/ ~ In (Category.slug
                          (adminCategoriesRouter.apply_update input old))
                       (map Category.slug (categories d))).
  { destruct (apply_update_slug input old) as [H | [Hc Hy]]; [now left |].
    right. rewrite Hc in Hslug. repeat inv_step. rewrite Hy.
    apply find_none_not_in_map.
    match goal with
    | H : isSome ?x = false |- _ => destruct x eqn:Hx; [discriminate H |]
    end.
    exact Hx. }
  clear Hslug.
  unfold adminCategoriesRouter.category_update, auditLog_create,
    admin_statement.
  unfold_proc.
  destruct (refuses aenv CategoryUpdate); [now left |].
  unfold category_findUnique in Hex. rewrite <- Hex.
  destruct (update_first
              (by_id_category (adminCategoriesRouter.UpdateCategory.id input))
              (adminCategoriesRouter.apply_update input) (categories d))
    as [l |] eqn:Hup; [| now left].
  destruct (existsb _ (categories d)); [now left |].
  destruct (update_first_split _ _ _ _ Hup) as [l1 [x [l2 [H1 [H2 [_ H4]]]]]].
  rewrite <- Hex in H4. inversion H4; subst x.
  right. exists l1, old, l2, (adminCategoriesRouter.apply_update input old).
  split; [exact H1 |]. split; [| split; assumption].
  destruct (rejects (env_of aenv) AuditLogCreate); simpl; exact H2.
Qed.

Lemma category_create_ok (aenv : AdminEnv) (name slug : string) (d d' : Db)
    (c : Category.t) :
  adminCategoriesRouter.category_create aenv name slug d = (d', inr c) ->
  c = Category.mk (cuid (idCounter d)) name slug
  /\ d' = set_idCounter (S (idCounter d))
            (set_categories (categories d ++ [c]) d)
  /\ ~ In name (map Category.name (categories d))
  /\ ~ In slug (map Category.slug (categories d)).
Proof.
  unfold adminCategoriesRouter.category_create. intros H. repeat inv_more.
  destruct (existsb _ (categories d)) eqn:Hex; inversion H; subst.
  repeat split.
  - apply (existsb_false_not_in_map Category.name name
             (fun c => (Category.slug c =? slug)%string)). exact Hex.
  - intros Hin. apply in_map_iff in Hin. destruct Hin as [x [Hk Hx]].
    assert (Ht : existsb (fun c => String.eqb (Category.name c) name
                                   || String.eqb (Category.slug c) slug)
                   (categories d) = true).
    { apply existsb_exists. exists x. split; [exact Hx |].
      rewrite Hk, String.eqb_refl. apply orb_true_r. }
    congruence.
Qed.


Lemma category_create_fail (aenv : AdminEnv) (name slug : string) (d d' : Db)
    (e : Exn) :
  adminCategoriesRouter.category_create aenv name slug d = (d', inl e) ->
  d' = d.
Proof.
  unfold adminCategoriesRouter.category_create, admin_statement.
  unfold_proc. destruct (refuses aenv CategoryCreate).
  - intros H. inversion H. reflexivity.
  - destruct (existsb _ (categories d)); intros H; inversion H. reflexivity.
Qed.

Lemma createCategory_state (aenv : AdminEnv) (adminId : Id)
    (input : adminCategoriesRouter.CreateCategory.input) (d : Db) :
  let d' := fst (adminCategoriesRouter.createCategory aenv adminId input d) in
  categories d' = categories d
  \/ exists c,
       categories d' = (categories d ++ [c])%list
       /\ ~ In (Category.name c) (map Category.name (categories d))
       /\ ~ In (Category.slug c) (map Category.slug (categories d)).
Proof.
  cbv zeta. unfold adminCategoriesRouter.createCategory.
  fst_input Hschema; [now left |].
  rewrite fst_rethrow.
  fst_read n Hn; [now left |]. fst_read u1 Hu1; [now left |].
  fst_read s Hs; [now left |]. fst_read u2 Hu2; [now left |].
  clear Hn Hu1 Hs Hu2.
  match goal with
  | |- context [fst (bind ?m ?k ?d)] =>
      destruct (fst_bind m k d) as [[e [Hm Hd]] | [c [Hm Hd]]]; rewrite Hd
  end.
  - left. apply category_create_fail in Hm. rewrite Hm. reflexivity.
  - apply category_create_ok in Hm. destruct Hm as [Hc [Hd1 [Hname Hslug]]].
    right. exists c. rewrite Hd1. subst c. simpl.
    split; [| split; assumption].
    unfold auditLog_create. unfold_proc.
    destruct (rejects (env_of aenv) AuditLogCreate); reflexivity.
Qed.

Lemma deleteCategory_state (env : Env) (adminId id : Id) (d : Db) :
  let d' := fst (adminCategoriesRouter.deleteCategory env adminId id d) in
  categories d' = categories d
  \/ exists l1 x l2,
       categories d = (l1 ++ x :: l2)%list /\ categories d' = (l1 ++ l2)%list.
Proof.
  cbv zeta. unfold adminCategoriesRouter.deleteCategory,
    adminCategoriesRouter.category_delete, auditLog_create.
  unfold_proc.
  destruct (category_findUnique id d); [| now left].
  destruct (0 <? List.length (category_courses id d))%nat; [now left |].
  simpl. destruct (rejects env CategoryDelete); [now left |].
  destruct (delete_first (by_id_category id) (categories d)) as [l |] eqn:Hdel;
    [| now left].
  destruct (delete_first_split _ _ _ Hdel) as [l1 [x [l2 [H1 [H2 _]]]]].
  right. exists l1, x, l2. split; [exact H1 |].
  destruct (rejects env AuditLogCreate); simpl; exact H2.
Qed.

(** X5. The three procedures that write categories keep names and slugs
    unique: whatever the request, and whether the call returns or throws,
    no two categories share a name or a slug afterwards if none did
    before. *)
Theorem categories_stay_unique (aenv : AdminEnv) (adminId : Id) (d : Db) :
  categories_unique d ->
  (forall input,
     categories_unique
       (fst (adminCategoriesRouter.createCategory aenv adminId input d)))
  /\ (forall input,
        categories_unique
          (fst (adminCategoriesRouter.updateCategory aenv adminId input d)))
  /\ (forall id,
        categories_unique
          (fst (adminCategoriesRouter.deleteCategory (env_of aenv) adminId id d))).
Proof.
  intros [Hn Hs]. unfold categories_unique. split; [| split].
  - intros input.
    destruct (createCategory_state aenv adminId input d)
      as [Heq | [c [Heq [Hname Hslug]]]]; rewrite Heq; [auto |].
    rewrite !map_app. simpl. split; apply NoDup_snoc; assumption.
  - intros input.
    destruct (updateCategory_state aenv adminId input d)
      as [Heq | [l1 [x [l2 [y [H1 [H2 [Hname Hslug]]]]]]]]; rewrite ?Heq;
      [auto |].
    rewrite H2. rewrite H1 in Hn, Hs, Hname, Hslug.
    split; eapply NoDup_map_replace; eassumption.
  - intros id.
    destruct (deleteCategory_state (env_of aenv) adminId id d)
      as [Heq | [l1 [x [l2 [H1 H2]]]]]; rewrite ?Heq; [auto |].
    rewrite H2. rewrite H1 in Hn, Hs.
    split; eapply NoDup_map_remove; eassumption.
Qed.

(** Renaming the only category, and adding a second one, keep the table
    free of duplicates. *)
Lemma categories_stay_unique_witness :
  categories_unique
    (fst (adminCategoriesRouter.updateCategory Catalog.aenv "cadmin00001"
            (adminCategoriesRouter.UpdateCategory.mkInput "ccategory01"
               (Some "Football") None None None None) Sample.db))
  /\ categories_unique
       (fst (adminCategoriesRouter.createCategory Catalog.aenv "cadmin00001"
               (adminCategoriesRouter.CreateCategory.mkInput "Tennis" "tennis"
                  None None None) Sample.db)).
Proof.
  assert (H0 : categories_unique Sample.db).
  { unfold categories_unique. simpl.
    split; (constructor; [intros [] | constructor]). }
  destruct (categories_stay_unique Catalog.aenv "cadmin00001" Sample.db H0)
    as [Hc [Hu _]].
  split; [apply Hu | apply Hc].
Defined.

(** ** Creating and deleting a category *)

Lemma auditLog_create_ok (env : Env) (row : AuditLog.t) (d d' : Db) (u : unit) :
  auditLog_create env row d = (d', inr u) ->
  rejects env AuditLogCreate = false
  /\ d' = set_auditLogs (auditLogs d ++ [row]) d.
Proof.
  unfold auditLog_create. unfold_proc.
  destruct (rejects env AuditLogCreate); intros H; inversion H. auto.
Qed.

Lemma find_app_fresh {A} (p : A -> bool) (l : list A) (x : A) :
  find p l = None -> p x = true -> find p (l ++ [x]) = Some x.
Proof.
  intros Hnone Hp. induction l as [| y l IH]; simpl in *.
  - rewrite Hp. reflexivity.
  - destruct (p y); [discriminate | auto].
Qed.

Lemma delete_first_app_fresh {A} (p : A -> bool) (l : list A) (x : A) :
  find p l = None -> p x = true -> delete_first p (l ++ [x]) = Some l.
Proof.
  intros Hnone Hp. induction l as [| y l IH]; simpl in *.
  - rewrite Hp. reflexivity.
  - destruct (p y); [discriminate |]. rewrite (IH Hnone). reflexivity.
Qed.

(** X6. A category that [createCategory] has just returned, under an id no
    older category has and no course refers to, is removed again by
    [deleteCategory]: the categories and the courses are then what they were
    before the two calls. *)
Theorem createCategory_then_deleteCategory
    (aenv : AdminEnv) (adminId : Id)
    (input : adminCategoriesRouter.CreateCategory.input) (d d1 : Db)
    (c : Category.t) :
  adminCategoriesRouter.createCategory aenv adminId input d = (d1, inr c) ->
  category_findUnique (Category.id c) d = None ->
  category_courses (Category.id c) d = [] ->
  rejects (env_of aenv) CategoryDelete = false ->
  exists d2,
    adminCategoriesRouter.deleteCategory (env_of aenv) adminId (Category.id c) d1
    = (d2, inr true)
    /\ categories d2 = categories d
    /\ courses d2 = courses d.
Proof.
  intros Hrun Hfresh Hcourses Hrej.
  unfold adminCategoriesRouter.createCategory in Hrun. repeat inv_more.
  match goal with
  | H : adminCategoriesRouter.category_create _ _ _ _ = _ |- _ =>
      apply category_create_ok in H; destruct H as [Hc [Hd1 _]]
  end.
  match goal with
  | H : auditLog_create _ _ _ = _ |- _ =>
      apply auditLog_create_ok in H; destruct H as [Haud Hd6]
  end.
  subst.
  match goal with
  | |- context [adminCategoriesRouter.deleteCategory _ _ (Category.id ?c)] =>
      assert (Hid : by_id_category (Category.id c) c = true)
        by apply id_eqb_refl;
      set (row := c) in *
  end.
  unfold adminCategoriesRouter.deleteCategory,
    adminCategoriesRouter.category_delete, auditLog_create.
  unfold_proc. unfold category_findUnique, category_courses in *. simpl.
  change (Category.id row) with (cuid (idCounter d)) in *.
  rewrite (find_app_fresh _ _ row Hfresh Hid). cbv beta iota.
  change (courses (set_auditLogs _ _)) with (courses d).
  rewrite Hcourses. simpl. rewrite Hrej. simpl.
  rewrite (delete_first_app_fresh _ _ row Hfresh Hid). rewrite Haud. simpl.
  eexists. split; [reflexivity |]. split; reflexivity.
Qed.

Lemma createCategory_then_deleteCategory_witness :
  exists d1 c d2,
    adminCategoriesRouter.createCategory Catalog.aenv "cadmin00001"
      (adminCategoriesRouter.CreateCategory.mkInput "Tennis" "tennis"
         None None None) Sample.db = (d1, inr c)
    /\ adminCategoriesRouter.deleteCategory Sample.env "cadmin00001"
         (Category.id c) d1 = (d2, inr true)
    /\ categories d2 = categories Sample.db.
Proof.
  destruct (adminCategoriesRouter.createCategory Catalog.aenv "cadmin00001"
              (adminCategoriesRouter.CreateCategory.mkInput "Tennis" "tennis"
                 None None None) Sample.db) as [d1 [ex | c]] eqn:Hrun;
    [vm_compute in Hrun; discriminate |].
  assert (Hc : Category.id c = "c0").
  { vm_compute in Hrun. inversion Hrun. reflexivity. }
  destruct (createCategory_then_deleteCategory Catalog.aenv "cadmin00001" _
              Sample.db d1 c Hrun) as [d2 [Hdel [Hcats _]]].
  - rewrite Hc. reflexivity.
  - rewrite Hc. reflexivity.
  - reflexivity.
  - exists d1, c, d2. auto.
Defined.

(** ** What an enrollment forbids *)

Lemma find_in_map_some {A} (k : A -> Id) (i : Id) (l : list A) :
  In i (map k l) -> exists x, find (fun x => id_eqb (k x) i) l = Some x.
Proof.
  induction l as [| y l IH]; simpl; intros Hin; [contradiction |].
  destruct (id_eqb (k y) i) eqn:Hy; [eauto |].
  destruct Hin as [Heq | Hin]; [| auto].
  subst i. rewrite id_eqb_refl in Hy. discriminate.
Qed.

Lemma find_some_in_map {A} (k : A -> Id) (p : A -> bool) (l : list A) (x : A) :
  find p l = Some x -> In (k x) (map k l).
Proof.
  intros H. apply find_some in H. apply in_map. tauto.
Qed.

(** X7. Once [enrollCourse] has returned an enrollment, [deleteCourse]
    refuses the course of that enrollment with CONFLICT and leaves the
    database as it is. *)
Theorem enrolled_course_cannot_be_deleted
    (env : Env) (aenv : AdminEnv) (userId adminId : Id)
    (input : studentRouter.EnrollCourse.input) (d d' : Db) (e : Enrollment.t) :
  studentRouter.enrollCourse env userId input d = (d', inr e) ->
  adminCoursesRouter.deleteCourse aenv adminId
    (studentRouter.EnrollCourse.courseId input) d'
  = (d', inl (TRPCError CONFLICT "Cannot delete course with active enrollments")).
Proof.
  intros Hrun. apply enrollCourse_success in Hrun.
  destruct Hrun as [course [applied [_ [Hcourse [_ [_ Henr]]]]]].
  destruct Henr as [He [Hens [_ [_ [_ [_ [Hcourses _]]]]]]].
  unfold adminCoursesRouter.deleteCourse. unfold_proc.
  unfold course_findUnique in *. rewrite Hcourses, Hcourse.
  unfold adminCoursesRouter.course_enrollments.
  rewrite (filter_In_nonempty _ (enrollments d') e).
  - reflexivity.
  - rewrite Hens. apply in_or_app. right. left. reflexivity.
  - subst e. apply id_eqb_refl.
Qed.

Lemma enrolled_course_cannot_be_deleted_witness :
  exists d' e,
    studentRouter.enrollCourse Sample.env "cuser000001"
      (studentRouter.EnrollCourse.mkInput "ccourse0001" None) Sample.db
    = (d', inr e)
    /\ adminCoursesRouter.deleteCourse Catalog.aenv "cadmin00001" "ccourse0001" d'
       = (d', inl (TRPCError CONFLICT
                     "Cannot delete course with active enrollments")).
Proof.
  destruct (studentRouter.enrollCourse Sample.env "cuser000001"
              (studentRouter.EnrollCourse.mkInput "ccourse0001" None) Sample.db)
    as [d' [ex | e]] eqn:Hrun; [vm_compute in Hrun; discriminate |].
  exists d', e. split; [reflexivity |].
  exact (enrolled_course_cannot_be_deleted Sample.env Catalog.aenv
           "cuser000001" "cadmin00001" _ Sample.db d' e Hrun).
Defined.

(** X8. Once [enrollCourse] has returned an enrollment that records a
    coupon, [deleteCoupon] refuses that coupon with CONFLICT and leaves the
    database as it is. *)
Theorem used_coupon_cannot_be_deleted
    (env : Env) (aenv : AdminEnv) (userId adminId couponId : Id)
    (input : studentRouter.EnrollCourse.input) (d d' : Db) (e : Enrollment.t) :
  studentRouter.enrollCourse env userId input d = (d', inr e) ->
  Enrollment.appliedCouponId e = Some couponId ->
  adminCouponsRouter.deleteCoupon aenv adminId couponId d'
  = (d', inl (TRPCError CONFLICT
                "Cannot delete coupon that has been used. Deactivate it instead.")).
Proof.
  intros Hrun Happlied. apply enrollCourse_success in Hrun.
  destruct Hrun as [course [applied [_ [_ [_ [Hacc Henr]]]]]].
  destruct Henr as [He [Hens [_ [_ [Hcoupons _]]]]].
  assert (Ha : applied = Some couponId) by (subst e; exact Happlied).
  subst applied.
  destruct Hacc as [[_ Hnone] | [code [c [_ [Hfind [_ [_ [_ [_ [_ Hid]]]]]]]]]];
    [discriminate |].
  assert (Hc : couponId = Coupon.id c) by congruence. clear Hid.
  assert (Hin : In couponId (map Coupon.id (coupons d'))).
  { assert (Hd : In couponId (map Coupon.id (coupons d))).
    { rewrite Hc. unfold coupon_findUnique_code in Hfind.
      exact (find_some_in_map Coupon.id _ _ _ Hfind). }
    destruct (truthy_str (Some couponId)).
    - destruct Hcoupons as [l1 [c0 [l2 [H1 [H2 _]]]]].
      rewrite H2. rewrite H1 in Hd. rewrite map_app in *. simpl in *. exact Hd.
    - destruct Hcoupons as [H1 _]. rewrite H1. exact Hd. }
  destruct (find_in_map_some Coupon.id couponId _ Hin) as [c' Hc'].
  unfold adminCouponsRouter.deleteCoupon. unfold_proc.
  unfold coupon_findUnique_id, by_id_coupon. rewrite Hc'.
  unfold adminCouponsRouter.coupon_enrollments.
  rewrite (filter_In_nonempty _ (enrollments d') e).
  - reflexivity.
  - rewrite Hens. apply in_or_app. right. left. reflexivity.
  - rewrite Happlied. apply id_eqb_refl.
Qed.

Lemma used_coupon_cannot_be_deleted_witness :
  exists d' e,
    studentRouter.enrollCourse Sample.env "cuser000001"
      (studentRouter.EnrollCourse.mkInput "ccourse0001" (Some "WELCOME20"))
      Sample.db
    = (d', inr e)
    /\ adminCouponsRouter.deleteCoupon Catalog.aenv "cadmin00001" "ccoupon0001" d'
       = (d', inl (TRPCError CONFLICT
             "Cannot delete coupon that has been used. Deactivate it instead.")).
Proof.
  destruct (studentRouter.enrollCourse Sample.env "cuser000001"
              (studentRouter.EnrollCourse.mkInput "ccourse0001" (Some "WELCOME20"))
              Sample.db)
    as [d' [ex | e]] eqn:Hrun; [vm_compute in Hrun; discriminate |].
  exists d', e. split; [reflexivity |].
  apply (used_coupon_cannot_be_deleted Sample.env Catalog.aenv
           "cuser000001" "cadmin00001" "ccoupon0001" _ Sample.db d' e Hrun).
  vm_compute in Hrun. inversion Hrun. reflexivity.
Defined.

(** ** Coupons as the administration creates them *)

Lemma coupon_create_ok (aenv : AdminEnv)
    (i : adminCouponsRouter.CreateCoupon.input) (d d' : Db) (c : Coupon.t) :
  adminCouponsRouter.coupon_create aenv i d = (d', inr c) ->
  Coupon.code c = adminCouponsRouter.CreateCoupon.code i
  /\ Coupon.discountType c = adminCouponsRouter.CreateCoupon.discountType i
  /\ Coupon.discountValue c = adminCouponsRouter.CreateCoupon.discountValue i
  /\ Coupon.usedCount c = 0%Z
  /\ d' = set_idCounter (S (idCounter d)) (set_coupons (coupons d ++ [c]) d)
  /\ ~ In (Coupon.code c) (map Coupon.code (coupons d)).
Proof.
  unfold adminCouponsRouter.coupon_create. intros H. repeat inv_more.
  destruct (existsb _ (coupons d)) eqn:Hex; inversion H; subst. simpl.
  repeat (split; [reflexivity |]).
  intros Hin. apply in_map_iff in Hin. destruct Hin as [x [Hk Hx]].
  assert (Ht : existsb (by_code (adminCouponsRouter.CreateCoupon.code i))
                 (coupons d) = true).
  { apply existsb_exists. exists x. split; [exact Hx |].
    unfold by_code. rewrite Hk. apply String.eqb_refl. }
  congruence.
Qed.

Lemma coupon_create_fail (aenv : AdminEnv)
    (i : adminCouponsRouter.CreateCoupon.input) (d d' : Db) (e : Exn) :
  adminCouponsRouter.coupon_create aenv i d = (d', inl e) -> d' = d.
Proof.
  unfold adminCouponsRouter.coupon_create, admin_statement.
  unfold_proc. destruct (refuses aenv CouponCreate).
  - intros H. inversion H. reflexivity.
  - destruct (existsb _ (coupons d)); intros H; inversion H. reflexivity.
Qed.

Lemma createCoupon_ok (aenv : AdminEnv) (adminId : Id)
    (input : adminCouponsRouter.CreateCoupon.input) (d d' : Db) (c : Coupon.t) :
  adminCouponsRouter.createCoupon aenv adminId input d = (d', inr c) ->
  adminCouponsRouter.createCouponSchema input = true
  /\ Coupon.code c = adminCouponsRouter.CreateCoupon.code input
  /\ Coupon.discountType c = adminCouponsRouter.CreateCoupon.discountType input
  /\ Coupon.discountValue c = adminCouponsRouter.CreateCoupon.discountValue input
  /\ Coupon.usedCount c = 0%Z
  /\ coupons d' = (coupons d ++ [c])%list
  /\ courseCoupons d'
     = (courseCoupons d
        ++ map (CourseCoupon.mk (Coupon.id c))
               (patch (adminCouponsRouter.CreateCoupon.courseIds input) []))%list.
Proof.
  unfold adminCouponsRouter.createCoupon. intros Hrun. repeat inv_more.
  all: match goal with
       | H : adminCouponsRouter.coupon_create _ _ _ = _ |- _ =>
           apply coupon_create_ok in H;
           destruct H as [Hcode [Htype [Hvalue [Hused [Hd1 _]]]]]
       end.
  all: match goal with
       | H : auditLog_create _ _ _ = _ |- _ =>
           apply auditLog_create_ok in H; destruct H as [_ Hd']
       end.
  all: repeat (split; [assumption |]).
  all: destruct (0 <? Datatypes.length
                   (patch (adminCouponsRouter.CreateCoupon.courseIds input) []))%nat
         eqn:Hlen;
       repeat inv_more; subst; simpl; try discriminate;
       try (apply length_zero_nil in Hlen; rewrite Hlen; simpl;
            rewrite app_nil_r);
       split; reflexivity.
Qed.

Lemma coupon_create_period (aenv : AdminEnv)
    (i : adminCouponsRouter.CreateCoupon.input) (d d' : Db) (c : Coupon.t) :
  adminCouponsRouter.coupon_create aenv i d = (d', inr c) ->
  Coupon.validFrom c
  = Some (patch (adminCouponsRouter.CreateCoupon.validFrom i)
                (now (env_of aenv)))
  /\ Coupon.validUntil c = adminCouponsRouter.CreateCoupon.validUntil i.
Proof.
  unfold adminCouponsRouter.coupon_create. intros H. repeat inv_more.
  destruct (existsb _ (coupons d)); inversion H; subst. simpl.
  split; reflexivity.
Qed.

Lemma createCoupon_period (aenv : AdminEnv) (adminId : Id)
    (input : adminCouponsRouter.CreateCoupon.input) (d d' : Db) (c : Coupon.t) :
  adminCouponsRouter.createCoupon aenv adminId input d = (d', inr c) ->
  Coupon.validFrom c
  = Some (patch (adminCouponsRouter.CreateCoupon.validFrom input)
                (now (env_of aenv)))
  /\ Coupon.validUntil c = adminCouponsRouter.CreateCoupon.validUntil input.
Proof.
  unfold adminCouponsRouter.createCoupon. intros Hrun. repeat inv_more.
  all: match goal with
       | H : adminCouponsRouter.coupon_create _ _ _ = _ |- _ =>
           apply coupon_create_period in H; exact H
       end.
Qed.

(** X9. The coupon that [createCoupon] returns is stored, has not been used,
    and carries the fields of the request within the bounds of
    [createCouponSchema]: its value is not negative, a percentage is at most
    100, and when the request gives the start of the period, the coupon
    starts then, before its end if it has one. *)
Theorem createCoupon_stores_bounded_coupon
    (aenv : AdminEnv) (adminId : Id)
    (input : adminCouponsRouter.CreateCoupon.input) (d d' : Db) (c : Coupon.t) :
  adminCouponsRouter.createCoupon aenv adminId input d = (d', inr c) ->
  In c (coupons d')
  /\ Coupon.usedCount c = 0%Z
  /\ Coupon.discountType c = adminCouponsRouter.CreateCoupon.discountType input
  /\ Coupon.discountValue c = adminCouponsRouter.CreateCoupon.discountValue input
  /\ 0 <= Coupon.discountValue c
  /\ (Coupon.discountType c = PERCENTAGE -> Coupon.discountValue c <= 100)
  /\ (forall f,
        adminCouponsRouter.CreateCoupon.validFrom input = Some f ->
        Coupon.validFrom c = Some f
        /\ forall u, Coupon.validUntil c = Some u -> (f < u)%Z).
Proof.
  intros Hrun. pose proof (createCoupon_period _ _ _ _ _ _ Hrun) as [Hfrom Huntil].
  apply createCoupon_ok in Hrun.
  destruct Hrun as [Hschema [_ [Htype [Hvalue [Hused [Hcoupons _]]]]]].
  unfold adminCouponsRouter.createCouponSchema in Hschema.
  repeat (apply andb_prop in Hschema; destruct Hschema as [Hschema ?]).
  split; [rewrite Hcoupons; apply in_or_app; right; left; reflexivity |].
  split; [exact Hused |]. split; [exact Htype |]. split; [exact Hvalue |].
  split; [| split].
  - rewrite Hvalue. apply Qle_bool_iff. assumption.
  - intros Hc.
    match goal with
    | H : negb (DiscountType_eqb _ _ && _) = true |- _ =>
        rewrite <- Htype, <- Hvalue, Hc in H; simpl in H;
        unfold Qgtb in H; rewrite negb_involutive in H;
        apply Qle_bool_iff in H; exact H
    end.
  - intros f Hf. rewrite Hf in Hfrom. split; [exact Hfrom |].
    intros u Hu. rewrite Huntil in Hu.
    match goal with
    | H : negb (match _ with Some _ => _ | None => _ end) = true |- _ =>
        rewrite Hf, Hu in H; apply negb_true_iff in H;
        apply Z.leb_gt in H; exact H
    end.
Qed.

(** AUTUMN15, 15% off the football course, as the administration creates
    it. *)
Lemma createCoupon_stores_bounded_coupon_witness :
  exists d' c,
    adminCouponsRouter.createCoupon Catalog.aenv "cadmin00001" Catalog.AUTUMN15
      Sample.db = (d', inr c)
    /\ In c (coupons d')
    /\ 0 <= Coupon.discountValue c
    /\ (Coupon.discountType c = PERCENTAGE -> Coupon.discountValue c <= 100).
Proof.
  destruct (adminCouponsRouter.createCoupon Catalog.aenv "cadmin00001"
              Catalog.AUTUMN15 Sample.db) as [d' [ex | c]] eqn:Hrun;
    [vm_compute in Hrun; discriminate |].
  exists d', c. split; [reflexivity |].
  destruct (createCoupon_stores_bounded_coupon Catalog.aenv "cadmin00001"
              Catalog.AUTUMN15 Sample.db d' c Hrun)
    as [Hin [_ [_ [_ [Hpos [Hpct _]]]]]].
  split; [exact Hin |]. split; [exact Hpos | exact Hpct].
Defined.

(** ** A course named twice *)

Lemma NoDup_map_filter {A K} (k : A -> K) (p : A -> bool) (l : list A) :
  NoDup (map k l) -> NoDup (map k (filter p l)).
Proof.
  induction l as [| x l IH]; simpl; intros H; [constructor |].
  inversion H as [| ? ? Hx Hl]; subst.
  destruct (p x); simpl; [| auto].
  constructor; [| auto].
  intros Hin. apply Hx. apply in_map_iff in Hin.
  destruct Hin as [y [Hk Hy]]. apply filter_In in Hy.
  rewrite <- Hk. apply in_map. tauto.
Qed.




(** ** Coupon codes stay unique *)

Lemma coupon_apply_update_code (input : adminCouponsRouter.UpdateCoupon.input)
    (old : Coupon.t) :
  Coupon.code (adminCouponsRouter.apply_update input old) = Coupon.code old
  \/ (truthy_str (adminCouponsRouter.UpdateCoupon.code input)
      && negb (patch (adminCouponsRouter.UpdateCoupon.code input) ""
               =? Coupon.code old)%string = true
      /\ Coupon.code (adminCouponsRouter.apply_update input old)
         = patch (adminCouponsRouter.UpdateCoupon.code input) "").
Proof.
  simpl. destruct (adminCouponsRouter.UpdateCoupon.code input) as [s |];
    simpl; [| now left].
  destruct (negb (s =? "")%string); simpl; [| now left].
  destruct (String.eqb_spec s (Coupon.code old)); [now left | now right].
Qed.

Lemma createCoupon_state (aenv : AdminEnv) (adminId : Id)
    (input : adminCouponsRouter.CreateCoupon.input) (d : Db) :
  let d' := fst (adminCouponsRouter.createCoupon aenv adminId input d) in
  coupons d' = coupons d
  \/ exists c,
       coupons d' = (coupons d ++ [c])%list
       /\ ~ In (Coupon.code c) (map Coupon.code (coupons d)).
Proof.
  cbv zeta. unfold adminCouponsRouter.createCoupon.
  fst_input Hschema; [now left |].
  rewrite fst_rethrow.
  fst_read existing He; [now left |]. fst_read u1 Hu1; [now left |].
  fst_read u2 Hu2; [now left |]. clear He Hu1 Hu2.
  match goal with
  | |- context [fst (bind ?m ?k ?d)] =>
      destruct (fst_bind m k d) as [[e [Hm Hd]] | [c [Hm Hd]]]; rewrite Hd
  end.
  - left. apply coupon_create_fail in Hm. rewrite Hm. reflexivity.
  - apply coupon_create_ok in Hm.
    destruct Hm as [_ [_ [_ [_ [Hd1 Hfresh]]]]].
    right. exists c. split; [| exact Hfresh]. rewrite Hd1.
    unfold auditLog_create. unfold_proc.
    repeat match goal with
           | |- context [if ?b then _ else _] => destruct b
           end; reflexivity.
Qed.

Lemma updateCoupon_state (env : Env) (adminId : Id)
    (input : adminCouponsRouter.UpdateCoupon.input) (d : Db) :
  let d' := fst (adminCouponsRouter.updateCoupon env adminId input d) in
  coupons d' = coupons d
  \/ exists l1 x l2 y,
       coupons d = (l1 ++ x :: l2)%list
       /\ coupons d' = (l1 ++ y :: l2)%list
       /\ (Coupon.code y = Coupon.code x
           \/ ~ In (Coupon.code y) (map Coupon.code (coupons d))).
Proof.
  cbv zeta. unfold adminCouponsRouter.updateCoupon.
  fst_input Hschema; [now left |].
  cbv beta zeta. rewrite fst_rethrow.
  fst_read existing Hex; [now left |].
  apply query_ok in Hex. destruct Hex as [_ Hex].
  destruct existing as [old |]; [| now left].
  fst_read u1 Hcode; [now left |].
  assert (Hn : Coupon.code (adminCouponsRouter.apply_update input old)
               = Coupon.code old
               \/ ~ In (Coupon.code (adminCouponsRouter.apply_update input old))
                       (map Coupon.code (coupons d))).
  { destruct (coupon_apply_update_code input old) as [H | [Hc Hy]];
      [now left |].
    right. rewrite Hc in Hcode. repeat inv_step. rewrite Hy.
    apply find_none_not_in_map.
    match goal with
    | H : isSome ?x = false |- _ => destruct x eqn:Hx; [discriminate H |]
    end.
    exact Hx. }
  clear Hcode.
  unfold adminCouponsRouter.coupon_update, auditLog_create, statement.
  unfold_proc.
  destruct (rejects env CouponUpdate); [now left |].
  unfold coupon_findUnique_id in Hex. rewrite <- Hex.
  destruct (update_first
              (by_id_coupon (adminCouponsRouter.UpdateCoupon.id input))
              (adminCouponsRouter.apply_update input) (coupons d))
    as [l |] eqn:Hup; [| now left].
  destruct (update_first_split _ _ _ _ Hup) as [l1 [x [l2 [H1 [H2 [_ H4]]]]]].
  rewrite <- Hex in H4. inversion H4; subst x.
  right. exists l1, old, l2, (adminCouponsRouter.apply_update input old).
  split; [exact H1 |]. split; [| assumption].
  destruct (adminCouponsRouter.UpdateCoupon.courseIds input);
    repeat match goal with
           | |- context [if ?b then _ else _] => destruct b
           end; simpl; exact H2.
Qed.

Lemma deleteCoupon_state (aenv : AdminEnv) (adminId id : Id) (d : Db) :
  let d' := fst (adminCouponsRouter.deleteCoupon aenv adminId id d) in
  coupons d' = coupons d
  \/ exists l1 x l2,
       coupons d = (l1 ++ x :: l2)%list /\ coupons d' = (l1 ++ l2)%list.
Proof.
  cbv zeta. unfold adminCouponsRouter.deleteCoupon,
    adminCouponsRouter.coupon_delete, auditLog_create, admin_statement.
  unfold_proc.
  destruct (coupon_findUnique_id id d); [| now left].
  destruct (_ || _); [now left |].
  simpl. destruct (refuses aenv CouponDelete); [now left |].
  destruct (delete_first (by_id_coupon id) (coupons d)) as [l |] eqn:Hdel;
    [| now left].
  destruct (delete_first_split _ _ _ Hdel) as [l1 [x [l2 [H1 [H2 _]]]]].
  right. exists l1, x, l2. split; [exact H1 |].
  destruct (rejects (env_of aenv) AuditLogCreate); simpl; exact H2.
Qed.

Lemma deactivateExpiredCoupons_state (aenv : AdminEnv) (adminId : Id) (d : Db) :
  let d' := fst (adminCouponsRouter.deactivateExpiredCoupons aenv adminId d) in
  coupons d' = coupons d
  \/ coupons d'
     = map (fun c => if adminCouponsRouter.expired_active (now (env_of aenv)) c
                     then adminCouponsRouter.deactivate c else c) (coupons d).
Proof.
  cbv zeta. unfold adminCouponsRouter.deactivateExpiredCoupons.
  rewrite fst_catch_all.
  unfold adminCouponsRouter.coupon_deactivateMany, auditLog_create,
    admin_statement.
  unfold_proc.
  destruct (refuses aenv CouponUpdateMany); [now left |].
  right. destruct (rejects (env_of aenv) AuditLogCreate); reflexivity.
Qed.

(** X11. The procedures of the administration that write coupons
    ([createCoupon], [updateCoupon], [deleteCoupon] and
    [deactivateExpiredCoupons]) keep the codes unique: whatever the request,
    and whether the call returns or throws, no two coupons share a code
    afterwards if none did before. *)
Theorem coupon_codes_stay_unique (aenv : AdminEnv) (adminId : Id) (d : Db) :
  coupon_codes_unique d ->
  (forall input,
     coupon_codes_unique
       (fst (adminCouponsRouter.createCoupon aenv adminId input d)))
  /\ (forall input,
        coupon_codes_unique
          (fst (adminCouponsRouter.updateCoupon (env_of aenv) adminId input d)))
  /\ (forall id,
        coupon_codes_unique
          (fst (adminCouponsRouter.deleteCoupon aenv adminId id d)))
  /\ coupon_codes_unique
       (fst (adminCouponsRouter.deactivateExpiredCoupons aenv adminId d)).
Proof.
  intros Hu. unfold coupon_codes_unique in *. split; [| split; [| split]].
  - intros input.
    destruct (createCoupon_state aenv adminId input d)
      as [Heq | [c [Heq Hfresh]]]; rewrite Heq; [exact Hu |].
    rewrite map_app. simpl. apply NoDup_snoc; assumption.
  - intros input.
    destruct (updateCoupon_state (env_of aenv) adminId input d)
      as [Heq | [l1 [x [l2 [y [H1 [H2 Hcode]]]]]]]; rewrite ?Heq; [exact Hu |].
    rewrite H2. rewrite H1 in Hu, Hcode.
    eapply NoDup_map_replace; eassumption.
  - intros id.
    destruct (deleteCoupon_state aenv adminId id d)
      as [Heq | [l1 [x [l2 [H1 H2]]]]]; rewrite ?Heq; [exact Hu |].
    rewrite H2. rewrite H1 in Hu.
    eapply NoDup_map_remove; eassumption.
  - destruct (deactivateExpiredCoupons_state aenv adminId d) as [Heq | Heq];
      rewrite Heq; [exact Hu |].
    rewrite map_map.
    rewrite (map_ext _ Coupon.code); [exact Hu |].
    intros c. destruct (adminCouponsRouter.expired_active _ c); reflexivity.
Qed.

(** Renaming SUMMER50 to a free code keeps the sample coupons distinct; so
    does a request for the code of WELCOME20, which is refused. *)
Lemma coupon_codes_stay_unique_witness :
  coupon_codes_unique
    (fst (adminCouponsRouter.updateCoupon Sample.env "cadmin00001"
            (adminCouponsRouter.UpdateCoupon.mkInput "ccoupon0002"
               (Some "WINTER50") None None None None None None None None None
               None) Sample.db))
  /\ coupon_codes_unique
       (fst (adminCouponsRouter.updateCoupon Sample.env "cadmin00001"
               (adminCouponsRouter.UpdateCoupon.mkInput "ccoupon0002"
                  (Some "WELCOME20") None None None None None None None None
                  None None) Sample.db)).
Proof.
  assert (H0 : coupon_codes_unique Sample.db).
  { unfold coupon_codes_unique. simpl.
    repeat (constructor; [simpl; intuition discriminate |]). constructor. }
  destruct (coupon_codes_stay_unique Catalog.aenv "cadmin00001" Sample.db H0)
    as [_ [Hup _]].
  split; apply Hup.
Defined.

(** ** Expired coupons and the statistics *)

Lemma deactivated_none_expired (t : Date) (l : list Coupon.t) :
  filter (adminCouponsRouter.expired_active t)
    (map (fun c => if adminCouponsRouter.expired_active t c
                   then adminCouponsRouter.deactivate c else c) l) = [].
Proof.
  induction l as [| c l IH]; simpl; [reflexivity |].
  destruct (adminCouponsRouter.expired_active t c) eqn:Hc.
  - unfold adminCouponsRouter.expired_active at 1. simpl.
    rewrite andb_false_r. exact IH.
  - rewrite Hc. exact IH.
Qed.

Lemma deactivated_active (t : Date) (l : list Coupon.t) :
  (List.length
     (filter Coupon.isActive
        (map (fun c => if adminCouponsRouter.expired_active t c
                       then adminCouponsRouter.deactivate c else c) l))
   + List.length (filter (adminCouponsRouter.expired_active t) l)
   = List.length (filter Coupon.isActive l))%nat.
Proof.
  induction l as [| c l IH]; simpl; [reflexivity |].
  destruct (adminCouponsRouter.expired_active t c) eqn:Hc.
  - unfold adminCouponsRouter.expired_active in Hc.
    apply andb_prop in Hc. destruct Hc as [_ Hact]. rewrite Hact. simpl. lia.
  - destruct (Coupon.isActive c); simpl; lia.
Qed.

Lemma filter_all {A} (l : list A) : filter (fun _ => true) l = l.
Proof. induction l as [| x l IH]; simpl; [| rewrite IH]; reflexivity. Qed.

(** X12. When [deactivateExpiredCoupons] returns, the count it reports is the
    number of expired coupons that [getCouponStats] showed before the call;
    at the same instant the statistics afterwards show no expired coupon,
    that many fewer active coupons, and the same totals. *)
Theorem deactivateExpiredCoupons_clears_expired
    (aenv : AdminEnv) (adminId : Id) (d d' : Db) (n : Z) :
  adminCouponsRouter.deactivateExpiredCoupons aenv adminId d = (d', inr n) ->
  exists s0 s1,
    adminCouponsRouter.getCouponStats (env_of aenv) adminId d = (d, inr s0)
    /\ adminCouponsRouter.getCouponStats (env_of aenv) adminId d' = (d', inr s1)
    /\ n = adminCouponsRouter.GetCouponStats.expiredCoupons s0
    /\ adminCouponsRouter.GetCouponStats.expiredCoupons s1 = 0%Z
    /\ adminCouponsRouter.GetCouponStats.activeCoupons s1
       = (adminCouponsRouter.GetCouponStats.activeCoupons s0 - n)%Z
    /\ adminCouponsRouter.GetCouponStats.totalCoupons s1
       = adminCouponsRouter.GetCouponStats.totalCoupons s0
    /\ adminCouponsRouter.GetCouponStats.totalUsage s1
       = adminCouponsRouter.GetCouponStats.totalUsage s0.
Proof.
  intros Hrun. unfold adminCouponsRouter.deactivateExpiredCoupons in Hrun.
  repeat inv_more.
  match goal with
  | H : adminCouponsRouter.coupon_deactivateMany _ _ _ = _ |- _ =>
      unfold adminCouponsRouter.coupon_deactivateMany in H; repeat inv_more;
      inversion H; subst; clear H
  end.
  match goal with
  | H : auditLog_create _ _ _ = _ |- _ =>
      apply auditLog_create_ok in H; destruct H as [_ Hd']
  end.
  subst.
  unfold adminCouponsRouter.getCouponStats. unfold_proc.
  eexists. eexists. split; [reflexivity |]. split; [reflexivity |].
  simpl. unfold count.
  split; [reflexivity |].
  split; [rewrite deactivated_none_expired; reflexivity |].
  split.
  - pose proof (deactivated_active (now (env_of aenv)) (coupons d)). lia.
  - rewrite !filter_all, length_map. split; reflexivity.
Qed.

Lemma deactivateExpiredCoupons_clears_expired_witness :
  exists d' s1,
    adminCouponsRouter.deactivateExpiredCoupons Catalog.aenv_later "cadmin00001"
      Sample.db = (d', inr 1%Z)
    /\ adminCouponsRouter.getCouponStats (env_of Catalog.aenv_later)
         "cadmin00001" d' = (d', inr s1)
    /\ adminCouponsRouter.GetCouponStats.expiredCoupons s1 = 0%Z.
Proof.
  destruct (adminCouponsRouter.deactivateExpiredCoupons Catalog.aenv_later
              "cadmin00001" Sample.db) as [d' [ex | n]] eqn:Hrun;
    [vm_compute in Hrun; discriminate |].
  destruct (deactivateExpiredCoupons_clears_expired Catalog.aenv_later
              "cadmin00001" Sample.db d' n Hrun)
    as [s0 [s1 [_ [H1 [_ [He _]]]]]].
  exists d', s1. split; [| split; [exact H1 | exact He]].
  vm_compute in Hrun. inversion Hrun. reflexivity.
Defined.

(** ** Reordering lessons *)

Lemma update_first_none {A} (p : A -> bool) (f : A -> A) (l : list A) :
  find p l = None -> update_first p f l = None.
Proof.
  induction l as [| x l IH]; simpl; [reflexivity |].
  destruct (p x); [discriminate |]. intros H. rewrite (IH H). reflexivity.
Qed.


Lemma lesson_update_order_ok (aenv : AdminEnv) (i : Id) (o : Z) (d d' : Db)
    (u : unit) :
  adminCoursesRouter.lesson_update_order aenv i o d = (d', inr u) ->
  exists l,
    update_first (by_id_lesson i) (adminCoursesRouter.set_order o) (lessons d)
    = Some l
    /\ d' = set_lessons l d.
Proof.
  unfold adminCoursesRouter.lesson_update_order. intros H. repeat inv_more.
  destruct (update_first _ _ (lessons d)) as [l |]; inversion H.
  exists l. auto.
Qed.

Lemma update_orders_missing (aenv : AdminEnv) (i : Id) (o : Z)
    (ls : list (Id * Z)) (d : Db) :
  In (i, o) ls ->
  lesson_findUnique i d = None ->
  exists d1 e, adminCoursesRouter.update_orders aenv ls d = (d1, inl e).
Proof.
  revert d. induction ls as [| [j oj] ls IH]; intros d Hin Hnone;
    [contradiction |].
  simpl. unfold bind at 1.
  destruct (adminCoursesRouter.lesson_update_order aenv j oj d)
    as [d1 [e | u]] eqn:Hstep; [eauto |].
  apply lesson_update_order_ok in Hstep. destruct Hstep as [l [Hup Hd1]].
  destruct Hin as [Heq | Hin].
  - inversion Heq; subst j oj. unfold lesson_findUnique in Hnone.
    rewrite (update_first_none _ _ _ Hnone) in Hup. discriminate.
  - apply IH; [exact Hin |].
    unfold lesson_findUnique in *. subst d1. simpl.
    destruct (find (by_id_lesson i) l) as [x |] eqn:Hx; [| reflexivity].
    exfalso.
    pose proof (find_some _ _ Hx) as [Hxl Hxi].
    assert (Hids : map Lesson.id l = map Lesson.id (lessons d))
      by (eapply update_first_keys; [| exact Hup]; reflexivity).
    assert (Hi : In i (map Lesson.id (lessons d))).
    { rewrite <- Hids. apply id_eqb_eq in Hxi. rewrite <- Hxi.
      apply in_map. exact Hxl. }
    destruct (find_in_map_some Lesson.id i _ Hi) as [y Hy].
    unfold by_id_lesson in Hnone. rewrite Hy in Hnone. discriminate.
Qed.

(** X13. A reordering request that names a lesson id which does not exist
    fails with INTERNAL_SERVER_ERROR "Failed to update lesson order", and the
    updates made for the entries before it are rolled back: the database is
    as it was. *)
Theorem bulkUpdateLessonOrder_missing_lesson
    (aenv : AdminEnv) (adminId : Id)
    (input : adminCoursesRouter.BulkUpdateLessonOrder.input) (d : Db)
    (i : Id) (o : Z) :
  adminCoursesRouter.bulkUpdateLessonOrderSchema input = true ->
  In (i, o) (adminCoursesRouter.BulkUpdateLessonOrder.lessons input) ->
  lesson_findUnique i d = None ->
  adminCoursesRouter.bulkUpdateLessonOrder aenv adminId input d
  = (d, inl (TRPCError INTERNAL_SERVER_ERROR "Failed to update lesson order")).
Proof.
  intros Hschema Hin Hnone.
  destruct (update_orders_missing aenv i o _ d Hin Hnone) as [d1 [e Hrun]].
  unfold adminCoursesRouter.bulkUpdateLessonOrder, with_input.
  rewrite Hschema. unfold catch_all, bind, transaction. rewrite Hrun.
  reflexivity.
Qed.

Lemma bulkUpdateLessonOrder_missing_lesson_witness :
  adminCoursesRouter.bulkUpdateLessonOrder Catalog.aenv "cadmin00001"
    (adminCoursesRouter.BulkUpdateLessonOrder.mkInput "ccourse0001"
       [("clesson0001", 2%Z); ("clesson0009", 1%Z)]) Sample.db
  = (Sample.db,
     inl (TRPCError INTERNAL_SERVER_ERROR "Failed to update lesson order")).
Proof.
  apply (bulkUpdateLessonOrder_missing_lesson Catalog.aenv "cadmin00001" _
           Sample.db "clesson0009" 1%Z).
  - reflexivity.
  - simpl. right. left. reflexivity.
  - reflexivity.
Defined.




(** ** Review, publication and enrollment *)

Lemma update_first_some {A} (p : A -> bool) (f : A -> A) (l : list A) (x : A) :
  find p l = Some x -> exists l', update_first p f l = Some l'.
Proof.
  induction l as [| y l IH]; simpl; [discriminate |].
  destruct (p y); [eauto |].
  intros H. destruct (IH H) as [l' Hl']. rewrite Hl'. eauto.
Qed.

Lemma length_insert_by_order (x : Lesson.t) (l : list Lesson.t) :
  List.length (insert_by_order x l) = S (List.length l).
Proof.
  induction l as [| y l IH]; simpl; [reflexivity |].
  destruct (Lesson.order x <? Lesson.order y)%Z; simpl; [| rewrite IH];
    reflexivity.
Qed.

Lemma length_sort_by_order (l : list Lesson.t) :
  List.length (sort_by_order l) = List.length l.
Proof.
  induction l as [| x l IH]; simpl; [reflexivity |].
  rewrite length_insert_by_order, IH. reflexivity.
Qed.

Lemma forallb_insert_by_order (p : Lesson.t -> bool) (x : Lesson.t)
    (l : list Lesson.t) :
  forallb p (insert_by_order x l) = p x && forallb p l.
Proof.
  induction l as [| y l IH]; simpl; [reflexivity |].
  destruct (Lesson.order x <? Lesson.order y)%Z; simpl; [reflexivity |].
  rewrite IH. rewrite !andb_assoc, (andb_comm (p y)). reflexivity.
Qed.

Lemma forallb_sort_by_order (p : Lesson.t -> bool) (l : list Lesson.t) :
  forallb p (sort_by_order l) = forallb p l.
Proof.
  induction l as [| x l IH]; simpl; [reflexivity |].
  rewrite forallb_insert_by_order, IH. reflexivity.
Qed.

Lemma lessonsWithoutVideos_none (ls : list Lesson.t) :
  (0 <? List.length (uploadRouter.lessonsWithoutVideos ls))%nat
  = negb (forallb (fun lesson => truthy_str (Lesson.videoUrl lesson)) ls).
Proof.
  induction ls as [| x ls IH]; simpl; [reflexivity |].
  destruct (truthy_str (Lesson.videoUrl x)); simpl; [exact IH | reflexivity].
Qed.

(** The checklist of [publishCourse] is empty exactly when the checks of the
    review hold, the category apart. *)
Lemma validationErrors_nil (course : Course.t) (ls : list Lesson.t) :
  (0 <? List.length (uploadRouter.validationErrors course ls))%nat
  = negb (negb (String.eqb (Course.title course) "")
          && negb (String.eqb (Course.description course) "")
          && truthy_str (Course.thumbnail course)
          && (0 <? List.length ls)%nat
          && forallb (fun lesson => truthy_str (Lesson.videoUrl lesson)) ls
          && (Course.isFree course || Qgtb (Course.price course) 0)).
Proof.
  unfold uploadRouter.validationErrors, Qgtb.
  rewrite lessonsWithoutVideos_none.
  destruct (String.eqb (Course.title course) "");
    destruct (String.eqb (Course.description course) "");
    destruct (truthy_str (Course.thumbnail course));
    destruct ls as [| l ls];
    destruct (Course.isFree course);
    destruct (Qle_bool (Course.price course) 0);
    simpl; try reflexivity;
    destruct (truthy_str (Lesson.videoUrl l)); simpl; try reflexivity;
    destruct (forallb _ ls); reflexivity.
Qed.

Lemma publishCourse_true_runs (env : Env) (adminId courseId : Id) (d : Db)
    (course : Course.t) :
  rejects env CourseUpdate = false ->
  rejects env AuditLogCreate = false ->
  course_findUnique courseId d = Some course ->
  (0 <? List.length
          (uploadRouter.validationErrors course (lessons_of courseId d)))%nat
  = false ->
  exists d' r,
    uploadRouter.publishCourse env adminId
      (uploadRouter.PublishCourse.mkInput courseId true) d = (d', inr r)
    /\ Course.published (uploadRouter.PublishCourse.course r) = true.
Proof.
  intros Hcu Haud Hcourse Hok.
  unfold course_findUnique in Hcourse.
  destruct (update_first_some (by_id_course courseId)
              (uploadRouter.set_published true) _ _ Hcourse) as [l' Hup].
  unfold uploadRouter.publishCourse, course_update, auditLog_create, statement.
  unfold_proc. unfold course_findUnique. simpl. rewrite Hcourse, Hok, Hcu.
  simpl. rewrite Hcourse, Hup, Haud. simpl.
  eexists. eexists. split; reflexivity.
Qed.

(** X15. The review screen and the publication agree: when
    [getCourseForReview] reports [isReadyToPublish], [publishCourse] with
    [published: true] succeeds (if the database rejects no statement) and
    returns the course published; and when [publishCourse] succeeds for a
    course that has a category, the review reports it ready. *)
Theorem review_agrees_with_publishCourse
    (env : Env) (adminId courseId : Id) (d : Db)
    (out : uploadRouter.GetCourseForReview.output) :
  rejects env CourseUpdate = false ->
  rejects env AuditLogCreate = false ->
  uploadRouter.getCourseForReview env adminId courseId d = (d, inr out) ->
  (uploadRouter.GetCourseForReview.isReadyToPublish out = true ->
   exists d' r,
     uploadRouter.publishCourse env adminId
       (uploadRouter.PublishCourse.mkInput courseId true) d = (d', inr r)
     /\ Course.published (uploadRouter.PublishCourse.course r) = true)
  /\ (Course.categoryId (uploadRouter.GetCourseForReview.course out) <> "" ->
      (exists d' r,
         uploadRouter.publishCourse env adminId
           (uploadRouter.PublishCourse.mkInput courseId true) d = (d', inr r)) ->
      uploadRouter.GetCourseForReview.isReadyToPublish out = true).
Proof.
  intros Hcu Haud Hrev.
  unfold uploadRouter.getCourseForReview in Hrev. repeat inv_more.
  destruct (course_findUnique courseId d) as [course |] eqn:Hcourse;
    [| discriminate].
  repeat inv_more.
  match goal with
  | H : Some ?a = Some ?b |- _ =>
      assert (Hab : b = a) by congruence; subst b; clear H
  end.
  simpl.
  pose proof (validationErrors_nil course (lessons_of courseId d)) as Hval.
  unfold uploadRouter.isReadyToPublish, uploadRouter.completionChecks,
    course_lessons. simpl.
  rewrite length_sort_by_order, forallb_sort_by_order.
  fold (lessons_of courseId d).
  split.
  - intros Hready.
    apply (publishCourse_true_runs env adminId courseId d course Hcu Haud Hcourse).
    rewrite Hval. apply negb_false_iff.
    repeat (apply andb_prop in Hready; destruct Hready as [? Hready]).
    repeat match goal with
           | H : _ && _ = true |- _ => apply andb_prop in H; destruct H
           end.
    repeat (apply andb_true_intro; split); assumption.
  - intros Hcat [d' [r Hrun]].
    unfold uploadRouter.publishCourse in Hrun. simpl in Hrun.
    repeat inv_more.
    repeat match goal with
           | H : Some ?a = Some ?b |- _ =>
               assert (Hab : a = b) by congruence; subst a; clear H
           end.
    match goal with
    | H : (0 <? _)%nat = false |- _ => rewrite Hval in H;
        apply negb_false_iff in H
    end.
    repeat match goal with
           | H : _ && _ = true |- _ => apply andb_prop in H; destruct H
           end.
    assert (Hc : negb (String.eqb (Course.categoryId course) "") = true).
    { apply negb_true_iff. apply String.eqb_neq. exact Hcat. }
    repeat (apply andb_true_intro; split); auto.
Qed.

Lemma review_agrees_with_publishCourse_witness :
  exists out,
    uploadRouter.getCourseForReview Sample.env "cadmin00001" "ccourse0001"
      Sample.db = (Sample.db, inr out)
    /\ uploadRouter.GetCourseForReview.isReadyToPublish out = false
    /\ forall d' r,
         uploadRouter.publishCourse Sample.env "cadmin00001"
           (uploadRouter.PublishCourse.mkInput "ccourse0001" true) Sample.db
         <> (d', inr r).
Proof.
  destruct (uploadRouter.getCourseForReview Sample.env "cadmin00001"
              "ccourse0001" Sample.db) as [d0 [ex | out]] eqn:Hrev;
    [vm_compute in Hrev; discriminate |].
  assert (Hd0 : d0 = Sample.db)
    by (vm_compute in Hrev; inversion Hrev; reflexivity).
  subst d0. exists out. split; [reflexivity |].
  assert (Hnot : uploadRouter.GetCourseForReview.isReadyToPublish out = false).
  { vm_compute in Hrev. inversion Hrev. reflexivity. }
  split; [exact Hnot |].
  intros d' r Hrun.
  assert (Hcat : Course.categoryId (uploadRouter.GetCourseForReview.course out)
                 <> "").
  { vm_compute in Hrev. inversion Hrev. simpl. discriminate. }
  pose proof (proj2 (review_agrees_with_publishCourse Sample.env "cadmin00001"
                       "ccourse0001" Sample.db out eq_refl eq_refl Hrev)
                Hcat (ex_intro _ d' (ex_intro _ r Hrun))) as Hready.
  congruence.
Defined.

Lemma createLesson_ok (aenv : AdminEnv) (adminId : Id)
    (input : adminCoursesRouter.CreateLesson.input) (d d' : Db)
    (lesson : Lesson.t) :
  adminCoursesRouter.createLesson aenv adminId input d = (d', inr lesson) ->
  (exists course,
     course_findUnique (adminCoursesRouter.CreateLesson.courseId input) d
     = Some course)
  /\ lesson = Lesson.mk (cuid (idCounter d))
                (adminCoursesRouter.CreateLesson.courseId input)
                (adminCoursesRouter.CreateLesson.order input)
                (adminCoursesRouter.CreateLesson.videoUrl input)
                (adminCoursesRouter.CreateLesson.isRequired input)
  /\ lessons d' = (lessons d ++ [lesson])%list
  /\ courses d' = courses d
  /\ enrollments d' = enrollments d
  /\ lessonProgresses d' = lessonProgresses d.
Proof.
  unfold adminCoursesRouter.createLesson. intros Hrun. repeat inv_more.
  destruct (course_findUnique _ d) as [course |] eqn:Hcourse;
    [| discriminate].
  repeat inv_more.
  match goal with
  | H : adminCoursesRouter.lesson_create _ _ _ = _ |- _ =>
      unfold adminCoursesRouter.lesson_create in H; repeat inv_more;
      inversion H; subst; clear H
  end.
  match goal with
  | H : auditLog_create _ _ _ = _ |- _ =>
      apply auditLog_create_ok in H; destruct H as [_ Hd']
  end.
  subst. simpl. split; [eauto |]. repeat (split; [reflexivity |]). reflexivity.
Qed.

(** X16. A lesson that [createLesson] adds without a video blocks the
    publication of its course: [publishCourse] with [published: true] then
    fails with BAD_REQUEST and writes nothing.  The courses themselves are
    not touched by [createLesson], so a course that was published stays
    published. *)
Theorem createLesson_without_video_blocks_publishCourse
    (aenv : AdminEnv) (env : Env) (adminId : Id)
    (input : adminCoursesRouter.CreateLesson.input) (d d' : Db)
    (lesson : Lesson.t) :
  adminCoursesRouter.createLesson aenv adminId input d = (d', inr lesson) ->
  truthy_str (adminCoursesRouter.CreateLesson.videoUrl input) = false ->
  courses d' = courses d
  /\ exists msg,
       uploadRouter.publishCourse env adminId
         (uploadRouter.PublishCourse.mkInput
            (adminCoursesRouter.CreateLesson.courseId input) true) d'
       = (d', inl (TRPCError BAD_REQUEST msg)).
Proof.
  intros Hrun Hvideo. apply createLesson_ok in Hrun.
  destruct Hrun as [[course Hcourse] [Hl [Hls [Hcs _]]]].
  split; [exact Hcs |].
  apply (publishCourse_requires_videos env adminId d'
           (uploadRouter.PublishCourse.mkInput
              (adminCoursesRouter.CreateLesson.courseId input) true)
           course lesson).
  - reflexivity.
  - unfold course_findUnique in *. simpl. rewrite Hcs. exact Hcourse.
  - rewrite Hls. apply in_or_app. right. left. reflexivity.
  - subst lesson. reflexivity.
  - subst lesson. exact Hvideo.
Qed.

Lemma createLesson_without_video_blocks_publishCourse_witness :
  exists d' lesson msg,
    adminCoursesRouter.createLesson Catalog.aenv "cadmin00001"
      (adminCoursesRouter.CreateLesson.mkInput "ccourse0001" "Passing" 3%Z None
         true) Sample.db = (d', inr lesson)
    /\ uploadRouter.publishCourse Sample.env "cadmin00001"
         (uploadRouter.PublishCourse.mkInput "ccourse0001" true) d'
       = (d', inl (TRPCError BAD_REQUEST msg)).
Proof.
  destruct (adminCoursesRouter.createLesson Catalog.aenv "cadmin00001"
              (adminCoursesRouter.CreateLesson.mkInput "ccourse0001" "Passing"
                 3%Z None true) Sample.db) as [d' [ex | lesson]] eqn:Hrun;
    [vm_compute in Hrun; discriminate |].
  destruct (createLesson_without_video_blocks_publishCourse Catalog.aenv
              Sample.env "cadmin00001" _ Sample.db d' lesson Hrun eq_refl)
    as [_ [msg Hmsg]].
  exists d', lesson, msg. split; [reflexivity | exact Hmsg].
Defined.

Lemma course_update_ok (env : Env) (i : Id) (f : Course.t -> Course.t)
    (d d' : Db) (c : Course.t) :
  course_update env i f d = (d', inr c) ->
  exists old l,
    course_findUnique i d = Some old
    /\ update_first (by_id_course i) f (courses d) = Some l
    /\ c = f old
    /\ d' = set_courses l d.
Proof.
  unfold course_update. intros H. repeat inv_more.
  unfold course_findUnique.
  destruct (find (by_id_course i) (courses d)) as [old |]; [| discriminate].
  destruct (update_first _ _ (courses d)) as [l |]; inversion H.
  exists old, l. auto.
Qed.

(** X17. After [publishCourse] has unpublished a course, [enrollCourse]
    refuses every user who is not yet enrolled in it: BAD_REQUEST "Course is
    not available for enrollment", with or without a coupon code, and
    nothing is written. *)
Theorem unpublished_course_refuses_enrollment
    (env env' : Env) (adminId userId courseId : Id) (d d' : Db)
    (r : uploadRouter.PublishCourse.output) (couponCode : option string) :
  uploadRouter.publishCourse env adminId
    (uploadRouter.PublishCourse.mkInput courseId false) d = (d', inr r) ->
  enrollment_findUnique userId courseId d = None ->
  studentRouter.enrollCourse env' userId
    (studentRouter.EnrollCourse.mkInput courseId couponCode) d'
  = (d', inl (TRPCError BAD_REQUEST "Course is not available for enrollment")).
Proof.
  intros Hrun Hnone. unfold uploadRouter.publishCourse in Hrun.
  simpl in Hrun. repeat inv_more.
  match goal with
  | H : course_update _ _ _ _ = _ |- _ =>
      apply course_update_ok in H;
      destruct H as [old [l [Hold [Hup [Hc Hd1]]]]]
  end.
  match goal with
  | H : auditLog_create _ _ _ = _ |- _ =>
      apply auditLog_create_ok in H; destruct H as [_ Hd']
  end.
  destruct (update_first_find_same _ _ _ _ Hup) as [x [Hx Hx']];
    [reflexivity |].
  unfold studentRouter.enrollCourse. unfold_proc.
  unfold enrollment_findUnique, course_findUnique in *. subst. simpl in *.
  rewrite Hnone. simpl. rewrite Hx'. reflexivity.
Qed.

Lemma unpublished_course_refuses_enrollment_witness :
  exists d' r,
    uploadRouter.publishCourse Sample.env "cadmin00001"
      (uploadRouter.PublishCourse.mkInput "ccourse0001" false) Sample.db
    = (d', inr r)
    /\ studentRouter.enrollCourse Sample.env "cuser000001"
         (studentRouter.EnrollCourse.mkInput "ccourse0001" (Some "WELCOME20")) d'
       = (d', inl (TRPCError BAD_REQUEST
                     "Course is not available for enrollment")).
Proof.
  destruct (uploadRouter.publishCourse Sample.env "cadmin00001"
              (uploadRouter.PublishCourse.mkInput "ccourse0001" false)
              Sample.db) as [d' [ex | r]] eqn:Hrun;
    [vm_compute in Hrun; discriminate |].
  exists d', r. split; [reflexivity |].
  exact (unpublished_course_refuses_enrollment Sample.env Sample.env
           "cadmin00001" "cuser000001" "ccourse0001" Sample.db d' r
           (Some "WELCOME20") Hrun eq_refl).
Defined.

(** ** Who may study a course *)

Lemma find_none_filter_nil {A} (p : A -> bool) (l : list A) :
  find p l = None -> filter p l = [].
Proof.
  induction l as [| x l IH]; simpl; [reflexivity |].
  destruct (p x); [discriminate | exact IH].
Qed.

(** X18. For a lesson of a course in which the user is not enrolled, the
    four procedures that read or track progress answer FORBIDDEN and leave
    the database as it is: [updateLessonProgress], [markLessonComplete],
    [getLessonForStudy] and, for the course, [getCourseProgress]. *)
Theorem not_enrolled_is_forbidden
    (env : Env) (userId lessonId : Id) (lesson : Lesson.t) (d : Db) :
  lesson_findUnique lessonId d = Some lesson ->
  enrollment_findUnique userId (Lesson.courseId lesson) d = None ->
  (forall input,
     studentRouter.UpdateLessonProgress.lessonId input = lessonId ->
     studentRouter.updateProgressSchema input = true ->
     studentRouter.updateLessonProgress env userId input d
     = (d, inl (TRPCError FORBIDDEN
                  "You must be enrolled in this course to track progress")))
  /\ (forall input,
        studentRouter.MarkLessonComplete.lessonId input = lessonId ->
        studentRouter.markLessonCompleteSchema input = true ->
        studentRouter.markLessonComplete env userId input d
        = (d, inl (TRPCError FORBIDDEN "You must be enrolled in this course")))
  /\ studentRouter.getLessonForStudy env userId lessonId d
     = (d, inl (TRPCError FORBIDDEN
                  "You must be enrolled in this course to access lessons"))
  /\ studentRouter.getCourseProgress env userId (Lesson.courseId lesson) d
     = (d, inl (TRPCError FORBIDDEN "You are not enrolled in this course")).
Proof.
  intros Hlesson Hnone.
  pose proof (find_none_filter_nil _ _ Hnone) as Hnil.
  unfold enrollment_findUnique in Hnone.
  split; [| split; [| split]].
  - intros input Hid Hschema.
    unfold studentRouter.updateLessonProgress, with_input.
    rewrite Hschema, Hid. unfold_proc. rewrite Hlesson, Hnil. reflexivity.
  - intros input Hid Hschema.
    unfold studentRouter.markLessonComplete, with_input.
    rewrite Hschema, Hid. unfold_proc. rewrite Hlesson, Hnil. reflexivity.
  - unfold studentRouter.getLessonForStudy. unfold_proc.
    rewrite Hlesson, Hnil. reflexivity.
  - unfold studentRouter.getCourseProgress. unfold_proc.
    unfold enrollment_findUnique. rewrite Hnone. reflexivity.
Qed.

Lemma not_enrolled_is_forbidden_witness :
  studentRouter.getLessonForStudy Sample.env "cuser000001" "clesson0001"
    Sample.db
  = (Sample.db,
     inl (TRPCError FORBIDDEN
            "You must be enrolled in this course to access lessons"))
  /\ studentRouter.markLessonComplete Sample.env "cuser000001"
       (studentRouter.MarkLessonComplete.mkInput "clesson0001" 60%Z) Sample.db
     = (Sample.db,
        inl (TRPCError FORBIDDEN "You must be enrolled in this course")).
Proof.
  destruct (not_enrolled_is_forbidden Sample.env "cuser000001" "clesson0001"
              Sample.warmup Sample.db eq_refl eq_refl)
    as [_ [Hmark [Hstudy _]]].
  split; [exact Hstudy |].
  apply Hmark; reflexivity.
Defined.



(** ** The progress view after enrolling and after completing a lesson *)

Lemma existsb_false_find_none {A} (p : A -> bool) (l : list A) :
  existsb p l = false -> find p l = None.
Proof.
  induction l as [| x l IH]; simpl; [reflexivity |].
  destruct (p x); [discriminate | exact IH].
Qed.

Lemma studentProgress_create_fresh (env : Env) (userId courseId : Id)
    (w : Z) (r : Q) (d d' : Db) (row : StudentProgress.t) :
  studentProgress_create env userId courseId w r d = (d', inr row) ->
  studentProgress_findUnique userId courseId d = None.
Proof.
  unfold studentProgress_create. intros H. repeat inv_step.
  unfold studentProgress_findUnique. apply existsb_false_find_none.
  destruct (existsb _ (studentProgresses d)); [discriminate | reflexivity].
Qed.

Lemma lessonProgress_createMany_fresh (env : Env)
    (rows : list LessonProgress.t) (d d' : Db) (u : unit) :
  lessonProgress_createMany env rows d = (d', inr u) ->
  exists t, insert_all rows (lessonProgresses d) = Some t.
Proof.
  unfold lessonProgress_createMany. intros H. repeat inv_step.
  destruct (insert_all rows (lessonProgresses d)) as [t |];
    [eauto | discriminate].
Qed.

Lemma enrollCourse_fresh_progress (env : Env) (userId : Id)
    (input : studentRouter.EnrollCourse.input) (d d' : Db) (e : Enrollment.t) :
  studentRouter.enrollCourse env userId input d = (d', inr e) ->
  studentProgress_findUnique userId (studentRouter.EnrollCourse.courseId input) d
  = None
  /\ exists t,
       insert_all
         (map (studentRouter.initial_lessonProgress userId
                 (cuid (S (idCounter d))))
              (course_lessons (studentRouter.EnrollCourse.courseId input) d))
         (lessonProgresses d) = Some t.
Proof.
  intros Hrun. unfold studentRouter.enrollCourse in Hrun.
  repeat inv_step.
  all: match goal with
       | He : enrollment_create _ _ _ _ _ = _,
         Hs : studentProgress_create _ _ _ _ _ _ = _ |- _ =>
           apply enrollment_create_ok in He; destruct He as [_ Hd3];
           pose proof (studentProgress_create_fresh _ _ _ _ _ _ _ _ Hs) as Hfresh;
           apply studentProgress_create_ok in Hs; destruct Hs as [Hsp Hd4]
       end.
  all: split;
    [ subst; unfold studentProgress_findUnique in *; simpl in *; exact Hfresh
    | ].
  all: try match goal with
       | Hc : lessonProgress_createMany _ _ _ = _ |- _ =>
           apply lessonProgress_createMany_fresh in Hc;
           destruct Hc as [t' Ht']; exists t'; subst; simpl in *; exact Ht'
       end.
  all: match goal with
       | Hl : (0 <? _)%nat = false |- _ =>
           apply length_zero_nil in Hl; rewrite Hl; simpl; eauto
       end.
Qed.








(** ** One progress row per user and lesson *)

Lemma klu_refl (d : Db) : keeps_lessonProgress_unique d d.
Proof. intros H. exact H. Qed.

Lemma klu_trans (a b c : Db) :
  keeps_lessonProgress_unique a b -> keeps_lessonProgress_unique b c ->
  keeps_lessonProgress_unique a c.
Proof. unfold keeps_lessonProgress_unique. auto. Qed.

Lemma klu_same (d d' : Db) :
  lessonProgresses d' = lessonProgresses d -> keeps_lessonProgress_unique d d'.
Proof.
  unfold keeps_lessonProgress_unique, lessonProgress_unique.
  intros H. rewrite H. auto.
Qed.

Lemma by_user_lesson_key (p q : LessonProgress.t) :
  by_user_lesson (LessonProgress.userId p) (LessonProgress.lessonId p) q = true
  <-> lessonProgress_key q = lessonProgress_key p.
Proof.
  unfold by_user_lesson, lessonProgress_key. rewrite andb_true_iff.
  rewrite !id_eqb_eq. split.
  - intros [H1 H2]. congruence.
  - intros H. inversion H. auto.
Qed.

Lemma by_user_lesson_key' (userId lessonId : Id) (q : LessonProgress.t) :
  by_user_lesson userId lessonId q = true
  <-> lessonProgress_key q = (userId, lessonId).
Proof.
  unfold by_user_lesson, lessonProgress_key. rewrite andb_true_iff.
  rewrite !id_eqb_eq. split.
  - intros [H1 H2]. congruence.
  - intros H. inversion H. auto.
Qed.

Lemma find_none_key (userId lessonId : Id) (l : list LessonProgress.t) :
  find (by_user_lesson userId lessonId) l = None ->
  ~ In (userId, lessonId) (map lessonProgress_key l).
Proof.
  intros Hfind Hin. apply in_map_iff in Hin. destruct Hin as [q [Hk Hq]].
  pose proof (find_none _ _ Hfind q Hq) as Hf.
  apply by_user_lesson_key' in Hk. congruence.
Qed.

Lemma insert_all_NoDup (rows table t : list LessonProgress.t) :
  insert_all rows table = Some t ->
  NoDup (map lessonProgress_key table) ->
  NoDup (map lessonProgress_key (table ++ rows)).
Proof.
  revert table. induction rows as [| r rows IH]; intros table H Hnd.
  - rewrite app_nil_r. exact Hnd.
  - simpl in H. destruct (existsb _ table) eqn:Hex; [discriminate |].
    replace (table ++ r :: rows)%list with ((table ++ [r]) ++ rows)%list
      by (rewrite <- app_assoc; reflexivity).
    apply IH; [exact H |].
    rewrite map_app. simpl. apply NoDup_snoc; [exact Hnd |].
    apply find_none_key. apply existsb_false_find_none. exact Hex.
Qed.

Lemma preserves_klu_statement (env : Env) (s : Stmt) :
  preserves keeps_lessonProgress_unique (statement env s).
Proof.
  apply preserves_readonly; [apply klu_refl |].
  unfold statement. apply readonly_throw_if.
Qed.

Lemma preserves_klu_lessonProgress_upsert (env : Env) (userId lessonId : Id)
    (update : LessonProgress.t -> LessonProgress.t) (create : LessonProgress.t) :
  (forall x, lessonProgress_key (update x) = lessonProgress_key x) ->
  lessonProgress_key create = (userId, lessonId) ->
  preserves keeps_lessonProgress_unique
    (lessonProgress_upsert env userId lessonId update create).
Proof.
  intros Hup Hcreate. unfold lessonProgress_upsert.
  apply preserves_bind; [apply klu_trans | apply preserves_klu_statement |].
  intros _ d Hu. unfold lessonProgress_unique in *.
  destruct (find _ (lessonProgresses d)) as [old |] eqn:Hfind.
  - destruct (update_first_some _ update _ _ Hfind) as [l Hl].
    rewrite Hl. simpl.
    rewrite (update_first_keys lessonProgress_key _ _ _ _ Hup Hl). exact Hu.
  - simpl. rewrite map_app. simpl. apply NoDup_snoc; [exact Hu |].
    rewrite Hcreate. apply find_none_key. exact Hfind.
Qed.

Lemma preserves_klu_studentProgress_update (env : Env)
    (p : StudentProgress.t -> bool) (f : StudentProgress.t -> StudentProgress.t) :
  preserves keeps_lessonProgress_unique (studentProgress_update env p f).
Proof.
  unfold studentProgress_update.
  apply preserves_bind; [apply klu_trans | apply preserves_klu_statement |].
  intros _ d. apply klu_same.
  destruct (update_first p f (studentProgresses d)); reflexivity.
Qed.

Lemma preserves_klu_enrollment_update (env : Env) (p : Enrollment.t -> bool)
    (f : Enrollment.t -> Enrollment.t) :
  preserves keeps_lessonProgress_unique (enrollment_update env p f).
Proof.
  unfold enrollment_update.
  apply preserves_bind; [apply klu_trans | apply preserves_klu_statement |].
  intros _ d. apply klu_same.
  destruct (update_first p f (enrollments d)); reflexivity.
Qed.

Lemma preserves_klu_updateCourseProgress (env : Env) (userId courseId : Id) :
  preserves keeps_lessonProgress_unique (updateCourseProgress env userId courseId).
Proof.
  pose proof klu_refl as Hrefl. pose proof klu_trans as Htrans.
  unfold updateCourseProgress.
  repeat first
    [ apply preserves_klu_studentProgress_update
    | apply preserves_klu_enrollment_update
    | preserves_step ].
Qed.

Lemma preserves_klu_updateLessonProgress (env : Env) (userId : Id)
    (input : studentRouter.UpdateLessonProgress.input) :
  preserves keeps_lessonProgress_unique
    (studentRouter.updateLessonProgress env userId input).
Proof.
  pose proof klu_refl as Hrefl. pose proof klu_trans as Htrans.
  unfold studentRouter.updateLessonProgress.
  repeat first
    [ apply preserves_klu_studentProgress_update
    | apply preserves_klu_lessonProgress_upsert; [reflexivity | reflexivity]
    | apply preserves_klu_updateCourseProgress
    | preserves_step ].
Qed.

Lemma preserves_klu_markLessonComplete (env : Env) (userId : Id)
    (input : studentRouter.MarkLessonComplete.input) :
  preserves keeps_lessonProgress_unique
    (studentRouter.markLessonComplete env userId input).
Proof.
  pose proof klu_refl as Hrefl. pose proof klu_trans as Htrans.
  unfold studentRouter.markLessonComplete.
  repeat first
    [ apply preserves_klu_lessonProgress_upsert; [reflexivity | reflexivity]
    | apply preserves_klu_updateCourseProgress
    | preserves_step ].
Qed.

Lemma preserves_klu_enrollCourse (env : Env) (userId : Id)
    (input : studentRouter.EnrollCourse.input) :
  preserves keeps_lessonProgress_unique
    (studentRouter.enrollCourse env userId input).
Proof.
  intros d Hu.
  destruct (studentRouter.enrollCourse env userId input d)
    as [d' [ex | e]] eqn:Hrun; simpl.
  - rewrite (enrollCourse_atomic env userId input d d' ex Hrun). exact Hu.
  - destruct (enrollCourse_fresh_progress _ _ _ _ _ _ Hrun) as [_ [t Hins]].
    apply enrollCourse_success in Hrun.
    destruct Hrun as [course [applied [_ [_ [_ [_ Henr]]]]]].
    destruct Henr as [_ [_ [_ [Hlps _]]]].
    unfold lessonProgress_unique in *. rewrite Hlps.
    eapply insert_all_NoDup; [exact Hins | exact Hu].
Qed.

(** X21. The writing procedures of the student router keep the progress
    rows unique per user and lesson: after [enrollCourse],
    [updateLessonProgress] or [markLessonComplete], whether the call returns
    or throws, no user has two progress rows for one lesson if none had
    before. *)
Theorem lessonProgress_stays_unique (d : Db) (c : student_call) :
  lessonProgress_unique d -> lessonProgress_unique (after_call d c).
Proof.
  intros Hu. destruct c as [env userId input | env userId input
                           | env userId input]; simpl.
  - apply (preserves_klu_enrollCourse env userId input d Hu).
  - apply (preserves_klu_updateLessonProgress env userId input d Hu).
  - apply (preserves_klu_markLessonComplete env userId input d Hu).
Qed.

Lemma lessonProgress_stays_unique_witness :
  lessonProgress_unique
    (after_call Sample.db_enrolled
       (MarkLessonComplete Sample.env "cuser000001"
          (studentRouter.MarkLessonComplete.mkInput "clesson0001" 120%Z))).
Proof.
  apply lessonProgress_stays_unique.
  unfold lessonProgress_unique. simpl.
  repeat (constructor; [simpl; intuition discriminate |]). constructor.
Defined.

(** ** The completion rate is a percentage *)

Lemma NoDup_lessonIds (userId : Id) (l : list LessonProgress.t) :
  (forall p, In p l -> LessonProgress.userId p = userId) ->
  NoDup (map lessonProgress_key l) ->
  NoDup (map LessonProgress.lessonId l).
Proof.
  induction l as [| x l IH]; simpl; intros Hu Hnd; [constructor |].
  inversion Hnd as [| ? ? Hx Hl]; subst.
  constructor.
  - intros Hin. apply Hx. apply in_map_iff in Hin.
    destruct Hin as [y [Hy Hyl]]. apply in_map_iff. exists y.
    split; [| exact Hyl]. unfold lessonProgress_key.
    rewrite Hy, (Hu y), (Hu x); auto.
  - apply IH; auto.
Qed.

Lemma count_completed_le (userId courseId : Id) (d : Db) :
  lessonProgress_unique d ->
  (0 <= count_completed userId courseId d <= count_lessons courseId d)%Z.
Proof.
  intros Hu. unfold count_completed, count_lessons, count.
  set (done := filter _ (lessonProgresses d)).
  set (ls := filter _ (lessons d)).
  split; [lia |]. apply Nat2Z.inj_le.
  rewrite <- (length_map LessonProgress.lessonId done).
  rewrite <- (length_map Lesson.id ls).
  apply NoDup_incl_length.
  - apply (NoDup_lessonIds userId).
    + intros p Hp. apply filter_In in Hp. destruct Hp as [_ Hp].
      apply andb_prop in Hp. destruct Hp as [Hp _].
      apply andb_prop in Hp. destruct Hp as [Hp _].
      apply id_eqb_eq. exact Hp.
    + apply NoDup_map_filter. exact Hu.
  - intros i Hi. apply in_map_iff in Hi. destruct Hi as [p [Hpi Hp]].
    apply filter_In in Hp. destruct Hp as [_ Hp].
    apply andb_prop in Hp. destruct Hp as [Hp _].
    apply andb_prop in Hp. destruct Hp as [_ Hp].
    unfold lesson_in_course in Hp.
    destruct (lesson_findUnique (LessonProgress.lessonId p) d) as [l |] eqn:Hl;
      [| discriminate].
    unfold lesson_findUnique in Hl. apply find_some in Hl.
    destruct Hl as [Hin Hid]. apply id_eqb_eq in Hid.
    apply in_map_iff. exists l. split; [congruence |].
    apply filter_In. split; assumption.
Qed.

Lemma rate_in_bounded (userId courseId : Id) (d : Db) (rate : Q) :
  lessonProgress_unique d ->
  rate_in userId courseId d rate ->
  0 <= rate /\ rate <= 100.
Proof.
  intros Hu [Hpos Hzero].
  destruct (count_completed_le userId courseId d Hu) as [H0 Hle].
  destruct (Z.eq_dec (count_lessons courseId d) 0) as [Hz | Hnz].
  - rewrite (Hzero Hz). split; unfold Qle; simpl; lia.
  - assert (Hlt : (0 < count_lessons courseId d)%Z) by lia.
    rewrite (Hpos Hlt).
    set (a := count_completed userId courseId d) in *.
    set (b := count_lessons courseId d) in *.
    assert (Hb : 0 < inject_Z b) by (unfold Qlt; simpl; lia).
    assert (Hfrac0 : 0 <= inject_Z a / inject_Z b).
    { apply Qle_shift_div_l; [exact Hb |]. rewrite Qmult_0_l.
      unfold Qle; simpl; lia. }
    assert (Hfrac1 : inject_Z a / inject_Z b <= 1).
    { apply Qle_shift_div_r; [exact Hb |]. rewrite Qmult_1_l.
      unfold Qle; simpl; lia. }
    split.
    + apply Qmult_le_0_compat; [exact Hfrac0 | unfold Qle; simpl; lia].
    + setoid_replace (100 : Q) with (1 * 100) at 2 by reflexivity.
      apply Qmult_le_compat_r; [exact Hfrac1 | unfold Qle; simpl; lia].
Qed.

(** X22. In a database with at most one progress row per user and lesson,
    the completion rate that [updateLessonProgress] and
    [markLessonComplete] store on success lies between 0 and 100. *)
Theorem completionRate_is_a_percentage (env : Env) (userId : Id) (d d' : Db)
    (r : LessonProgress.t) :
  lessonProgress_unique d ->
  (forall input,
     studentRouter.updateLessonProgress env userId input d = (d', inr r) ->
     exists lesson sp,
       lesson_findUnique (studentRouter.UpdateLessonProgress.lessonId input) d
       = Some lesson
       /\ studentProgress_findUnique userId (Lesson.courseId lesson) d'
          = Some sp
       /\ 0 <= StudentProgress.completionRate sp
       /\ StudentProgress.completionRate sp <= 100)
  /\ (forall input,
        studentRouter.markLessonComplete env userId input d = (d', inr r) ->
        exists lesson sp,
          lesson_findUnique (studentRouter.MarkLessonComplete.lessonId input) d
          = Some lesson
          /\ studentProgress_findUnique userId (Lesson.courseId lesson) d'
             = Some sp
          /\ 0 <= StudentProgress.completionRate sp
          /\ StudentProgress.completionRate sp <= 100).
Proof.
  intros Hu. split; intros input H.
  - assert (Hu' : lessonProgress_unique d').
    { pose proof (preserves_klu_updateLessonProgress env userId input d Hu)
        as Hk. rewrite H in Hk. exact Hk. }
    unfold studentRouter.updateLessonProgress in H. repeat inv_step.
    all: match goal with
         | Hc : updateCourseProgress _ _ _ _ = _,
           Ht : studentProgress_update _ _ _ _ = _,
           Hl : lesson_findUnique _ _ = Some ?t |- _ =>
             exists t; apply rate_after_updateCourseProgress in Hc;
             destruct (rate_after_touch _ _ _ _ _ _ _ _ Ht Hc) as [sp [Hf Hr]];
             exists sp; split; [reflexivity |]; split; [exact Hf |];
             exact (rate_in_bounded _ _ _ _ Hu' Hr)
         end.
  - assert (Hu' : lessonProgress_unique d').
    { pose proof (preserves_klu_markLessonComplete env userId input d Hu)
        as Hk. rewrite H in Hk. exact Hk. }
    unfold studentRouter.markLessonComplete in H. repeat inv_step.
    all: match goal with
         | Hc : updateCourseProgress _ _ _ _ = _,
           Hl : lesson_findUnique _ _ = Some ?t |- _ =>
             exists t; apply rate_after_updateCourseProgress in Hc;
             destruct Hc as [sp [Hf Hr]];
             exists sp; split; [reflexivity |]; split; [exact Hf |];
             exact (rate_in_bounded _ _ _ _ Hu' Hr)
         end.
Qed.

Lemma completionRate_is_a_percentage_witness :
  exists d' r sp,
    studentRouter.markLessonComplete Sample.env "cuser000001"
      (studentRouter.MarkLessonComplete.mkInput "clesson0001" 120)
      Sample.db_enrolled = (d', inr r)
    /\ studentProgress_findUnique "cuser000001" "ccourse0001" d' = Some sp
    /\ StudentProgress.completionRate sp <= 100.
Proof.
  destruct (studentRouter.markLessonComplete Sample.env "cuser000001"
              (studentRouter.MarkLessonComplete.mkInput "clesson0001" 120)
              Sample.db_enrolled) as [d' [ex | r]] eqn:Hrun;
    [vm_compute in Hrun; discriminate |].
  assert (Hu : lessonProgress_unique Sample.db_enrolled).
  { unfold lessonProgress_unique. simpl.
    repeat (constructor; [simpl; intuition discriminate |]). constructor. }
  destruct (proj2 (completionRate_is_a_percentage Sample.env "cuser000001"
                     Sample.db_enrolled d' r Hu) _ Hrun)
    as [lesson [sp [Hlesson [Hfind [_ Hle]]]]].
  vm_compute in Hlesson. inversion Hlesson; subst lesson. simpl in Hfind.
  exists d', r, sp. split; [reflexivity |]. split; [exact Hfind | exact Hle].
Defined.

(** ** Coupon codes on the way from the price to the enrollment *)

(** X23. [enrollCourse] looks the coupon up under the code as it was typed,
    whereas the procedures of the coupons router upper-case it first: when
    every stored code is in upper case, a code that is not is refused with
    BAD_REQUEST "Invalid or inactive coupon" for a course that is open to
    the user, and nothing is written. *)
Theorem enrollCourse_code_is_case_sensitive
    (env : Env) (userId courseId : Id) (code : string) (course : Course.t)
    (d : Db) :
  (forall c, In c (coupons d) -> toUpperCase (Coupon.code c) = Coupon.code c) ->
  toUpperCase code <> code ->
  enrollment_findUnique userId courseId d = None ->
  course_findUnique courseId d = Some course ->
  Course.published course = true ->
  studentRouter.enrollCourse env userId
    (studentRouter.EnrollCourse.mkInput courseId (Some code)) d
  = (d, inl (TRPCError BAD_REQUEST "Invalid or inactive coupon")).
Proof.
  intros Hstored Hcode Hnone Hcourse Hpub.
  assert (Hne : negb (String.eqb code "") = true).
  { apply negb_true_iff. apply String.eqb_neq. intros ->. apply Hcode.
    reflexivity. }
  assert (Hfind : coupon_findUnique_code code d = None).
  { unfold coupon_findUnique_code.
    destruct (find (by_code code) (coupons d)) as [c |] eqn:Hc;
      [| reflexivity].
    apply find_some in Hc. destruct Hc as [Hin Heq].
    unfold by_code in Heq. apply String.eqb_eq in Heq.
    exfalso. apply Hcode. rewrite <- Heq. apply Hstored. exact Hin. }
  unfold studentRouter.enrollCourse. unfold_proc.
  unfold enrollment_findUnique, course_findUnique, coupon_findUnique_code in *.
  simpl. rewrite Hnone. simpl. rewrite Hcourse, Hpub. simpl.
  rewrite Hne, Hfind. reflexivity.
Qed.

(** The code welcome20 is priced by [applyCoupon] and refused by
    [enrollCourse]. *)
Lemma enrollCourse_code_is_case_sensitive_witness :
  (exists out,
     couponsRouter.applyCoupon Sample.env "cuser000001"
       (couponsRouter.ApplyCoupon.mkInput "welcome20" "ccourse0001") Sample.db
     = (Sample.db, inr out))
  /\ studentRouter.enrollCourse Sample.env "cuser000001"
       (studentRouter.EnrollCourse.mkInput "ccourse0001" (Some "welcome20"))
       Sample.db
     = (Sample.db, inl (TRPCError BAD_REQUEST "Invalid or inactive coupon")).
Proof.
  split.
  - eexists. vm_compute. reflexivity.
  - apply (enrollCourse_code_is_case_sensitive Sample.env "cuser000001"
             "ccourse0001" "welcome20" Sample.football Sample.db).
    + intros c [Hc | [Hc | [Hc | []]]]; subst c; reflexivity.
    + vm_compute. discriminate.
    + reflexivity.
    + reflexivity.
    + reflexivity.
Defined.

Lemma find_none_existsb {A} (p : A -> bool) (l : list A) :
  find p l = None -> existsb p l = false.
Proof.
  induction l as [| x l IH]; simpl; [reflexivity |].
  destruct (p x); [discriminate | exact IH].
Qed.

Lemma enrollment_create_run (env : Env) (userId courseId : Id)
    (applied : option Id) (d : Db) :
  rejects env EnrollmentCreate = false ->
  enrollment_findUnique userId courseId d = None ->
  enrollment_create env userId courseId applied d
  = (set_idCounter (S (idCounter d))
       (set_enrollments
          (enrollments d
           ++ [Enrollment.mk (cuid (idCounter d)) userId courseId applied
                 ACTIVE 0 None]) d),
     inr (Enrollment.mk (cuid (idCounter d)) userId courseId applied ACTIVE 0
            None)).
Proof.
  intros Hrej Hnone. unfold enrollment_create. unfold_proc. rewrite Hrej.
  unfold enrollment_findUnique in Hnone.
  rewrite (find_none_existsb _ _ Hnone). reflexivity.
Qed.

Lemma studentProgress_create_run (env : Env) (userId courseId : Id)
    (w : Z) (r : Q) (d : Db) :
  rejects env StudentProgressCreate = false ->
  studentProgress_findUnique userId courseId d = None ->
  studentProgress_create env userId courseId w r d
  = (set_idCounter (S (idCounter d))
       (set_studentProgresses
          (studentProgresses d
           ++ [StudentProgress.mk (cuid (idCounter d)) userId courseId w r None])
          d),
     inr (StudentProgress.mk (cuid (idCounter d)) userId courseId w r None)).
Proof.
  intros Hrej Hnone. unfold studentProgress_create. unfold_proc. rewrite Hrej.
  unfold studentProgress_findUnique in Hnone.
  rewrite (find_none_existsb _ _ Hnone). reflexivity.
Qed.

Lemma lessonProgress_createMany_run (env : Env) (rows t : list LessonProgress.t)
    (d : Db) :
  rejects env LessonProgressCreateMany = false ->
  insert_all rows (lessonProgresses d) = Some t ->
  lessonProgress_createMany env rows d = (set_lessonProgresses t d, inr tt).
Proof.
  intros Hrej Hins. unfold lessonProgress_createMany. unfold_proc.
  rewrite Hrej, Hins. reflexivity.
Qed.

Lemma coupon_increment_run (env : Env) (c : Coupon.t) (d : Db) :
  rejects env CouponUpdate = false ->
  In c (coupons d) ->
  exists l,
    coupon_increment env (Coupon.id c) d = (set_coupons l d, inr tt).
Proof.
  intros Hrej Hin.
  assert (Hi : In (Coupon.id c) (map Coupon.id (coupons d)))
    by (apply in_map; exact Hin).
  destruct (find_in_map_some Coupon.id _ _ Hi) as [x Hx].
  destruct (update_first_some (by_id_coupon (Coupon.id c)) increment_usedCount
              _ x Hx) as [l Hl].
  exists l. unfold coupon_increment. unfold_proc. rewrite Hrej, Hl.
  reflexivity.
Qed.

Lemma not_in_key_existsb (r : LessonProgress.t) (table : list LessonProgress.t) :
  ~ In (lessonProgress_key r) (map lessonProgress_key table) ->
  existsb (by_user_lesson (LessonProgress.userId r) (LessonProgress.lessonId r))
    table = false.
Proof.
  intros Hnot. destruct (existsb _ table) eqn:Hex; [| reflexivity].
  exfalso. apply Hnot. apply existsb_exists in Hex.
  destruct Hex as [q [Hq Hk]]. apply by_user_lesson_key in Hk.
  rewrite <- Hk. apply in_map. exact Hq.
Qed.

Lemma insert_all_succeeds (rows table : list LessonProgress.t) :
  NoDup (map lessonProgress_key rows) ->
  (forall r, In r rows ->
     ~ In (lessonProgress_key r) (map lessonProgress_key table)) ->
  insert_all rows table = Some (table ++ rows)%list.
Proof.
  revert table. induction rows as [| r rows IH]; intros table Hnd Hfresh.
  - simpl. rewrite app_nil_r. reflexivity.
  - simpl. rewrite (not_in_key_existsb r table)
      by (apply Hfresh; left; reflexivity).
    simpl in Hnd. inversion Hnd as [| ? ? Hr Hnd']; subst.
    rewrite (IH (table ++ [r])%list Hnd').
    + rewrite <- app_assoc. reflexivity.
    + intros r' Hr' Hin. rewrite map_app in Hin. apply in_app_or in Hin.
      destruct Hin as [Hin | [Heq | []]].
      * apply (Hfresh r'); [right; exact Hr' | exact Hin].
      * apply Hr. rewrite Heq. apply in_map. exact Hr'.
Qed.

Lemma initial_rows_succeed (userId spId : Id) (ls : list Lesson.t)
    (table : list LessonProgress.t) :
  NoDup (map Lesson.id ls) ->
  (forall p, In p table -> LessonProgress.userId p = userId ->
             ~ In (LessonProgress.lessonId p) (map Lesson.id ls)) ->
  insert_all (map (studentRouter.initial_lessonProgress userId spId) ls) table
  = Some (table ++ map (studentRouter.initial_lessonProgress userId spId) ls)%list.
Proof.
  intros Hnd Hfresh. apply insert_all_succeeds.
  - rewrite map_map. simpl.
    clear Hfresh. induction ls as [| l ls IH]; simpl; [constructor |].
    simpl in Hnd. inversion Hnd as [| ? ? Hl Hnd']; subst.
    constructor; [| apply IH; exact Hnd'].
    intros Hin. apply Hl. apply in_map_iff in Hin.
    destruct Hin as [l' [Hk Hl']]. apply in_map_iff. exists l'.
    split; [| exact Hl']. unfold lessonProgress_key in Hk. simpl in Hk.
    congruence.
  - intros r Hr Hin. apply in_map_iff in Hr. destruct Hr as [l [Hrl Hl]].
    apply in_map_iff in Hin. destruct Hin as [p [Hk Hp]].
    subst r. unfold lessonProgress_key in Hk. simpl in Hk.
    assert (Hu : LessonProgress.userId p = userId) by congruence.
    assert (Hid : LessonProgress.lessonId p = Lesson.id l) by congruence.
    apply (Hfresh p Hp Hu). rewrite Hid. apply in_map. exact Hl.
Qed.

(** X24. A coupon that [applyCoupon] has priced for a course is accepted by
    [enrollCourse] when the code is sent as stored (in upper case): if the
    course is published, the user has no progress rows for it yet, its
    lessons have distinct ids and the database rejects no statement, the
    enrollment succeeds and records that coupon. *)
Theorem applyCoupon_then_enrollCourse
    (env : Env) (userId courseId : Id) (code : string) (d d0 : Db)
    (out : couponsRouter.ApplyCoupon.output) :
  couponsRouter.applyCoupon env userId
    (couponsRouter.ApplyCoupon.mkInput code courseId) d = (d0, inr out) ->
  toUpperCase code = code ->
  (forall course, course_findUnique courseId d = Some course ->
                  Course.published course = true) ->
  (forall s, rejects env s = false) ->
  studentProgress_findUnique userId courseId d = None ->
  NoDup (map Lesson.id (course_lessons courseId d)) ->
  (forall p, In p (lessonProgresses d) -> LessonProgress.userId p = userId ->
             ~ In (LessonProgress.lessonId p)
                  (map Lesson.id (course_lessons courseId d))) ->
  exists d' e,
    studentRouter.enrollCourse env userId
      (studentRouter.EnrollCourse.mkInput courseId (Some code)) d = (d', inr e)
    /\ Enrollment.appliedCouponId e
       = Some (couponsRouter.ApplyCoupon.coupon_id out)
    /\ Enrollment.userId e = userId
    /\ Enrollment.courseId e = courseId.
Proof.
  intros Happly Hupper Hpub Hrej Hsp Hnd Hfresh.
  unfold couponsRouter.applyCoupon in Happly. simpl in Happly.
  repeat inv_step. simpl in *.
  rename t into c. rename t0 into course.
  rewrite Hupper in E.
  assert (Hne : negb (String.eqb code "") = true).
  { destruct code; [discriminate H | reflexivity]. }
  assert (Hnone : enrollment_findUnique userId courseId d = None).
  { destruct (enrollment_findUnique userId courseId d); [discriminate H0 |].
    reflexivity. }
  assert (Hin : In c (coupons d)).
  { unfold coupon_findUnique_code in E. apply find_some in E. tauto. }
  pose proof (Hpub course E0) as Hp.
  pose proof (initial_rows_succeed userId (cuid (S (idCounter d)))
                (course_lessons courseId d) (lessonProgresses d) Hnd Hfresh)
    as Hins.
  unfold studentRouter.enrollCourse.
  cbv beta iota zeta delta [studentRouter.EnrollCourse.courseId
    studentRouter.EnrollCourse.couponCode].
  unfold_proc. rewrite Hnone. cbv beta iota delta [isSome].
  rewrite E0. cbv beta iota. rewrite Hp. change (negb true) with false.
  cbv beta iota delta [truthy_str patch]. rewrite Hne.
  cbv beta iota. rewrite E. cbv beta iota.
  rewrite H6, H5, H4, H3, H2, H1. cbv beta iota.
  rewrite (enrollment_create_run env userId courseId (Some (Coupon.id c)) d
             (Hrej _) Hnone).
  cbv beta iota.
  rewrite studentProgress_create_run; [| apply Hrej | exact Hsp].
  cbv beta iota.
  assert (Hrows :
    forall (b : bool) rows d2 t0,
      insert_all rows (lessonProgresses d2) = Some t0 ->
      exists t,
        (if b then lessonProgress_createMany env rows
         else fun d0 : Db => (d0, inr tt)) d2
        = (set_lessonProgresses t d2, inr tt)).
  { intros b rows d2 t0 Ht0. destruct b.
    - eexists. apply lessonProgress_createMany_run; [apply Hrej | exact Ht0].
    - exists (lessonProgresses d2). destruct d2; reflexivity. }
  match goal with
  | |- context [(if ?b then lessonProgress_createMany env ?rows else _) ?d2] =>
      destruct (Hrows b rows d2 _ Hins) as [t Ht]; rewrite Ht; clear Ht Hrows
  end.
  cbv beta iota.
  destruct (negb (String.eqb (Coupon.id c) "")) eqn:Hid.
  - match goal with
    | |- context [coupon_increment env (Coupon.id c) ?dx] =>
        destruct (coupon_increment_run env c dx (Hrej _) Hin) as [l Hl];
        rewrite Hl
    end.
    cbv beta iota.
    unfold couponUsage_create. unfold_proc. rewrite (Hrej CouponUsageCreate).
    eexists. eexists. split; [reflexivity |]. simpl. auto.
  - eexists. eexists. split; [reflexivity |]. simpl. auto.
Qed.

Lemma applyCoupon_then_enrollCourse_witness :
  exists out d' e,
    couponsRouter.applyCoupon Sample.env "cuser000001"
      (couponsRouter.ApplyCoupon.mkInput "WELCOME20" "ccourse0001") Sample.db
    = (Sample.db, inr out)
    /\ studentRouter.enrollCourse Sample.env "cuser000001"
         (studentRouter.EnrollCourse.mkInput "ccourse0001" (Some "WELCOME20"))
         Sample.db = (d', inr e)
    /\ Enrollment.appliedCouponId e = Some "ccoupon0001".
Proof.
  destruct (couponsRouter.applyCoupon Sample.env "cuser000001"
              (couponsRouter.ApplyCoupon.mkInput "WELCOME20" "ccourse0001")
              Sample.db) as [d0 [ex | out]] eqn:Happly;
    [vm_compute in Happly; discriminate |].
  destruct (applyCoupon_then_enrollCourse Sample.env "cuser000001"
              "ccourse0001" "WELCOME20" Sample.db d0 out Happly)
    as [d' [e [Hrun [Hc _]]]].
  - reflexivity.
  - intros course Hcourse. vm_compute in Hcourse. inversion Hcourse.
    reflexivity.
  - reflexivity.
  - reflexivity.
  - vm_compute. repeat (constructor; [simpl; intuition discriminate |]).
    constructor.
  - intros p [].
  - exists out, d', e.
    assert (Hout : couponsRouter.ApplyCoupon.coupon_id out = "ccoupon0001")
      by (vm_compute in Happly; inversion Happly; reflexivity).
    assert (Hd0 : d0 = Sample.db)
      by (vm_compute in Happly; inversion Happly; reflexivity).
    rewrite Hout in Hc. subst d0. auto.
Defined.

(** ** Looking a new coupon up *)

Lemma upper_ascii_code_char (c : ascii) :
  adminCouponsRouter.code_char c = true -> upper_ascii c = c.
Proof.
  unfold adminCouponsRouter.code_char, upper_ascii. cbv zeta.
  intros H.
  destruct ((97 <=? nat_of_ascii c)%nat && (nat_of_ascii c <=? 122)%nat)
    eqn:Hlow; [| reflexivity].
  exfalso. apply andb_prop in Hlow. destruct Hlow as [H1 H2].
  apply Nat.leb_le in H1. apply Nat.leb_le in H2.
  repeat (apply orb_prop in H; destruct H as [H | H]).
  - apply andb_prop in H. destruct H as [_ H]. apply Nat.leb_le in H. lia.
  - apply andb_prop in H. destruct H as [_ H]. apply Nat.leb_le in H. lia.
  - apply Nat.eqb_eq in H. lia.
  - apply Nat.eqb_eq in H. lia.
Qed.

Lemma toUpperCase_code (s : string) :
  forallb adminCouponsRouter.code_char (list_ascii_of_string s) = true ->
  toUpperCase s = s.
Proof.
  induction s as [| c s IH]; simpl; [reflexivity |].
  intros H. apply andb_prop in H. destruct H as [Hc Hs].
  rewrite (upper_ascii_code_char c Hc), (IH Hs). reflexivity.
Qed.

(** X25. A coupon that [createCoupon] has returned is stored under a code
    in upper case, and it is the one that the public [getCouponByCode] finds
    afterwards, under that code in any mix of upper and lower case. *)
Theorem createCoupon_then_getCouponByCode
    (aenv : AdminEnv) (env : Env) (adminId : Id)
    (input : adminCouponsRouter.CreateCoupon.input) (d d' : Db) (c : Coupon.t) :
  adminCouponsRouter.createCoupon aenv adminId input d = (d', inr c) ->
  toUpperCase (Coupon.code c) = Coupon.code c
  /\ forall code,
       toUpperCase code = Coupon.code c ->
       couponsRouter.getCouponByCode env code d' = (d', inr c).
Proof.
  intros Hrun.
  assert (Hfresh : coupon_findUnique_code
                     (adminCouponsRouter.CreateCoupon.code input) d = None).
  { unfold adminCouponsRouter.createCoupon in Hrun. repeat inv_more.
    all: match goal with
         | H : isSome ?x = false |- _ =>
             destruct x; [discriminate H | reflexivity]
         end. }
  apply createCoupon_ok in Hrun.
  destruct Hrun as [Hschema [Hc [_ [_ [_ [Hcoupons _]]]]]].
  split.
  - rewrite Hc. apply toUpperCase_code.
    unfold adminCouponsRouter.createCouponSchema in Hschema.
    repeat (apply andb_prop in Hschema; destruct Hschema as [Hschema ?]).
    assumption.
  - intros code Hcode.
    unfold couponsRouter.getCouponByCode. unfold_proc.
    unfold coupon_findUnique_code in *. rewrite Hcode, Hcoupons.
    rewrite <- Hc in Hfresh.
    rewrite (find_app_fresh _ _ c Hfresh); [reflexivity |].
    unfold by_code. apply String.eqb_refl.
Qed.

Lemma createCoupon_then_getCouponByCode_witness :
  exists d' c,
    adminCouponsRouter.createCoupon Catalog.aenv "cadmin00001" Catalog.AUTUMN15
      Sample.db = (d', inr c)
    /\ couponsRouter.getCouponByCode Sample.env "autumn15" d' = (d', inr c).
Proof.
  destruct (adminCouponsRouter.createCoupon Catalog.aenv "cadmin00001"
              Catalog.AUTUMN15 Sample.db) as [d' [ex | c]] eqn:Hrun;
    [vm_compute in Hrun; discriminate |].
  exists d', c. split; [reflexivity |].
  apply (proj2 (createCoupon_then_getCouponByCode Catalog.aenv Sample.env
                  "cadmin00001" Catalog.AUTUMN15 Sample.db d' c Hrun)).
  vm_compute in Hrun. inversion Hrun. reflexivity.
Defined.

(** ** A completed lesson in the progress view *)

Lemma hd_error_filter {A} (p : A -> bool) (l : list A) :
  hd_error (filter p l) = find p l.
Proof.
  induction l as [| x l IH]; simpl; [reflexivity |].
  destruct (p x); [reflexivity | exact IH].
Qed.

Lemma find_ext_eq {A} (p q : A -> bool) (l : list A) :
  (forall x, p x = q x) -> find p l = find q l.
Proof.
  intros H. induction l as [| x l IH]; simpl; [reflexivity |].
  rewrite H, IH. reflexivity.
Qed.

Lemma In_insert_by_order (x y : Lesson.t) (l : list Lesson.t) :
  In x (insert_by_order y l) <-> x = y \/ In x l.
Proof.
  induction l as [| z l IH]; simpl.
  - intuition.
  - destruct (Lesson.order y <? Lesson.order z)%Z; simpl.
    + intuition.
    + rewrite IH. intuition.
Qed.

Lemma In_sort_by_order (x : Lesson.t) (l : list Lesson.t) :
  In x (sort_by_order l) <-> In x l.
Proof.
  induction l as [| y l IH]; simpl; [tauto |].
  rewrite In_insert_by_order, IH. intuition.
Qed.

Lemma updateCourseProgress_rows (env : Env) (userId courseId : Id)
    (d d' : Db) (u : unit) :
  updateCourseProgress env userId courseId d = (d', inr u) ->
  lessons d' = lessons d
  /\ lessonProgresses d' = lessonProgresses d
  /\ exists sp e,
       studentProgress_findUnique userId courseId d' = Some sp
       /\ enrollment_findUnique userId courseId d' = Some e
       /\ Enrollment.progress e = StudentProgress.completionRate sp.
Proof.
  unfold updateCourseProgress. intros H. repeat inv_step.
  apply studentProgress_update_ok in Hm2. destruct Hm2 as [l [Hl Hd]].
  apply enrollment_update_ok in H. destruct H as [le [Hle Hd']].
  subst. simpl. split; [reflexivity |]. split; [reflexivity |].
  unfold studentProgress_findUnique, enrollment_findUnique. simpl.
  destruct (update_first_find_same _ _ _ _ Hl) as [x [_ Hx]];
    [intros x; reflexivity |].
  destruct (update_first_find_same _ _ _ _ Hle) as [y [_ Hy]];
    [intros y; reflexivity |].
  eexists. eexists. split; [exact Hx |]. split; [exact Hy | reflexivity].
Qed.

Lemma lessonProgress_upsert_row (env : Env) (userId lessonId : Id)
    (update : LessonProgress.t -> LessonProgress.t) (create : LessonProgress.t)
    (d d' : Db) (r : LessonProgress.t) :
  lessonProgress_upsert env userId lessonId update create d = (d', inr r) ->
  (forall x, by_user_lesson userId lessonId (update x)
             = by_user_lesson userId lessonId x) ->
  by_user_lesson userId lessonId create = true ->
  find (by_user_lesson userId lessonId) (lessonProgresses d') = Some r
  /\ ((exists old, r = update old) \/ r = create)
  /\ lessons d' = lessons d
  /\ enrollments d' = enrollments d
  /\ studentProgresses d' = studentProgresses d.
Proof.
  unfold lessonProgress_upsert. intros H Hup Hcreate. repeat inv_step.
  destruct (find _ (lessonProgresses d)) as [old |] eqn:Hfind.
  - destruct (update_first_some _ update _ _ Hfind) as [l Hl].
    rewrite Hl in H. inversion H; subst. simpl.
    destruct (update_first_find_same _ _ _ _ Hl Hup) as [x [Hx Hx']].
    rewrite Hfind in Hx. inversion Hx; subst x.
    split; [exact Hx' |]. split; [left; eauto |]. auto.
  - inversion H; subst. simpl.
    split; [apply find_app_fresh; assumption |].
    split; [right; reflexivity |]. auto.
Qed.

(** X26. When [markLessonComplete] returns, the row it returns is completed
    and carries the reported watch time, and [getCourseProgress] for the
    lesson's course then shows the lesson with exactly that row; the
    progress it reports on the enrollment equals the completion rate of the
    progress record. *)
Theorem markLessonComplete_then_getCourseProgress
    (env env' : Env) (userId : Id)
    (input : studentRouter.MarkLessonComplete.input) (d d' : Db)
    (lp : LessonProgress.t) :
  studentRouter.markLessonComplete env userId input d = (d', inr lp) ->
  exists lesson out sp,
    lesson_findUnique (studentRouter.MarkLessonComplete.lessonId input) d
    = Some lesson
    /\ LessonProgress.completed lp = true
    /\ LessonProgress.watchTime lp = studentRouter.MarkLessonComplete.watchTime input
    /\ LessonProgress.completedAt lp = Some (now env)
    /\ studentRouter.getCourseProgress env' userId (Lesson.courseId lesson) d'
       = (d', inr out)
    /\ In (lesson, Some lp) (studentRouter.GetCourseProgress.lessons out)
    /\ studentRouter.GetCourseProgress.progress out = Some sp
    /\ Enrollment.progress (studentRouter.GetCourseProgress.enrollment out)
       = StudentProgress.completionRate sp.
Proof.
  intros Hrun. unfold studentRouter.markLessonComplete in Hrun.
  repeat inv_step.
  all: match goal with
       | Hu : lessonProgress_upsert _ _ _ _ _ _ = _ |- _ =>
           apply lessonProgress_upsert_row in Hu;
             [| intros x; reflexivity
              | unfold by_user_lesson; simpl; rewrite !id_eqb_refl; reflexivity ];
           destruct Hu as [Hfind [Hshape [Hls _]]]
       end.
  all: match goal with
       | Hc : updateCourseProgress _ _ _ _ = _ |- _ =>
           apply updateCourseProgress_rows in Hc;
           destruct Hc as [Hls' [Hlps' [sp [e [Hsp [He Heq]]]]]]
       end.
  all: match goal with
       | Hl : lesson_findUnique _ _ = Some ?t |- _ =>
           pose proof (find_some _ _ Hl) as [Hin Hid];
           apply id_eqb_eq in Hid;
           exists t; eexists; exists sp
       end.
  all: split; [reflexivity |].
  all: split; [destruct Hshape as [[old Ho] | Ho]; rewrite Ho; reflexivity |].
  all: split; [unfold studentRouter.markLessonCompleteSchema in H;
               apply Z.leb_le in H;
               destruct Hshape as [[old Ho] | Ho]; rewrite Ho; simpl; lia |].
  all: split; [destruct Hshape as [[old Ho] | Ho]; rewrite Ho; reflexivity |].
  all: unfold studentRouter.getCourseProgress; unfold_proc; rewrite He, Hsp.
  all: split; [reflexivity |]; simpl.
  all: split; [| split; [reflexivity | exact Heq]].
  all: apply in_map_iff; exists t; split.
  all: try (unfold course_lessons; apply In_sort_by_order; apply filter_In;
            split; [rewrite Hls', Hls; exact Hin | apply id_eqb_refl]).
  all: f_equal; unfold studentRouter.lesson_progress.
  all: rewrite hd_error_filter, Hlps', <- Hfind, Hid.
  all: apply find_ext_eq; intros p; unfold by_user_lesson; apply andb_comm.
Qed.

Lemma markLessonComplete_then_getCourseProgress_witness :
  exists d' lp out,
    studentRouter.markLessonComplete Sample.env "cuser000001"
      (studentRouter.MarkLessonComplete.mkInput "clesson0001" 120)
      Sample.db_enrolled = (d', inr lp)
    /\ studentRouter.getCourseProgress Sample.env "cuser000001" "ccourse0001" d'
       = (d', inr out)
    /\ In (Sample.warmup, Some lp) (studentRouter.GetCourseProgress.lessons out).
Proof.
  destruct (studentRouter.markLessonComplete Sample.env "cuser000001"
              (studentRouter.MarkLessonComplete.mkInput "clesson0001" 120)
              Sample.db_enrolled) as [d' [ex | lp]] eqn:Hrun;
    [vm_compute in Hrun; discriminate |].
  destruct (markLessonComplete_then_getCourseProgress Sample.env Sample.env
              "cuser000001" _ Sample.db_enrolled d' lp Hrun)
    as [lesson [out [sp [Hlesson [_ [_ [_ [Hout [Hin _]]]]]]]]].
  vm_compute in Hlesson. inversion Hlesson; subst lesson.
  exists d', lp, out. split; [reflexivity |]. split; [exact Hout | exact Hin].
Defined.

(** ** The administration's check of a coupon for a user *)

(** X27. For a user who is not yet enrolled in a paid course, and a code in
    upper case, the administration's [validateCoupon] always returns, and it
    reports [valid: true] for that user and course exactly when that user's
    [applyCoupon] returns a price. *)
Theorem admin_validateCoupon_predicts_applyCoupon
    (env : Env) (adminId userId courseId : Id) (code : string)
    (course : Course.t) (d : Db) :
  (1 <= String.length code)%nat ->
  toUpperCase code = code ->
  courseId <> "" ->
  enrollment_findUnique userId courseId d = None ->
  course_findUnique courseId d = Some course ->
  Course.isFree course = false ->
  exists out,
    adminCouponsRouter.validateCoupon env adminId
      (adminCouponsRouter.ValidateCoupon.mkInput code (Some courseId) userId) d
    = (d, inr out)
    /\ (adminCouponsRouter.ValidateCoupon.valid out = true <->
        exists r,
          couponsRouter.applyCoupon env userId
            (couponsRouter.ApplyCoupon.mkInput code courseId) d = (d, inr r)).
Proof.
  intros Hlen Hupper Hcid Hnone Hcourse Hfree.
  assert (Hs : couponsRouter.applyCouponSchema
                 (couponsRouter.ApplyCoupon.mkInput code courseId) = true).
  { unfold couponsRouter.applyCouponSchema. apply Nat.leb_le. exact Hlen. }
  assert (Htruthy : negb (String.eqb courseId "") = true).
  { apply negb_true_iff, String.eqb_neq. exact Hcid. }
  unfold adminCouponsRouter.validateCoupon, couponsRouter.applyCoupon.
  unfold_proc. rewrite Hs. simpl. rewrite Hupper.
  destruct (coupon_findUnique_code code d) as [c |]; simpl.
  2: { eexists. split; [reflexivity |]. simpl.
       split; [discriminate | intros [r Hr]; discriminate]. }
  destruct (Coupon.isActive c); simpl.
  2: { eexists. split; [reflexivity |]. simpl.
       split; [discriminate | intros [r Hr]; discriminate]. }
  destruct (after (Coupon.validFrom c) (now env)); simpl.
  { eexists. split; [reflexivity |]. simpl.
    split; [discriminate | intros [r Hr]; discriminate]. }
  destruct (before (Coupon.validUntil c) (now env)); simpl.
  { eexists. split; [reflexivity |]. simpl.
    split; [discriminate | intros [r Hr]; discriminate]. }
  destruct (maxUses_reached c); simpl.
  { eexists. split; [reflexivity |]. simpl.
    split; [discriminate | intros [r Hr]; discriminate]. }
  destruct (maxUsesPerUser_reached c (coupon_couponUsage c userId d)); simpl.
  { eexists. split; [reflexivity |]. simpl.
    split; [discriminate | intros [r Hr]; discriminate]. }
  destruct (Coupon.isGlobal c); simpl; rewrite ?Htruthy; simpl.
  { rewrite Hnone. simpl. rewrite Hcourse. simpl. rewrite Hfree. simpl.
    eexists. split; [reflexivity |]. simpl.
    split; [intros _; eexists; reflexivity | reflexivity]. }
  destruct (List.length (coupon_courseCoupons c courseId d) =? 0)%nat; simpl.
  { eexists. split; [reflexivity |]. simpl.
    split; [discriminate | intros [r Hr]; discriminate]. }
  rewrite Hnone. simpl. rewrite Hcourse. simpl. rewrite Hfree. simpl.
  eexists. split; [reflexivity |]. simpl.
  split; [intros _; eexists; reflexivity | reflexivity].
Qed.

Lemma admin_validateCoupon_predicts_applyCoupon_witness :
  exists out r,
    adminCouponsRouter.validateCoupon Sample.env "cadmin00001"
      (adminCouponsRouter.ValidateCoupon.mkInput "WELCOME20"
         (Some "ccourse0001") "cuser000001") Sample.db = (Sample.db, inr out)
    /\ adminCouponsRouter.ValidateCoupon.valid out = true
    /\ couponsRouter.applyCoupon Sample.env "cuser000001"
         (couponsRouter.ApplyCoupon.mkInput "WELCOME20" "ccourse0001") Sample.db
       = (Sample.db, inr r).
Proof.
  destruct (admin_validateCoupon_predicts_applyCoupon Sample.env "cadmin00001"
              "cuser000001" "ccourse0001" "WELCOME20" Sample.football Sample.db)
    as [out [Hout Hiff]].
  - simpl. lia.
  - reflexivity.
  - discriminate.
  - reflexivity.
  - reflexivity.
  - reflexivity.
  - assert (Hvalid : adminCouponsRouter.ValidateCoupon.valid out = true).
    { vm_compute in Hout. inversion Hout. reflexivity. }
    destruct (proj1 Hiff Hvalid) as [r Hr].
    exists out, r. auto.
Defined.

(** ** The coupon statistics *)

Lemma insert_by_usedCount_perm (x : Coupon.t) (l : list Coupon.t) :
  Permutation (insert_by_usedCount x l) (x :: l).
Proof.
  induction l as [| y l IH]; simpl; [apply Permutation_refl |].
  destruct (Coupon.usedCount y <=? Coupon.usedCount x)%Z;
    [apply Permutation_refl |].
  apply Permutation_trans with (y :: x :: l).
  - apply perm_skip. exact IH.
  - apply perm_swap.
Qed.

Lemma sort_by_usedCount_desc_perm (l : list Coupon.t) :
  Permutation (sort_by_usedCount_desc l) l.
Proof.
  induction l as [| x l IH]; simpl; [apply Permutation_refl |].
  apply Permutation_trans with (x :: sort_by_usedCount_desc l).
  - apply insert_by_usedCount_perm.
  - apply perm_skip. exact IH.
Qed.

Lemma insert_by_usedCount_sorted (x : Coupon.t) (l : list Coupon.t) :
  StronglySorted (fun a b => (Coupon.usedCount b <= Coupon.usedCount a)%Z) l ->
  StronglySorted (fun a b => (Coupon.usedCount b <= Coupon.usedCount a)%Z)
    (insert_by_usedCount x l).
Proof.
  induction l as [| y l IH]; simpl; intros Hs.
  - constructor; [constructor | constructor].
  - inversion Hs as [| ? ? Hl Hy]; subst.
    destruct (Coupon.usedCount y <=? Coupon.usedCount x)%Z eqn:Hle.
    + apply Z.leb_le in Hle. constructor; [exact Hs |].
      constructor; [exact Hle |].
      eapply Forall_impl; [| exact Hy]. simpl. intros z Hz. lia.
    + apply Z.leb_gt in Hle. constructor; [apply IH; exact Hl |].
      apply (Permutation_Forall
               (Permutation_sym (insert_by_usedCount_perm x l))).
      constructor; [lia | exact Hy].
Qed.

Lemma sort_by_usedCount_desc_sorted (l : list Coupon.t) :
  StronglySorted (fun a b => (Coupon.usedCount b <= Coupon.usedCount a)%Z)
    (sort_by_usedCount_desc l).
Proof.
  induction l as [| x l IH]; simpl; [constructor |].
  apply insert_by_usedCount_sorted. exact IH.
Qed.

Lemma sorted_firstn_skipn {A} (R : A -> A -> Prop) (l : list A) (n : nat)
    (a b : A) :
  StronglySorted R l -> In a (firstn n l) -> In b (skipn n l) -> R a b.
Proof.
  intros Hs. revert n. induction Hs as [| x l Hl IH Hx]; intros n Ha Hb.
  - destruct n; contradiction.
  - destruct n as [| n]; [contradiction |]. simpl in Ha, Hb.
    destruct Ha as [Heq | Ha].
    + subst x. rewrite Forall_forall in Hx. apply Hx.
      rewrite <- (firstn_skipn n l). apply in_or_app. right. exact Hb.
    + apply (IH n); assumption.
Qed.

Lemma filter_partition_length {A} (p : A -> bool) (l : list A) :
  (List.length (filter p l) + List.length (filter (fun x => negb (p x)) l)
   = List.length l)%nat.
Proof.
  induction l as [| x l IH]; simpl; [reflexivity |].
  destruct (p x); simpl; lia.
Qed.

Lemma filter_and_length {A} (p q : A -> bool) (l : list A) :
  (List.length (filter (fun x => p x && q x) l) <= List.length (filter q l))%nat.
Proof.
  induction l as [| x l IH]; simpl; [lia |].
  destruct (p x), (q x); simpl; lia.
Qed.

(** X28. [getCouponStats] always returns, without writing, a report that
    adds up: global and course-specific coupons make the total, as do
    active and inactive ones; the expired coupons it counts are among the
    active ones; and [topCoupons] holds at most five coupons (all of them
    when there are fewer than five), none used less often than any coupon
    left out. *)
Theorem getCouponStats_adds_up (env : Env) (adminId : Id) (d : Db) :
  exists s,
    adminCouponsRouter.getCouponStats env adminId d = (d, inr s)
    /\ (adminCouponsRouter.GetCouponStats.globalCoupons s
        + adminCouponsRouter.GetCouponStats.courseSpecificCoupons s
        = adminCouponsRouter.GetCouponStats.totalCoupons s)%Z
    /\ (adminCouponsRouter.GetCouponStats.activeCoupons s
        + adminCouponsRouter.GetCouponStats.inactiveCoupons s
        = adminCouponsRouter.GetCouponStats.totalCoupons s)%Z
    /\ (0 <= adminCouponsRouter.GetCouponStats.expiredCoupons s
        <= adminCouponsRouter.GetCouponStats.activeCoupons s)%Z
    /\ (List.length (adminCouponsRouter.GetCouponStats.topCoupons s) <= 5)%nat
    /\ exists rest,
         Permutation (adminCouponsRouter.GetCouponStats.topCoupons s ++ rest)
           (coupons d)
         /\ ((List.length (coupons d) <= 5)%nat -> rest = [])
         /\ forall a b,
              In a (adminCouponsRouter.GetCouponStats.topCoupons s) ->
              In b rest ->
              (Coupon.usedCount b <= Coupon.usedCount a)%Z.
Proof.
  unfold adminCouponsRouter.getCouponStats. unfold_proc.
  eexists. split; [reflexivity |].
  cbv beta iota delta
    [adminCouponsRouter.GetCouponStats.globalCoupons
     adminCouponsRouter.GetCouponStats.courseSpecificCoupons
     adminCouponsRouter.GetCouponStats.totalCoupons
     adminCouponsRouter.GetCouponStats.activeCoupons
     adminCouponsRouter.GetCouponStats.inactiveCoupons
     adminCouponsRouter.GetCouponStats.expiredCoupons
     adminCouponsRouter.GetCouponStats.topCoupons].
  unfold count. rewrite filter_all.
  split.
  { pose proof (filter_partition_length Coupon.isGlobal (coupons d)). lia. }
  split; [lia |].
  split.
  { unfold adminCouponsRouter.expired_active.
    pose proof (filter_and_length
                  (fun c => before (Coupon.validUntil c) (now env))
                  Coupon.isActive (coupons d)) as Hle.
    cbv beta in Hle. lia. }
  split; [apply firstn_le_length |].
  exists (skipn 5 (sort_by_usedCount_desc (coupons d))).
  split; [| split].
  - rewrite firstn_skipn. apply sort_by_usedCount_desc_perm.
  - intros Hlen. apply skipn_all2.
    rewrite (Permutation_length (sort_by_usedCount_desc_perm (coupons d))).
    exact Hlen.
  - intros a b Ha Hb.
    apply (sorted_firstn_skipn
             (fun a b => (Coupon.usedCount b <= Coupon.usedCount a)%Z)
             (sort_by_usedCount_desc (coupons d)) 5 a b);
      [apply sort_by_usedCount_desc_sorted | exact Ha | exact Hb].
Qed.

(** ** The stored completion rate *)

Lemma progress_frame_refl (d : Db) : progress_frame d d.
Proof. split; reflexivity. Qed.

Lemma progress_frame_trans (a b c : Db) :
  progress_frame a b -> progress_frame b c -> progress_frame a c.
Proof.
  intros [H1 H2] [H3 H4]. split.
  - rewrite H3. exact H1.
  - rewrite H4. exact H2.
Qed.

Lemma preserves_frame_statement (env : Env) (s : Stmt) :
  preserves progress_frame (statement env s).
Proof.
  apply preserves_readonly; [apply progress_frame_refl |].
  unfold statement. apply readonly_throw_if.
Qed.

Lemma preserves_frame_lessonProgress_upsert (env : Env) (userId lessonId : Id)
    (update : LessonProgress.t -> LessonProgress.t) (create : LessonProgress.t) :
  preserves progress_frame
    (lessonProgress_upsert env userId lessonId update create).
Proof.
  unfold lessonProgress_upsert.
  apply preserves_bind;
    [apply progress_frame_trans | apply preserves_frame_statement |].
  intros _ d.
  destruct (find _ (lessonProgresses d));
    [destruct (update_first _ update (lessonProgresses d)) |];
    split; reflexivity.
Qed.

Lemma preserves_frame_studentProgress_update (env : Env)
    (p : StudentProgress.t -> bool) (f : StudentProgress.t -> StudentProgress.t) :
  (forall x, studentProgress_key (f x) = studentProgress_key x) ->
  preserves progress_frame (studentProgress_update env p f).
Proof.
  intros Hf. unfold studentProgress_update.
  apply preserves_bind;
    [apply progress_frame_trans | apply preserves_frame_statement |].
  intros _ d.
  destruct (update_first p f (studentProgresses d)) as [l |] eqn:Hup;
    [| apply progress_frame_refl].
  split; [reflexivity |]. simpl.
  exact (update_first_keys studentProgress_key p f _ _ Hf Hup).
Qed.

Lemma preserves_frame_enrollment_update (env : Env) (p : Enrollment.t -> bool)
    (f : Enrollment.t -> Enrollment.t) :
  preserves progress_frame (enrollment_update env p f).
Proof.
  unfold enrollment_update.
  apply preserves_bind;
    [apply progress_frame_trans | apply preserves_frame_statement |].
  intros _ d.
  destruct (update_first p f (enrollments d)); split; reflexivity.
Qed.

Lemma preserves_frame_updateCourseProgress (env : Env) (userId courseId : Id) :
  preserves progress_frame (updateCourseProgress env userId courseId).
Proof.
  pose proof progress_frame_refl as Hrefl.
  pose proof progress_frame_trans as Htrans.
  unfold updateCourseProgress.
  repeat first
    [ apply preserves_frame_studentProgress_update; intros x; reflexivity
    | apply preserves_frame_enrollment_update
    | preserves_step ].
Qed.

Lemma preserves_frame_updateLessonProgress (env : Env) (userId : Id)
    (input : studentRouter.UpdateLessonProgress.input) :
  preserves progress_frame
    (studentRouter.updateLessonProgress env userId input).
Proof.
  pose proof progress_frame_refl as Hrefl.
  pose proof progress_frame_trans as Htrans.
  unfold studentRouter.updateLessonProgress.
  repeat first
    [ apply preserves_frame_studentProgress_update; intros x; reflexivity
    | apply preserves_frame_lessonProgress_upsert
    | apply preserves_frame_updateCourseProgress
    | preserves_step ].
Qed.

Lemma preserves_frame_markLessonComplete (env : Env) (userId : Id)
    (input : studentRouter.MarkLessonComplete.input) :
  preserves progress_frame
    (studentRouter.markLessonComplete env userId input).
Proof.
  pose proof progress_frame_refl as Hrefl.
  pose proof progress_frame_trans as Htrans.
  unfold studentRouter.markLessonComplete.
  repeat first
    [ apply preserves_frame_lessonProgress_upsert
    | apply preserves_frame_updateCourseProgress
    | preserves_step ].
Qed.

(** With ids as a key, the relation filter [lesson: { courseId }] holds of a
    progress row exactly when some lesson of the course has the row's
    [lessonId]. *)
Lemma lesson_in_course_exists (courseId : Id) (d : Db) (p : LessonProgress.t) :
  lesson_ids_unique d ->
  lesson_in_course courseId d p
  = existsb (fun l => String.eqb (Lesson.id l) (LessonProgress.lessonId p)
                      && String.eqb (Lesson.courseId l) courseId)
            (lessons d).
Proof.
  unfold lesson_ids_unique, lesson_in_course, lesson_findUnique, by_id_lesson,
    id_eqb.
  induction (lessons d) as [| l ls IH]; simpl; intros Hnd; [reflexivity |].
  inversion Hnd as [| ? ? Hl Hls]; subst.
  destruct (String.eqb_spec (Lesson.id l) (LessonProgress.lessonId p)) as [Heq | Hne];
    simpl.
  - assert (Hrest : existsb
                      (fun l0 => String.eqb (Lesson.id l0)
                                   (LessonProgress.lessonId p)
                                 && String.eqb (Lesson.courseId l0) courseId)
                      ls = false).
    { destruct (existsb _ ls) eqn:Hex; [| reflexivity].
      exfalso. apply Hl. apply existsb_exists in Hex.
      destruct Hex as [l0 [Hin Hl0]]. apply andb_prop in Hl0.
      destruct Hl0 as [Hid _]. apply String.eqb_eq in Hid.
      rewrite Heq, <- Hid. apply in_map. exact Hin. }
    rewrite Hrest, orb_false_r. reflexivity.
  - apply IH. exact Hls.
Qed.

Lemma counts_of_course (userId courseId : Id) (d : Db) :
  lesson_ids_unique d ->
  count_lessons courseId d
  = Z.of_nat (List.length (lessons_of_course courseId d))
  /\ count_completed userId courseId d
     = Z.of_nat (List.length (completed_of_course userId courseId d)).
Proof.
  intros Hu. split; [reflexivity |].
  unfold count_completed, completed_of_course, count. do 2 f_equal.
  apply filter_ext. intros p.
  rewrite (lesson_in_course_exists courseId d p Hu). unfold id_eqb.
  rewrite <- !andb_assoc. f_equal. apply andb_comm.
Qed.

Lemma rate_in_rate_of_course (userId courseId : Id) (d : Db) (rate : Q) :
  lesson_ids_unique d ->
  rate_in userId courseId d rate -> rate_of_course userId courseId d rate.
Proof.
  intros Hu [Hpos Hzero].
  destruct (counts_of_course userId courseId d Hu) as [Hl Hc].
  unfold rate_of_course. cbv zeta. rewrite Hl, Hc in Hpos. rewrite Hl in Hzero.
  split.
  - intros Hlt. apply Hpos. lia.
  - intros Hz. apply Hzero. lia.
Qed.

Lemma found_record (userId courseId : Id) (d : Db) (sp : StudentProgress.t) :
  studentProgress_findUnique userId courseId d = Some sp ->
  In sp (studentProgresses d)
  /\ StudentProgress.userId sp = userId
  /\ StudentProgress.courseId sp = courseId.
Proof.
  unfold studentProgress_findUnique. intros H. apply find_some in H.
  destruct H as [Hin Hkey]. unfold by_user_course_sp in Hkey.
  apply andb_prop in Hkey. destruct Hkey as [Hu Hc].
  apply id_eqb_eq in Hu. apply id_eqb_eq in Hc. auto.
Qed.

Lemma NoDup_map_In_eq {A K} (k : A -> K) (l : list A) (a b : A) :
  NoDup (map k l) -> In a l -> In b l -> k a = k b -> a = b.
Proof.
  induction l as [| x l IH]; simpl; intros Hnd Ha Hb Hk; [contradiction |].
  inversion Hnd as [| ? ? Hx Hl]; subst.
  destruct Ha as [Ha | Ha], Hb as [Hb | Hb].
  - congruence.
  - subst x. exfalso. apply Hx. rewrite Hk. apply in_map. exact Hb.
  - subst x. exfalso. apply Hx. rewrite <- Hk. apply in_map. exact Ha.
  - apply IH; assumption.
Qed.

(** From what the procedure's own lookup returns to the statement on the
    tables. *)
Lemma rate_stored_intro (userId courseId : Id) (d d' : Db)
    (sp : StudentProgress.t) :
  lesson_ids_unique d ->
  progress_frame d d' ->
  studentProgress_findUnique userId courseId d' = Some sp ->
  rate_in userId courseId d' (StudentProgress.completionRate sp) ->
  rate_stored userId courseId d' sp
  /\ (studentProgress_unique d -> only_record userId courseId d' sp).
Proof.
  intros Hu [Hls Hkeys] Hfind Hrate.
  destruct (found_record _ _ _ _ Hfind) as [Hin [Huser Hcourse]].
  assert (Hu' : lesson_ids_unique d')
    by (unfold lesson_ids_unique in *; rewrite Hls; exact Hu).
  split.
  - repeat (split; [assumption |]).
    apply rate_in_rate_of_course; assumption.
  - intros Huniq sp' Hin' Huser' Hcourse'.
    unfold studentProgress_unique in Huniq. rewrite <- Hkeys in Huniq.
    apply (NoDup_map_In_eq studentProgress_key (studentProgresses d'));
      [exact Huniq | exact Hin' | exact Hin |].
    unfold studentProgress_key. congruence.
Qed.

(** C5. In a database where lesson ids are a key: when
    [updateLessonProgress] or [markLessonComplete] returns, the
    StudentProgress table it leaves behind holds a record of the calling
    user and the lesson's course whose [completionRate] is the number of
    that user's completed lesson-progress rows that belong to a lesson of
    the course, divided by the number of lessons of the course (at least
    one, the lesson itself), times 100; if (user, course) was a key of the
    StudentProgress table, it is the only record of the pair.  The same
    holds of the helper [updateCourseProgress] for any course, where the
    rate is 0 when the course has no lesson. *)
Theorem completionRate_recomputed (env : Env) (userId : Id) (d d' : Db) :
  lesson_ids_unique d ->
  (forall input r,
     studentRouter.updateLessonProgress env userId input d = (d', inr r) ->
     exists lesson sp,
       In lesson (lessons d')
       /\ Lesson.id lesson = studentRouter.UpdateLessonProgress.lessonId input
       /\ (0 < List.length (lessons_of_course (Lesson.courseId lesson) d'))%nat
       /\ rate_stored userId (Lesson.courseId lesson) d' sp
       /\ (studentProgress_unique d ->
           only_record userId (Lesson.courseId lesson) d' sp))
  /\ (forall input r,
        studentRouter.markLessonComplete env userId input d = (d', inr r) ->
        exists lesson sp,
          In lesson (lessons d')
          /\ Lesson.id lesson = studentRouter.MarkLessonComplete.lessonId input
          /\ (0 < List.length (lessons_of_course (Lesson.courseId lesson) d'))%nat
          /\ rate_stored userId (Lesson.courseId lesson) d' sp
          /\ (studentProgress_unique d ->
              only_record userId (Lesson.courseId lesson) d' sp))
  /\ (forall courseId u,
        updateCourseProgress env userId courseId d = (d', inr u) ->
        exists sp,
          rate_stored userId courseId d' sp
          /\ (studentProgress_unique d -> only_record userId courseId d' sp)).
Proof.
  intros Hu.
  assert (Hlesson :
    forall lessonId lesson,
      progress_frame d d' ->
      lesson_findUnique lessonId d = Some lesson ->
      In lesson (lessons d')
      /\ Lesson.id lesson = lessonId
      /\ (0 < List.length (lessons_of_course (Lesson.courseId lesson) d'))%nat).
  { intros lessonId lesson [Hls _] Hfind.
    unfold lesson_findUnique in Hfind. apply find_some in Hfind.
    destruct Hfind as [Hin Hid]. apply id_eqb_eq in Hid.
    rewrite <- Hls in Hin. split; [exact Hin |]. split; [exact Hid |].
    apply Nat.ltb_lt. unfold lessons_of_course.
    apply (filter_In_nonempty _ _ lesson Hin). apply String.eqb_refl. }
  split; [| split].
  - intros input r H.
    pose proof (preserves_frame_updateLessonProgress env userId input d)
      as Hframe.
    rewrite H in Hframe. simpl in Hframe.
    unfold studentRouter.updateLessonProgress in H. repeat inv_step.
    all: match goal with
         | Hc : updateCourseProgress _ _ _ _ = _,
           Ht : studentProgress_update _ _ _ _ = _,
           Hl : lesson_findUnique _ _ = Some ?t |- _ =>
             exists t; apply rate_after_updateCourseProgress in Hc;
             destruct (rate_after_touch _ _ _ _ _ _ _ _ Ht Hc)
               as [sp [Hfind Hrate]];
             exists sp;
             destruct (Hlesson _ _ Hframe Hl) as [Hin [Hid Hpos]];
             destruct (rate_stored_intro _ _ _ _ _ Hu Hframe Hfind Hrate)
               as [Hstored Honly];
             repeat (split; [assumption |]); exact Honly
         end.
  - intros input r H.
    pose proof (preserves_frame_markLessonComplete env userId input d)
      as Hframe.
    rewrite H in Hframe. simpl in Hframe.
    unfold studentRouter.markLessonComplete in H. repeat inv_step.
    all: match goal with
         | Hc : updateCourseProgress _ _ _ _ = _,
           Hl : lesson_findUnique _ _ = Some ?t |- _ =>
             exists t; apply rate_after_updateCourseProgress in Hc;
             destruct Hc as [sp [Hfind Hrate]];
             exists sp;
             destruct (Hlesson _ _ Hframe Hl) as [Hin [Hid Hpos]];
             destruct (rate_stored_intro _ _ _ _ _ Hu Hframe Hfind Hrate)
               as [Hstored Honly];
             repeat (split; [assumption |]); exact Honly
         end.
  - intros courseId u H.
    pose proof (preserves_frame_updateCourseProgress env userId courseId d)
      as Hframe.
    rewrite H in Hframe. simpl in Hframe.
    apply rate_after_updateCourseProgress in H.
    destruct H as [sp [Hfind Hrate]]. exists sp.
    exact (rate_stored_intro _ _ _ _ _ Hu Hframe Hfind Hrate).
Qed.

(** The user, enrolled in the two-lesson football course, reports the first
    lesson as completed, through either procedure: the record of the user
    and the course holds 50.  Recomputed for a course without lessons, a
    record that held 50 holds 0. *)
Lemma completionRate_recomputed_witness :
  (exists d' r sp,
     studentRouter.updateLessonProgress Sample.env "cuser000001"
       (studentRouter.UpdateLessonProgress.mkInput "clesson0001" 120 120 (Some true))
       Sample.db_enrolled = (d', inr r)
     /\ In sp (studentProgresses d')
     /\ StudentProgress.userId sp = "cuser000001"
     /\ StudentProgress.courseId sp = "ccourse0001"
     /\ StudentProgress.completionRate sp == 50)
  /\ (exists d' r sp,
        studentRouter.markLessonComplete Sample.env "cuser000001"
          (studentRouter.MarkLessonComplete.mkInput "clesson0001" 120)
          Sample.db_enrolled = (d', inr r)
        /\ In sp (studentProgresses d')
        /\ StudentProgress.userId sp = "cuser000001"
        /\ StudentProgress.courseId sp = "ccourse0001"
        /\ StudentProgress.completionRate sp == 50)
  /\ (exists d' sp,
        updateCourseProgress Sample.env "cuser000001" "ccourse0001"
          Catalog.db_emptied = (d', inr tt)
        /\ In sp (studentProgresses d')
        /\ StudentProgress.userId sp = "cuser000001"
        /\ StudentProgress.courseId sp = "ccourse0001"
        /\ StudentProgress.completionRate sp == 0).
Proof.
  assert (Hu : lesson_ids_unique Sample.db_enrolled).
  { unfold lesson_ids_unique. simpl.
    repeat (constructor; [simpl; intuition discriminate |]). constructor. }
  assert (Hu0 : lesson_ids_unique Catalog.db_emptied) by constructor.
  split; [| split].
  - destruct (studentRouter.updateLessonProgress Sample.env "cuser000001"
                (studentRouter.UpdateLessonProgress.mkInput "clesson0001" 120 120
                   (Some true)) Sample.db_enrolled)
      as [d' [ex | r]] eqn:Hrun; [vm_compute in Hrun; discriminate |].
    destruct (proj1 (completionRate_recomputed Sample.env "cuser000001"
                       Sample.db_enrolled d' Hu) _ r Hrun)
      as [lesson [sp [Hin [Hid [Hpos [[Hsp [Huser [Hcourse [Hrate _]]]] _]]]]]].
    assert (Hc : Lesson.courseId lesson = "ccourse0001").
    { vm_compute in Hrun. inversion Hrun; subst d'. simpl in Hin, Hid.
      destruct Hin as [Hl | [Hl | []]]; subst lesson; reflexivity. }
    rewrite Hc in *.
    exists d', r, sp. split; [reflexivity |].
    repeat (split; [assumption |]).
    rewrite (Hrate Hpos).
    vm_compute in Hrun. inversion Hrun; subst d'. vm_compute. reflexivity.
  - destruct (studentRouter.markLessonComplete Sample.env "cuser000001"
                (studentRouter.MarkLessonComplete.mkInput "clesson0001" 120)
                Sample.db_enrolled)
      as [d' [ex | r]] eqn:Hrun; [vm_compute in Hrun; discriminate |].
    destruct (proj1 (proj2 (completionRate_recomputed Sample.env "cuser000001"
                              Sample.db_enrolled d' Hu)) _ r Hrun)
      as [lesson [sp [Hin [Hid [Hpos [[Hsp [Huser [Hcourse [Hrate _]]]] _]]]]]].
    assert (Hc : Lesson.courseId lesson = "ccourse0001").
    { vm_compute in Hrun. inversion Hrun; subst d'. simpl in Hin, Hid.
      destruct Hin as [Hl | [Hl | []]]; subst lesson; reflexivity. }
    rewrite Hc in *.
    exists d', r, sp. split; [reflexivity |].
    repeat (split; [assumption |]).
    rewrite (Hrate Hpos).
    vm_compute in Hrun. inversion Hrun; subst d'. vm_compute. reflexivity.
  - destruct (updateCourseProgress Sample.env "cuser000001" "ccourse0001"
                Catalog.db_emptied) as [d' [ex | u]] eqn:Hrun;
      [vm_compute in Hrun; discriminate |].
    destruct (proj2 (proj2 (completionRate_recomputed Sample.env "cuser000001"
                              Catalog.db_emptied d' Hu0)) _ u Hrun)
      as [sp [[Hsp [Huser [Hcourse [_ Hzero]]]] _]].
    exists d', sp. destruct u. split; [reflexivity |].
    repeat (split; [assumption |]).
    apply Hzero. vm_compute in Hrun. inversion Hrun; subst d'. reflexivity.
Defined.
